(** * Squat detector: a shallow embedding of [backend/squat_detector.py]

    The detector consumes pose frames (lists of landmarks), measures joint
    angles and drives a standing/squatting state machine that counts
    repetitions and grades their form.

    Numbers.  Python [float]s are idealised as real numbers ([R]): the
    detector only compares them with constants and with each other, and the
    geometry helpers are the usual real functions.  Rounding, signed zeros,
    infinities and NaN are outside the model.  Python [int]s are [Z].

    Effects.  A method of the class is a function from the detector state to
    a result that is either a value together with the new state, or a raised
    exception.  Calls to [logger] write nothing the detector reads back and
    are left out; the assignment to [last_log_frame] that sits in the logging
    block is kept.

    [backend/main.py] only moves frames and results between the network and
    one detector per session; it is not modelled. *)

From Stdlib Require Import Reals Lra ZArith Lia List String Bool DecimalString.
Import ListNotations.

Local Open Scope Z_scope.

(** ** Comparisons of reals, as booleans *)

Definition Rltb (a b : R) : bool := if Rlt_dec a b then true else false.
Definition Rleb (a b : R) : bool := if Rle_dec a b then true else false.
Definition Rgeb (a b : R) : bool := if Rge_dec a b then true else false.
Definition Rgtb (a b : R) : bool := if Rgt_dec a b then true else false.
Definition Reqb (a b : R) : bool := if Req_dec_T a b then true else false.

(** ** Exceptions and the detector monad *)

Inductive Exn : Type :=
| IndexError
| ZeroDivisionError.

Inductive result (A : Type) : Type :=
| Ok (a : A)
| Raise (e : Exn).
Arguments Ok {A} a.
Arguments Raise {A} e.

Definition rbind {A B : Type} (r : result A) (k : A -> result B) : result B :=
  match r with
  | Ok a => k a
  | Raise e => Raise e
  end.

Notation "x <- r ;; k" := (rbind r (fun x => k))
  (at level 61, r at next level, right associativity).

(** [landmarks[i]] on a Python list, for a non-negative index. *)
Definition index {A : Type} (l : list A) (i : Z) : result A :=
  match nth_error l (Z.to_nat i) with
  | Some a => Ok a
  | None => Raise IndexError
  end.

(** [len(l)] *)
Definition len {A : Type} (l : list A) : Z := Z.of_nat (List.length l).

(** ** Landmarks *)

Module Landmark.
Record t : Type := mk { x : R; y : R; z : R; visibility : R }.
End Landmark.

(** ** Geometry *)

Module Geometry.
Local Open Scope R_scope.

(** [math.atan2(y, x)] on reals, with [atan2(0, 0) = 0]. *)
Definition atan2 (y x : R) : R :=
  if Rlt_dec 0 x then atan (y / x)
  else if Rlt_dec x 0 then
         if Rle_dec 0 y then atan (y / x) + PI else atan (y / x) - PI
  else if Rlt_dec 0 y then PI / 2
  else if Rlt_dec y 0 then - (PI / 2)
  else 0.

(** [math.degrees(r)] *)
Definition degrees (r : R) : R := r * (180 / PI).

Definition _calculate_angle (first_point mid_point last_point : Landmark.t) : R :=
  let radians :=
    atan2 (Landmark.y last_point - Landmark.y mid_point)
          (Landmark.x last_point - Landmark.x mid_point)
    - atan2 (Landmark.y first_point - Landmark.y mid_point)
            (Landmark.x first_point - Landmark.x mid_point) in
  let angle := degrees radians in
  let angle := if Rltb angle 0 then angle + 360 else angle in
  let angle := if Rgtb angle 180 then 360 - angle else angle in
  angle.

Definition _calculate_back_lean
    (left_shoulder right_shoulder left_hip right_hip : Landmark.t) : R :=
  let shoulder_mid_x := (Landmark.x left_shoulder + Landmark.x right_shoulder) / 2 in
  let shoulder_mid_y := (Landmark.y left_shoulder + Landmark.y right_shoulder) / 2 in
  let hip_mid_x := (Landmark.x left_hip + Landmark.x right_hip) / 2 in
  let hip_mid_y := (Landmark.y left_hip + Landmark.y right_hip) / 2 in
  let delta_x := shoulder_mid_x - hip_mid_x in
  let delta_y := shoulder_mid_y - hip_mid_y in
  let lean_angle := degrees (atan2 delta_x delta_y) in
  Rabs lean_angle.

Definition _calculate_hip_depth
    (left_hip right_hip left_knee right_knee : Landmark.t) : R :=
  let hip_y := (Landmark.y left_hip + Landmark.y right_hip) / 2 in
  let knee_y := (Landmark.y left_knee + Landmark.y right_knee) / 2 in
  if Reqb knee_y 0 then 0 else hip_y / knee_y.

End Geometry.

(** ** Data model *)

(** Results from squat analysis.  [checkpoint_results] is a Python dict with
    integer keys; it is kept as the list of its items in insertion order. *)
Record SquatAnalysis : Type := {
  is_squat_position : bool;
  knee_angle : R;
  hip_angle : R;
  back_angle : R;
  hip_depth : R;
  form_feedback : string;
  checkpoint_results : list (Z * bool)
}.

(** The attributes of a [SquatDetector] instance. *)
Record SquatDetector : Type := {
  squat_count : Z;
  total_attempts : Z;
  correct_squats : Z;
  missed_squats : Z;
  knee_correct_frames : Z;
  hip_correct_frames : Z;
  back_correct_frames : Z;
  total_frames_in_correct_squats : Z;
  current_squat_knee_frames : Z;
  current_squat_hip_frames : Z;
  current_squat_back_frames : Z;
  current_squat_total_frames : Z;
  was_standing : bool;
  is_currently_squatting : bool;
  lowest_knee_angle_this_squat : R;
  best_form_this_squat : bool;
  last_squat_analysis : option SquatAnalysis;
  last_squat_was_perfect : bool;
  squat_just_completed : bool;
  frame_count : Z;
  last_log_frame : Z
}.

(** [self.f = v], one function per attribute. *)

Definition set_squat_count (v : Z) (self : SquatDetector) : SquatDetector :=
  {| squat_count := v; total_attempts := total_attempts self;
     correct_squats := correct_squats self; missed_squats := missed_squats self;
     knee_correct_frames := knee_correct_frames self;
     hip_correct_frames := hip_correct_frames self;
     back_correct_frames := back_correct_frames self;
     total_frames_in_correct_squats := total_frames_in_correct_squats self;
     current_squat_knee_frames := current_squat_knee_frames self;
     current_squat_hip_frames := current_squat_hip_frames self;
     current_squat_back_frames := current_squat_back_frames self;
     current_squat_total_frames := current_squat_total_frames self;
     was_standing := was_standing self; is_currently_squatting := is_currently_squatting self;
     lowest_knee_angle_this_squat := lowest_knee_angle_this_squat self;
     best_form_this_squat := best_form_this_squat self;
     last_squat_analysis := last_squat_analysis self;
     last_squat_was_perfect := last_squat_was_perfect self;
     squat_just_completed := squat_just_completed self; frame_count := frame_count self;
     last_log_frame := last_log_frame self |}.

Definition set_total_attempts (v : Z) (self : SquatDetector) : SquatDetector :=
  {| squat_count := squat_count self; total_attempts := v;
     correct_squats := correct_squats self; missed_squats := missed_squats self;
     knee_correct_frames := knee_correct_frames self;
     hip_correct_frames := hip_correct_frames self;
     back_correct_frames := back_correct_frames self;
     total_frames_in_correct_squats := total_frames_in_correct_squats self;
     current_squat_knee_frames := current_squat_knee_frames self;
     current_squat_hip_frames := current_squat_hip_frames self;
     current_squat_back_frames := current_squat_back_frames self;
     current_squat_total_frames := current_squat_total_frames self;
     was_standing := was_standing self; is_currently_squatting := is_currently_squatting self;
     lowest_knee_angle_this_squat := lowest_knee_angle_this_squat self;
     best_form_this_squat := best_form_this_squat self;
     last_squat_analysis := last_squat_analysis self;
     last_squat_was_perfect := last_squat_was_perfect self;
     squat_just_completed := squat_just_completed self; frame_count := frame_count self;
     last_log_frame := last_log_frame self |}.

Definition set_correct_squats (v : Z) (self : SquatDetector) : SquatDetector :=
  {| squat_count := squat_count self; total_attempts := total_attempts self;
     correct_squats := v; missed_squats := missed_squats self;
     knee_correct_frames := knee_correct_frames self;
     hip_correct_frames := hip_correct_frames self;
     back_correct_frames := back_correct_frames self;
     total_frames_in_correct_squats := total_frames_in_correct_squats self;
     current_squat_knee_frames := current_squat_knee_frames self;
     current_squat_hip_frames := current_squat_hip_frames self;
     current_squat_back_frames := current_squat_back_frames self;
     current_squat_total_frames := current_squat_total_frames self;
     was_standing := was_standing self; is_currently_squatting := is_currently_squatting self;
     lowest_knee_angle_this_squat := lowest_knee_angle_this_squat self;
     best_form_this_squat := best_form_this_squat self;
     last_squat_analysis := last_squat_analysis self;
     last_squat_was_perfect := last_squat_was_perfect self;
     squat_just_completed := squat_just_completed self; frame_count := frame_count self;
     last_log_frame := last_log_frame self |}.

Definition set_missed_squats (v : Z) (self : SquatDetector) : SquatDetector :=
  {| squat_count := squat_count self; total_attempts := total_attempts self;
     correct_squats := correct_squats self; missed_squats := v;
     knee_correct_frames := knee_correct_frames self;
     hip_correct_frames := hip_correct_frames self;
     back_correct_frames := back_correct_frames self;
     total_frames_in_correct_squats := total_frames_in_correct_squats self;
     current_squat_knee_frames := current_squat_knee_frames self;
     current_squat_hip_frames := current_squat_hip_frames self;
     current_squat_back_frames := current_squat_back_frames self;
     current_squat_total_frames := current_squat_total_frames self;
     was_standing := was_standing self; is_currently_squatting := is_currently_squatting self;
     lowest_knee_angle_this_squat := lowest_knee_angle_this_squat self;
     best_form_this_squat := best_form_this_squat self;
     last_squat_analysis := last_squat_analysis self;
     last_squat_was_perfect := last_squat_was_perfect self;
     squat_just_completed := squat_just_completed self; frame_count := frame_count self;
     last_log_frame := last_log_frame self |}.

Definition set_knee_correct_frames (v : Z) (self : SquatDetector) : SquatDetector :=
  {| squat_count := squat_count self; total_attempts := total_attempts self;
     correct_squats := correct_squats self; missed_squats := missed_squats self;
     knee_correct_frames := v; hip_correct_frames := hip_correct_frames self;
     back_correct_frames := back_correct_frames self;
     total_frames_in_correct_squats := total_frames_in_correct_squats self;
     current_squat_knee_frames := current_squat_knee_frames self;
     current_squat_hip_frames := current_squat_hip_frames self;
     current_squat_back_frames := current_squat_back_frames self;
     current_squat_total_frames := current_squat_total_frames self;
     was_standing := was_standing self; is_currently_squatting := is_currently_squatting self;
     lowest_knee_angle_this_squat := lowest_knee_angle_this_squat self;
     best_form_this_squat := best_form_this_squat self;
     last_squat_analysis := last_squat_analysis self;
     last_squat_was_perfect := last_squat_was_perfect self;
     squat_just_completed := squat_just_completed self; frame_count := frame_count self;
     last_log_frame := last_log_frame self |}.

Definition set_hip_correct_frames (v : Z) (self : SquatDetector) : SquatDetector :=
  {| squat_count := squat_count self; total_attempts := total_attempts self;
     correct_squats := correct_squats self; missed_squats := missed_squats self;
     knee_correct_frames := knee_correct_frames self; hip_correct_frames := v;
     back_correct_frames := back_correct_frames self;
     total_frames_in_correct_squats := total_frames_in_correct_squats self;
     current_squat_knee_frames := current_squat_knee_frames self;
     current_squat_hip_frames := current_squat_hip_frames self;
     current_squat_back_frames := current_squat_back_frames self;
     current_squat_total_frames := current_squat_total_frames self;
     was_standing := was_standing self; is_currently_squatting := is_currently_squatting self;
     lowest_knee_angle_this_squat := lowest_knee_angle_this_squat self;
     best_form_this_squat := best_form_this_squat self;
     last_squat_analysis := last_squat_analysis self;
     last_squat_was_perfect := last_squat_was_perfect self;
     squat_just_completed := squat_just_completed self; frame_count := frame_count self;
     last_log_frame := last_log_frame self |}.

Definition set_back_correct_frames (v : Z) (self : SquatDetector) : SquatDetector :=
  {| squat_count := squat_count self; total_attempts := total_attempts self;
     correct_squats := correct_squats self; missed_squats := missed_squats self;
     knee_correct_frames := knee_correct_frames self;
     hip_correct_frames := hip_correct_frames self; back_correct_frames := v;
     total_frames_in_correct_squats := total_frames_in_correct_squats self;
     current_squat_knee_frames := current_squat_knee_frames self;
     current_squat_hip_frames := current_squat_hip_frames self;
     current_squat_back_frames := current_squat_back_frames self;
     current_squat_total_frames := current_squat_total_frames self;
     was_standing := was_standing self; is_currently_squatting := is_currently_squatting self;
     lowest_knee_angle_this_squat := lowest_knee_angle_this_squat self;
     best_form_this_squat := best_form_this_squat self;
     last_squat_analysis := last_squat_analysis self;
     last_squat_was_perfect := last_squat_was_perfect self;
     squat_just_completed := squat_just_completed self; frame_count := frame_count self;
     last_log_frame := last_log_frame self |}.

Definition set_total_frames_in_correct_squats (v : Z) (self : SquatDetector) : SquatDetector :=
  {| squat_count := squat_count self; total_attempts := total_attempts self;
     correct_squats := correct_squats self; missed_squats := missed_squats self;
     knee_correct_frames := knee_correct_frames self;
     hip_correct_frames := hip_correct_frames self;
     back_correct_frames := back_correct_frames self; total_frames_in_correct_squats := v;
     current_squat_knee_frames := current_squat_knee_frames self;
     current_squat_hip_frames := current_squat_hip_frames self;
     current_squat_back_frames := current_squat_back_frames self;
     current_squat_total_frames := current_squat_total_frames self;
     was_standing := was_standing self; is_currently_squatting := is_currently_squatting self;
     lowest_knee_angle_this_squat := lowest_knee_angle_this_squat self;
     best_form_this_squat := best_form_this_squat self;
     last_squat_analysis := last_squat_analysis self;
     last_squat_was_perfect := last_squat_was_perfect self;
     squat_just_completed := squat_just_completed self; frame_count := frame_count self;
     last_log_frame := last_log_frame self |}.

Definition set_current_squat_knee_frames (v : Z) (self : SquatDetector) : SquatDetector :=
  {| squat_count := squat_count self; total_attempts := total_attempts self;
     correct_squats := correct_squats self; missed_squats := missed_squats self;
     knee_correct_frames := knee_correct_frames self;
     hip_correct_frames := hip_correct_frames self;
     back_correct_frames := back_correct_frames self;
     total_frames_in_correct_squats := total_frames_in_correct_squats self;
     current_squat_knee_frames := v; current_squat_hip_frames := current_squat_hip_frames self;
     current_squat_back_frames := current_squat_back_frames self;
     current_squat_total_frames := current_squat_total_frames self;
     was_standing := was_standing self; is_currently_squatting := is_currently_squatting self;
     lowest_knee_angle_this_squat := lowest_knee_angle_this_squat self;
     best_form_this_squat := best_form_this_squat self;
     last_squat_analysis := last_squat_analysis self;
     last_squat_was_perfect := last_squat_was_perfect self;
     squat_just_completed := squat_just_completed self; frame_count := frame_count self;
     last_log_frame := last_log_frame self |}.

Definition set_current_squat_hip_frames (v : Z) (self : SquatDetector) : SquatDetector :=
  {| squat_count := squat_count self; total_attempts := total_attempts self;
     correct_squats := correct_squats self; missed_squats := missed_squats self;
     knee_correct_frames := knee_correct_frames self;
     hip_correct_frames := hip_correct_frames self;
     back_correct_frames := back_correct_frames self;
     total_frames_in_correct_squats := total_frames_in_correct_squats self;
     current_squat_knee_frames := current_squat_knee_frames self;
     current_squat_hip_frames := v;
     current_squat_back_frames := current_squat_back_frames self;
     current_squat_total_frames := current_squat_total_frames self;
     was_standing := was_standing self; is_currently_squatting := is_currently_squatting self;
     lowest_knee_angle_this_squat := lowest_knee_angle_this_squat self;
     best_form_this_squat := best_form_this_squat self;
     last_squat_analysis := last_squat_analysis self;
     last_squat_was_perfect := last_squat_was_perfect self;
     squat_just_completed := squat_just_completed self; frame_count := frame_count self;
     last_log_frame := last_log_frame self |}.

Definition set_current_squat_back_frames (v : Z) (self : SquatDetector) : SquatDetector :=
  {| squat_count := squat_count self; total_attempts := total_attempts self;
     correct_squats := correct_squats self; missed_squats := missed_squats self;
     knee_correct_frames := knee_correct_frames self;
     hip_correct_frames := hip_correct_frames self;
     back_correct_frames := back_correct_frames self;
     total_frames_in_correct_squats := total_frames_in_correct_squats self;
     current_squat_knee_frames := current_squat_knee_frames self;
     current_squat_hip_frames := current_squat_hip_frames self; current_squat_back_frames := v;
     current_squat_total_frames := current_squat_total_frames self;
     was_standing := was_standing self; is_currently_squatting := is_currently_squatting self;
     lowest_knee_angle_this_squat := lowest_knee_angle_this_squat self;
     best_form_this_squat := best_form_this_squat self;
     last_squat_analysis := last_squat_analysis self;
     last_squat_was_perfect := last_squat_was_perfect self;
     squat_just_completed := squat_just_completed self; frame_count := frame_count self;
     last_log_frame := last_log_frame self |}.

Definition set_current_squat_total_frames (v : Z) (self : SquatDetector) : SquatDetector :=
  {| squat_count := squat_count self; total_attempts := total_attempts self;
     correct_squats := correct_squats self; missed_squats := missed_squats self;
     knee_correct_frames := knee_correct_frames self;
     hip_correct_frames := hip_correct_frames self;
     back_correct_frames := back_correct_frames self;
     total_frames_in_correct_squats := total_frames_in_correct_squats self;
     current_squat_knee_frames := current_squat_knee_frames self;
     current_squat_hip_frames := current_squat_hip_frames self;
     current_squat_back_frames := current_squat_back_frames self;
     current_squat_total_frames := v; was_standing := was_standing self;
     is_currently_squatting := is_currently_squatting self;
     lowest_knee_angle_this_squat := lowest_knee_angle_this_squat self;
     best_form_this_squat := best_form_this_squat self;
     last_squat_analysis := last_squat_analysis self;
     last_squat_was_perfect := last_squat_was_perfect self;
     squat_just_completed := squat_just_completed self; frame_count := frame_count self;
     last_log_frame := last_log_frame self |}.

Definition set_was_standing (v : bool) (self : SquatDetector) : SquatDetector :=
  {| squat_count := squat_count self; total_attempts := total_attempts self;
     correct_squats := correct_squats self; missed_squats := missed_squats self;
     knee_correct_frames := knee_correct_frames self;
     hip_correct_frames := hip_correct_frames self;
     back_correct_frames := back_correct_frames self;
     total_frames_in_correct_squats := total_frames_in_correct_squats self;
     current_squat_knee_frames := current_squat_knee_frames self;
     current_squat_hip_frames := current_squat_hip_frames self;
     current_squat_back_frames := current_squat_back_frames self;
     current_squat_total_frames := current_squat_total_frames self; was_standing := v;
     is_currently_squatting := is_currently_squatting self;
     lowest_knee_angle_this_squat := lowest_knee_angle_this_squat self;
     best_form_this_squat := best_form_this_squat self;
     last_squat_analysis := last_squat_analysis self;
     last_squat_was_perfect := last_squat_was_perfect self;
     squat_just_completed := squat_just_completed self; frame_count := frame_count self;
     last_log_frame := last_log_frame self |}.

Definition set_is_currently_squatting (v : bool) (self : SquatDetector) : SquatDetector :=
  {| squat_count := squat_count self; total_attempts := total_attempts self;
     correct_squats := correct_squats self; missed_squats := missed_squats self;
     knee_correct_frames := knee_correct_frames self;
     hip_correct_frames := hip_correct_frames self;
     back_correct_frames := back_correct_frames self;
     total_frames_in_correct_squats := total_frames_in_correct_squats self;
     current_squat_knee_frames := current_squat_knee_frames self;
     current_squat_hip_frames := current_squat_hip_frames self;
     current_squat_back_frames := current_squat_back_frames self;
     current_squat_total_frames := current_squat_total_frames self;
     was_standing := was_standing self; is_currently_squatting := v;
     lowest_knee_angle_this_squat := lowest_knee_angle_this_squat self;
     best_form_this_squat := best_form_this_squat self;
     last_squat_analysis := last_squat_analysis self;
     last_squat_was_perfect := last_squat_was_perfect self;
     squat_just_completed := squat_just_completed self; frame_count := frame_count self;
     last_log_frame := last_log_frame self |}.

Definition set_lowest_knee_angle_this_squat (v : R) (self : SquatDetector) : SquatDetector :=
  {| squat_count := squat_count self; total_attempts := total_attempts self;
     correct_squats := correct_squats self; missed_squats := missed_squats self;
     knee_correct_frames := knee_correct_frames self;
     hip_correct_frames := hip_correct_frames self;
     back_correct_frames := back_correct_frames self;
     total_frames_in_correct_squats := total_frames_in_correct_squats self;
     current_squat_knee_frames := current_squat_knee_frames self;
     current_squat_hip_frames := current_squat_hip_frames self;
     current_squat_back_frames := current_squat_back_frames self;
     current_squat_total_frames := current_squat_total_frames self;
     was_standing := was_standing self; is_currently_squatting := is_currently_squatting self;
     lowest_knee_angle_this_squat := v; best_form_this_squat := best_form_this_squat self;
     last_squat_analysis := last_squat_analysis self;
     last_squat_was_perfect := last_squat_was_perfect self;
     squat_just_completed := squat_just_completed self; frame_count := frame_count self;
     last_log_frame := last_log_frame self |}.

Definition set_best_form_this_squat (v : bool) (self : SquatDetector) : SquatDetector :=
  {| squat_count := squat_count self; total_attempts := total_attempts self;
     correct_squats := correct_squats self; missed_squats := missed_squats self;
     knee_correct_frames := knee_correct_frames self;
     hip_correct_frames := hip_correct_frames self;
     back_correct_frames := back_correct_frames self;
     total_frames_in_correct_squats := total_frames_in_correct_squats self;
     current_squat_knee_frames := current_squat_knee_frames self;
     current_squat_hip_frames := current_squat_hip_frames self;
     current_squat_back_frames := current_squat_back_frames self;
     current_squat_total_frames := current_squat_total_frames self;
     was_standing := was_standing self; is_currently_squatting := is_currently_squatting self;
     lowest_knee_angle_this_squat := lowest_knee_angle_this_squat self;
     best_form_this_squat := v; last_squat_analysis := last_squat_analysis self;
     last_squat_was_perfect := last_squat_was_perfect self;
     squat_just_completed := squat_just_completed self; frame_count := frame_count self;
     last_log_frame := last_log_frame self |}.

Definition set_last_squat_analysis (v : option SquatAnalysis) (self : SquatDetector) : SquatDetector :=
  {| squat_count := squat_count self; total_attempts := total_attempts self;
     correct_squats := correct_squats self; missed_squats := missed_squats self;
     knee_correct_frames := knee_correct_frames self;
     hip_correct_frames := hip_correct_frames self;
     back_correct_frames := back_correct_frames self;
     total_frames_in_correct_squats := total_frames_in_correct_squats self;
     current_squat_knee_frames := current_squat_knee_frames self;
     current_squat_hip_frames := current_squat_hip_frames self;
     current_squat_back_frames := current_squat_back_frames self;
     current_squat_total_frames := current_squat_total_frames self;
     was_standing := was_standing self; is_currently_squatting := is_currently_squatting self;
     lowest_knee_angle_this_squat := lowest_knee_angle_this_squat self;
     best_form_this_squat := best_form_this_squat self; last_squat_analysis := v;
     last_squat_was_perfect := last_squat_was_perfect self;
     squat_just_completed := squat_just_completed self; frame_count := frame_count self;
     last_log_frame := last_log_frame self |}.

Definition set_last_squat_was_perfect (v : bool) (self : SquatDetector) : SquatDetector :=
  {| squat_count := squat_count self; total_attempts := total_attempts self;
     correct_squats := correct_squats self; missed_squats := missed_squats self;
     knee_correct_frames := knee_correct_frames self;
     hip_correct_frames := hip_correct_frames self;
     back_correct_frames := back_correct_frames self;
     total_frames_in_correct_squats := total_frames_in_correct_squats self;
     current_squat_knee_frames := current_squat_knee_frames self;
     current_squat_hip_frames := current_squat_hip_frames self;
     current_squat_back_frames := current_squat_back_frames self;
     current_squat_total_frames := current_squat_total_frames self;
     was_standing := was_standing self; is_currently_squatting := is_currently_squatting self;
     lowest_knee_angle_this_squat := lowest_knee_angle_this_squat self;
     best_form_this_squat := best_form_this_squat self;
     last_squat_analysis := last_squat_analysis self; last_squat_was_perfect := v;
     squat_just_completed := squat_just_completed self; frame_count := frame_count self;
     last_log_frame := last_log_frame self |}.

Definition set_squat_just_completed (v : bool) (self : SquatDetector) : SquatDetector :=
  {| squat_count := squat_count self; total_attempts := total_attempts self;
     correct_squats := correct_squats self; missed_squats := missed_squats self;
     knee_correct_frames := knee_correct_frames self;
     hip_correct_frames := hip_correct_frames self;
     back_correct_frames := back_correct_frames self;
     total_frames_in_correct_squats := total_frames_in_correct_squats self;
     current_squat_knee_frames := current_squat_knee_frames self;
     current_squat_hip_frames := current_squat_hip_frames self;
     current_squat_back_frames := current_squat_back_frames self;
     current_squat_total_frames := current_squat_total_frames self;
     was_standing := was_standing self; is_currently_squatting := is_currently_squatting self;
     lowest_knee_angle_this_squat := lowest_knee_angle_this_squat self;
     best_form_this_squat := best_form_this_squat self;
     last_squat_analysis := last_squat_analysis self;
     last_squat_was_perfect := last_squat_was_perfect self; squat_just_completed := v;
     frame_count := frame_count self; last_log_frame := last_log_frame self |}.

Definition set_frame_count (v : Z) (self : SquatDetector) : SquatDetector :=
  {| squat_count := squat_count self; total_attempts := total_attempts self;
     correct_squats := correct_squats self; missed_squats := missed_squats self;
     knee_correct_frames := knee_correct_frames self;
     hip_correct_frames := hip_correct_frames self;
     back_correct_frames := back_correct_frames self;
     total_frames_in_correct_squats := total_frames_in_correct_squats self;
     current_squat_knee_frames := current_squat_knee_frames self;
     current_squat_hip_frames := current_squat_hip_frames self;
     current_squat_back_frames := current_squat_back_frames self;
     current_squat_total_frames := current_squat_total_frames self;
     was_standing := was_standing self; is_currently_squatting := is_currently_squatting self;
     lowest_knee_angle_this_squat := lowest_knee_angle_this_squat self;
     best_form_this_squat := best_form_this_squat self;
     last_squat_analysis := last_squat_analysis self;
     last_squat_was_perfect := last_squat_was_perfect self;
     squat_just_completed := squat_just_completed self; frame_count := v;
     last_log_frame := last_log_frame self |}.

Definition set_last_log_frame (v : Z) (self : SquatDetector) : SquatDetector :=
  {| squat_count := squat_count self; total_attempts := total_attempts self;
     correct_squats := correct_squats self; missed_squats := missed_squats self;
     knee_correct_frames := knee_correct_frames self;
     hip_correct_frames := hip_correct_frames self;
     back_correct_frames := back_correct_frames self;
     total_frames_in_correct_squats := total_frames_in_correct_squats self;
     current_squat_knee_frames := current_squat_knee_frames self;
     current_squat_hip_frames := current_squat_hip_frames self;
     current_squat_back_frames := current_squat_back_frames self;
     current_squat_total_frames := current_squat_total_frames self;
     was_standing := was_standing self; is_currently_squatting := is_currently_squatting self;
     lowest_knee_angle_this_squat := lowest_knee_angle_this_squat self;
     best_form_this_squat := best_form_this_squat self;
     last_squat_analysis := last_squat_analysis self;
     last_squat_was_perfect := last_squat_was_perfect self;
     squat_just_completed := squat_just_completed self; frame_count := frame_count self;
     last_log_frame := v |}.

(** A method: reads and writes the instance, returns a value or raises. *)
Definition M (A : Type) : Type := SquatDetector -> result (A * SquatDetector).

(** ** Class constants *)

Definition LEFT_SHOULDER : Z := 11.
Definition RIGHT_SHOULDER : Z := 12.
Definition LEFT_HIP : Z := 23.
Definition RIGHT_HIP : Z := 24.
Definition LEFT_KNEE : Z := 25.
Definition RIGHT_KNEE : Z := 26.
Definition LEFT_ANKLE : Z := 27.
Definition RIGHT_ANKLE : Z := 28.

Definition STANDING_KNEE_THRESHOLD : R := 130.
Definition SQUATTING_KNEE_THRESHOLD : R := 120.

Definition KNEE_PERFECT_MIN : R := 50.
Definition KNEE_PERFECT_MAX : R := 110.
Definition HIP_PERFECT_MIN : R := 60.
Definition HIP_PERFECT_MAX : R := 120.
Definition MIN_HIP_DEPTH_RATIO : R := 0.85.

Definition BACK_LEAN_MIN : R := 0.
Definition BACK_LEAN_MAX : R := 45.

(** ** Construction *)

Definition __init__ : SquatDetector :=
  {| squat_count := 0;
     total_attempts := 0;
     correct_squats := 0;
     missed_squats := 0;
     knee_correct_frames := 0;
     hip_correct_frames := 0;
     back_correct_frames := 0;
     total_frames_in_correct_squats := 0;
     current_squat_knee_frames := 0;
     current_squat_hip_frames := 0;
     current_squat_back_frames := 0;
     current_squat_total_frames := 0;
     was_standing := true;
     is_currently_squatting := false;
     lowest_knee_angle_this_squat := 180;
     best_form_this_squat := false;
     last_squat_analysis := None;
     last_squat_was_perfect := false;
     squat_just_completed := false;
     frame_count := 0;
     last_log_frame := 0 |}.

(** ** Helper methods *)

Definition _generate_checkpoints
    (shoulders_good hips_good knees_good ankles_good : bool) : list (Z * bool) :=
  [ (LEFT_SHOULDER, negb shoulders_good);
    (RIGHT_SHOULDER, negb shoulders_good);
    (LEFT_HIP, negb hips_good);
    (RIGHT_HIP, negb hips_good);
    (LEFT_KNEE, negb knees_good);
    (RIGHT_KNEE, negb knees_good);
    (LEFT_ANKLE, negb ankles_good);
    (RIGHT_ANKLE, negb ankles_good) ].

(** [issues.append(s)] under a condition. *)
Definition append_if (c : bool) (s : string) (issues : list string) : list string :=
  if c then issues ++ [s] else issues.

Definition _generate_feedback
    (is_perfect shoulders_good hips_good knees_good ankles_good is_squatting : bool)
    : string :=
  if is_perfect && is_squatting then "Perfect form!"%string
  else if is_squatting then
    let issues := [] in
    let issues := append_if (negb hips_good) "Hips"%string issues in
    let issues := append_if (negb knees_good) "Knees"%string issues in
    let issues := append_if (negb ankles_good) "Depth"%string issues in
    match issues with
    | _ :: _ => ("Fix: " ++ String.concat ", " (firstn 2 issues))%string
    | [] => "Keep going"%string
    end
  else "Ready to squat"%string.

Definition _get_empty_analysis (feedback : string) : SquatAnalysis :=
  {| is_squat_position := false;
     knee_angle := 0;
     hip_angle := 0;
     back_angle := 0;
     hip_depth := 0;
     form_feedback := feedback;
     checkpoint_results := [] |}.

(** ** [detect_squat] *)

(** The eight landmarks the method reads, [landmarks[self.LEFT_HIP]] and so
    on; each lookup can raise [IndexError]. *)
Record Joints : Type := {
  left_shoulder : Landmark.t;
  right_shoulder : Landmark.t;
  left_hip : Landmark.t;
  right_hip : Landmark.t;
  left_knee : Landmark.t;
  right_knee : Landmark.t;
  left_ankle : Landmark.t;
  right_ankle : Landmark.t
}.

Definition joints (landmarks : list Landmark.t) : result Joints :=
  lh <- index landmarks LEFT_HIP ;;
  lk <- index landmarks LEFT_KNEE ;;
  la <- index landmarks LEFT_ANKLE ;;
  rh <- index landmarks RIGHT_HIP ;;
  rk <- index landmarks RIGHT_KNEE ;;
  ra <- index landmarks RIGHT_ANKLE ;;
  ls <- index landmarks LEFT_SHOULDER ;;
  rs <- index landmarks RIGHT_SHOULDER ;;
  Ok {| left_shoulder := ls; right_shoulder := rs; left_hip := lh; right_hip := rh;
        left_knee := lk; right_knee := rk; left_ankle := la; right_ankle := ra |}.

(** The four numbers computed under "Calculate angles". *)
Record Measurement : Type := {
  avg_knee_angle : R;
  avg_hip_angle : R;
  back_lean : R;
  hip_depth_ratio : R
}.

Definition measure (j : Joints) : Measurement :=
  let left_knee_angle :=
    Geometry._calculate_angle (left_hip j) (left_knee j) (left_ankle j) in
  let right_knee_angle :=
    Geometry._calculate_angle (right_hip j) (right_knee j) (right_ankle j) in
  let left_hip_angle :=
    Geometry._calculate_angle (left_shoulder j) (left_hip j) (left_knee j) in
  let right_hip_angle :=
    Geometry._calculate_angle (right_shoulder j) (right_hip j) (right_knee j) in
  {| avg_knee_angle := ((left_knee_angle + right_knee_angle) / 2)%R;
     avg_hip_angle := ((left_hip_angle + right_hip_angle) / 2)%R;
     back_lean :=
       Geometry._calculate_back_lean
         (left_shoulder j) (right_shoulder j) (left_hip j) (right_hip j);
     hip_depth_ratio :=
       Geometry._calculate_hip_depth
         (left_hip j) (right_hip j) (left_knee j) (right_knee j) |}.

(** "Log every 30 frames": only the bookkeeping of the logging block. *)
Definition log_frame (self : SquatDetector) : SquatDetector :=
  if frame_count self - last_log_frame self >=? 30
  then set_last_log_frame (frame_count self) self
  else self.

(** "Check form" *)
Definition knees_good (m : Measurement) : bool :=
  Rleb KNEE_PERFECT_MIN (avg_knee_angle m) && Rleb (avg_knee_angle m) KNEE_PERFECT_MAX.
Definition hips_good (m : Measurement) : bool :=
  Rleb HIP_PERFECT_MIN (avg_hip_angle m) && Rleb (avg_hip_angle m) HIP_PERFECT_MAX.
Definition depth_good (m : Measurement) : bool :=
  Rgeb (hip_depth_ratio m) MIN_HIP_DEPTH_RATIO.
Definition back_good (m : Measurement) : bool :=
  Rleb BACK_LEAN_MIN (back_lean m) && Rleb (back_lean m) BACK_LEAN_MAX.
Definition lower_body_perfect (m : Measurement) : bool :=
  knees_good m && hips_good m && depth_good m.

(** "Track performance during squat" *)
Definition track (m : Measurement) (self : SquatDetector) : SquatDetector :=
  if is_currently_squatting self then
    let self :=
      set_current_squat_total_frames (current_squat_total_frames self + 1) self in
    let self :=
      if knees_good m
      then set_current_squat_knee_frames (current_squat_knee_frames self + 1) self
      else self in
    let self :=
      if hips_good m && depth_good m
      then set_current_squat_hip_frames (current_squat_hip_frames self + 1) self
      else self in
    let self :=
      if back_good m
      then set_current_squat_back_frames (current_squat_back_frames self + 1) self
      else self in
    let self :=
      if Rltb (avg_knee_angle m) (lowest_knee_angle_this_squat self)
      then set_lowest_knee_angle_this_squat (avg_knee_angle m) self
      else self in
    if lower_body_perfect m then set_best_form_this_squat true self else self
  else self.

(** "STATE MACHINE" *)
Definition is_standing (m : Measurement) : bool :=
  Rgeb (avg_knee_angle m) STANDING_KNEE_THRESHOLD.
Definition is_squatting (m : Measurement) : bool :=
  Rltb (avg_knee_angle m) SQUATTING_KNEE_THRESHOLD.

(** Which arm of the [if]/[elif] chain runs. *)
Inductive Transition : Type :=
| SquatStarted
| SquatCompleted
| StandingAgain
| NoTransition.

Definition transition (m : Measurement) (self : SquatDetector) : Transition :=
  if was_standing self && is_squatting m then SquatStarted
  else if negb (was_standing self) && is_standing m && is_currently_squatting self
  then SquatCompleted
  else if is_standing m then StandingAgain
  else NoTransition.

Definition squat_started (m : Measurement) (self : SquatDetector) : SquatDetector :=
  let self := set_is_currently_squatting true self in
  let self := set_was_standing false self in
  let self := set_lowest_knee_angle_this_squat (avg_knee_angle m) self in
  let self := set_best_form_this_squat false self in
  let self := set_current_squat_total_frames 0 self in
  let self := set_current_squat_knee_frames 0 self in
  let self := set_current_squat_hip_frames 0 self in
  set_current_squat_back_frames 0 self.

Definition squat_completed (self : SquatDetector) : SquatDetector :=
  let self := set_is_currently_squatting false self in
  let self := set_was_standing true self in
  let self := set_total_attempts (total_attempts self + 1) self in
  let self := set_squat_just_completed true self in
  let sufficient_depth := Rltb (lowest_knee_angle_this_squat self) 110 in
  if best_form_this_squat self && sufficient_depth then
    let self := set_squat_count (squat_count self + 1) self in
    let self := set_correct_squats (correct_squats self + 1) self in
    let self := set_last_squat_was_perfect true self in
    let self :=
      set_total_frames_in_correct_squats
        (total_frames_in_correct_squats self + current_squat_total_frames self) self in
    let self :=
      set_knee_correct_frames
        (knee_correct_frames self + current_squat_knee_frames self) self in
    let self :=
      set_hip_correct_frames
        (hip_correct_frames self + current_squat_hip_frames self) self in
    set_back_correct_frames
      (back_correct_frames self + current_squat_back_frames self) self
  else
    let self := set_missed_squats (missed_squats self + 1) self in
    set_last_squat_was_perfect false self.

Definition standing_again (self : SquatDetector) : SquatDetector :=
  let self := set_was_standing true self in
  set_is_currently_squatting false self.

Definition state_machine (m : Measurement) (self : SquatDetector) : SquatDetector :=
  match transition m self with
  | SquatStarted => squat_started m self
  | SquatCompleted => squat_completed self
  | StandingAgain => standing_again self
  | NoTransition => self
  end.

(** Everything [detect_squat] does once the angles are known. *)
Definition analyse (m : Measurement) (self : SquatDetector)
    : SquatAnalysis * SquatDetector :=
  let self := log_frame self in
  let is_perfect_form := lower_body_perfect m in
  let self := track m self in
  let self := state_machine m self in
  let checkpoints :=
    _generate_checkpoints
      (back_good m) (hips_good m && depth_good m) (knees_good m) (depth_good m) in
  let feedback :=
    _generate_feedback
      is_perfect_form (back_good m) (hips_good m) (knees_good m) (depth_good m)
      (is_currently_squatting self) in
  let squat_analysis :=
    {| is_squat_position := is_perfect_form;
       knee_angle := avg_knee_angle m;
       hip_angle := avg_hip_angle m;
       back_angle := back_lean m;
       hip_depth := hip_depth_ratio m;
       form_feedback := feedback;
       checkpoint_results := checkpoints |} in
  let self := set_last_squat_analysis (Some squat_analysis) self in
  (squat_analysis, self).

(** The argument of [detect_squat]: a list of landmarks, or [None]. *)
Definition Frame : Type := option (list Landmark.t).

(** [not landmarks]: [None] and the empty list are falsy. *)
Definition py_not (landmarks : Frame) : bool :=
  match landmarks with
  | None => true
  | Some [] => true
  | Some (_ :: _) => false
  end.

Definition detect_squat (landmarks : Frame) : M SquatAnalysis :=
  fun self =>
    let self := set_frame_count (frame_count self + 1) self in
    match landmarks with
    | None => Ok (_get_empty_analysis "No pose detected", self)
    | Some lms =>
        if py_not landmarks || (len lms <? 33)
        then Ok (_get_empty_analysis "No pose detected", self)
        else j <- joints lms ;; Ok (analyse (measure j) self)
    end.

(** ** The other public methods *)

Definition has_squat_just_completed : M bool :=
  fun self =>
    let completed := squat_just_completed self in
    let self := set_squat_just_completed false self in
    Ok (completed, self).

Definition was_last_squat_perfect : M bool :=
  fun self => Ok (last_squat_was_perfect self, self).

(** [str(n)] for an integer. *)
Definition str (n : Z) : string := NilZero.string_of_int (Z.to_int n).

Definition _determine_bad_squat_feedback : M string :=
  fun self =>
    match last_squat_analysis self with
    | None => Ok ("Please adjust your form"%string, self)
    | Some analysis =>
        if Rgeb (lowest_knee_angle_this_squat self) 110 then
          Ok ("Go deeper. Bend your knees more"%string, self)
        else if negb (Rleb KNEE_PERFECT_MIN (knee_angle analysis)
                      && Rleb (knee_angle analysis) KNEE_PERFECT_MAX) then
          Ok ("Please adjust your form. Check your knee position"%string, self)
        else if negb (Rleb HIP_PERFECT_MIN (hip_angle analysis)
                      && Rleb (hip_angle analysis) HIP_PERFECT_MAX) then
          Ok ("Please adjust your form. Push your hips back"%string, self)
        else if Rltb (hip_depth analysis) MIN_HIP_DEPTH_RATIO then
          Ok ("Please adjust your form. Go deeper"%string, self)
        else Ok ("Please adjust your form"%string, self)
    end.

(** [random.choice] is the only source of nondeterminism; the position it
    draws is the extra argument [draw]. *)
Definition get_squat_completion_feedback (draw : nat) (was_perfect : bool) : M string :=
  fun self =>
    if was_perfect then
      let phrases :=
        [ ("Great job! Perfect squat! " ++ str (squat_count self))%string;
          ("Nice form! Keep going! " ++ str (squat_count self))%string;
          ("Excellent squat, well done! " ++ str (squat_count self))%string;
          ("Perfect! That's " ++ str (squat_count self))%string;
          ("Amazing form! " ++ str (squat_count self) ++ " squats")%string ] in
      Ok (nth (draw mod List.length phrases) phrases EmptyString, self)
    else _determine_bad_squat_feedback self.

(** The dict returned by [get_feedback_data], one field per key. *)
Record FeedbackData : Type := {
  total : Z;
  correct : Z;
  missed : Z;
  kneePercentage : Z;
  hipPercentage : Z;
  backPercentage : Z;
  kneeCorrectFrames : Z;
  hipCorrectFrames : Z;
  backCorrectFrames : Z;
  totalFramesInCorrectSquats : Z
}.

(** [//] is floor division; so is [Z.div], and the guard keeps the divisor
    positive. *)
Definition get_feedback_data : M FeedbackData :=
  fun self =>
    let knee_percentage := 0 in
    let hip_percentage := 0 in
    let back_percentage := 0 in
    let '(knee_percentage, hip_percentage, back_percentage) :=
      if total_frames_in_correct_squats self >? 0 then
        ((knee_correct_frames self * 100) / total_frames_in_correct_squats self,
         (hip_correct_frames self * 100) / total_frames_in_correct_squats self,
         (back_correct_frames self * 100) / total_frames_in_correct_squats self)
      else (knee_percentage, hip_percentage, back_percentage) in
    Ok ({| total := total_attempts self;
           correct := correct_squats self;
           missed := missed_squats self;
           kneePercentage := knee_percentage;
           hipPercentage := hip_percentage;
           backPercentage := back_percentage;
           kneeCorrectFrames := knee_correct_frames self;
           hipCorrectFrames := hip_correct_frames self;
           backCorrectFrames := back_correct_frames self;
           totalFramesInCorrectSquats := total_frames_in_correct_squats self |},
        self).

Definition reset_squat_count : M unit :=
  fun self =>
    let self := set_squat_count 0 self in
    let self := set_total_attempts 0 self in
    let self := set_correct_squats 0 self in
    let self := set_missed_squats 0 self in
    let self := set_knee_correct_frames 0 self in
    let self := set_hip_correct_frames 0 self in
    let self := set_back_correct_frames 0 self in
    let self := set_total_frames_in_correct_squats 0 self in
    let self := set_current_squat_knee_frames 0 self in
    let self := set_current_squat_hip_frames 0 self in
    let self := set_current_squat_back_frames 0 self in
    let self := set_current_squat_total_frames 0 self in
    let self := set_last_squat_analysis None self in
    let self := set_last_squat_was_perfect false self in
    let self := set_squat_just_completed false self in
    let self := set_was_standing true self in
    let self := set_is_currently_squatting false self in
    let self := set_lowest_knee_angle_this_squat 180 self in
    let self := set_best_form_this_squat false self in
    let self := set_frame_count 0 self in
    let self := set_last_log_frame 0 self in
    Ok (tt, self).

Definition get_squat_count : M Z :=
  fun self => Ok (squat_count self, self).

(** Feeding a stream of frames, one [detect_squat] call per frame. *)
Fixpoint feed (frames : list Frame) : M (list SquatAnalysis) :=
  fun self =>
    match frames with
    | [] => Ok ([], self)
    | f :: rest =>
        match detect_squat f self with
        | Raise e => Raise e
        | Ok (a, self) =>
            match feed rest self with
            | Raise e => Raise e
            | Ok (out, self) => Ok (a :: out, self)
            end
        end
    end.

(** ** Vocabulary for the statements *)

(** The measurement [detect_squat] works with on a frame it accepts;
    [None] for a frame it rejects. *)
Definition measurement_of (f : Frame) : option Measurement :=
  match f with
  | None => None
  | Some lms =>
      if py_not f || (len lms <? 33) then None
      else match joints lms with
           | Ok j => Some (measure j)
           | Raise _ => None
           end
  end.

(** What one call of [detect_squat] returns and leaves behind; shown below
    to be the only outcome of the call. *)
Definition after (f : Frame) (self : SquatDetector) : SquatAnalysis * SquatDetector :=
  let self := set_frame_count (frame_count self + 1) self in
  match measurement_of f with
  | Some m => analyse m self
  | None => (_get_empty_analysis "No pose detected", self)
  end.

Fixpoint after_all (frames : list Frame) (self : SquatDetector)
    : list SquatAnalysis * SquatDetector :=
  match frames with
  | [] => ([], self)
  | f :: rest =>
      let (out, self') := after_all rest (snd (after f self)) in
      (fst (after f self) :: out, self')
  end.

(** A frame that is accepted and whose measurement satisfies [P]. *)
Definition accepted_with (P : Measurement -> Prop) (f : Frame) : Prop :=
  exists m, measurement_of f = Some m /\ P m.

(** A frame that cannot end a repetition: rejected, or with the knees
    below the standing threshold. *)
Definition not_standing (f : Frame) : Prop :=
  forall m, measurement_of f = Some m -> (avg_knee_angle m < STANDING_KNEE_THRESHOLD)%R.

(** The average knee angles of the accepted frames of a stream. *)
Definition knee_angles (frames : list Frame) : list R :=
  flat_map (fun f => match measurement_of f with
                     | Some m => [avg_knee_angle m]
                     | None => []
                     end) frames.

(** The smallest of [a] and the elements of [l]. *)
Definition minimum (a : R) (l : list R) : R := fold_left Rmin l a.

(** A boolean criterion on the measurement, read on a frame; a rejected frame
    fails it. *)
Definition frame_sat (c : Measurement -> bool) (f : Frame) : bool :=
  match measurement_of f with
  | Some m => c m
  | None => false
  end.

(** How many frames of a stream satisfy a criterion. *)
Definition count_frames (c : Measurement -> bool) (frames : list Frame) : Z :=
  Z.of_nat (List.length (filter (frame_sat c) frames)).

(** The smallest average knee angle over the accepted frames of a stream
    (180, the detector's initial value, when there is none). *)
Definition lowest_knee (frames : list Frame) : R :=
  match knee_angles frames with
  | [] => 180%R
  | a :: l => minimum a l
  end.

(** Knee, hip and depth all inside their target ranges, in numbers. *)
Definition perfect_form (m : Measurement) : Prop :=
  (50 <= avg_knee_angle m <= 110 /\
   60 <= avg_hip_angle m <= 120 /\
   0.85 <= hip_depth_ratio m)%R.

(** One repetition, seen from a detector that was standing: the frame that
    takes the knees below the squatting threshold, the frames processed
    while down, and the frame that brings the knees back to the standing
    threshold. *)
Definition repetition
    (self : SquatDetector) (start : Frame) (middle : list Frame) (finish : Frame)
    : Prop :=
  was_standing self = true /\
  accepted_with (fun m => (avg_knee_angle m < SQUATTING_KNEE_THRESHOLD)%R) start /\
  Forall not_standing middle /\
  accepted_with (fun m => (STANDING_KNEE_THRESHOLD <= avg_knee_angle m)%R) finish.

(** The issue list of the real-time feedback, as the spec words it: the
    hip label stands for the hip check folded with the depth check. *)
Definition issues_as_specified (m : Measurement) : list string :=
  append_if (negb (depth_good m)) "Depth"%string
    (append_if (negb (knees_good m)) "Knees"%string
       (append_if (negb (hips_good m && depth_good m)) "Hips"%string [])).

(** The issue list the method builds from the arguments it is called with. *)
Definition issues_as_built (m : Measurement) : list string :=
  append_if (negb (depth_good m)) "Depth"%string
    (append_if (negb (knees_good m)) "Knees"%string
       (append_if (negb (hips_good m)) "Hips"%string [])).

(** The states one detector instance can be in: freshly constructed, or
    after any public method call. *)
Inductive reachable : SquatDetector -> Prop :=
| reach_init : reachable __init__
| reach_detect_squat f self a self' :
    reachable self -> detect_squat f self = Ok (a, self') -> reachable self'
| reach_has_squat_just_completed self b self' :
    reachable self -> has_squat_just_completed self = Ok (b, self') -> reachable self'
| reach_was_last_squat_perfect self b self' :
    reachable self -> was_last_squat_perfect self = Ok (b, self') -> reachable self'
| reach_get_squat_completion_feedback draw was_perfect self s self' :
    reachable self ->
    get_squat_completion_feedback draw was_perfect self = Ok (s, self') ->
    reachable self'
| reach_get_feedback_data self d self' :
    reachable self -> get_feedback_data self = Ok (d, self') -> reachable self'
| reach_get_squat_count self n self' :
    reachable self -> get_squat_count self = Ok (n, self') -> reachable self'
| reach_reset_squat_count self u self' :
    reachable self -> reset_squat_count self = Ok (u, self') -> reachable self'.

(** The arm of the state machine each frame of a stream takes; [None] for a
    rejected frame, which never reaches the state machine. *)
Fixpoint fired (frames : list Frame) (self : SquatDetector) : list (option Transition) :=
  match frames with
  | [] => []
  | f :: rest =>
      match measurement_of f with
      | Some m =>
          Some (transition m
                  (track m (log_frame (set_frame_count (frame_count self + 1) self))))
      | None => None
      end :: fired rest (snd (after f self))
  end.

(** Groups of attributes that a call leaves as they were. *)
Definition same_posture (self self' : SquatDetector) : Prop :=
  was_standing self' = was_standing self /\
  is_currently_squatting self' = is_currently_squatting self.

Definition same_counters (self self' : SquatDetector) : Prop :=
  total_attempts self' = total_attempts self /\
  correct_squats self' = correct_squats self /\
  missed_squats self' = missed_squats self /\
  squat_count self' = squat_count self.

Definition same_accumulators (self self' : SquatDetector) : Prop :=
  knee_correct_frames self' = knee_correct_frames self /\
  hip_correct_frames self' = hip_correct_frames self /\
  back_correct_frames self' = back_correct_frames self /\
  total_frames_in_correct_squats self' = total_frames_in_correct_squats self.

(** The knees inside the hysteresis band. *)
Definition in_band (m : Measurement) : Prop :=
  (SQUATTING_KNEE_THRESHOLD <= avg_knee_angle m < STANDING_KNEE_THRESHOLD)%R.

(** [was_standing] and [is_currently_squatting] are not both set. *)
Definition posture_consistent (self : SquatDetector) : Prop :=
  ~ (was_standing self = true /\ is_currently_squatting self = true).

(** ** Sample poses *)

Definition pt (x y : R) : Landmark.t := Landmark.mk x y 0 1.

(** A 33-landmark frame with the eight joints the detector reads. *)
Definition pose (ls rs lh rh lk rk la ra : Landmark.t) : list Landmark.t :=
  repeat (pt 0 0) 11 ++ [ls; rs] ++ repeat (pt 0 0) 10
    ++ [lh; rh; lk; rk; la; ra] ++ repeat (pt 0 0) 4.

(** Left and right sides alike. *)
Definition side_pose (shoulder hip knee ankle : Landmark.t) : Frame :=
  Some (pose shoulder shoulder hip hip knee knee ankle ankle).

(** Legs straight: knee angle 180. *)
Definition standing_pose : Frame :=
  side_pose (pt (1/2) (1/5)) (pt (1/2) (2/5)) (pt (1/2) (3/5)) (pt (1/2) (4/5)).

(** Thighs level, shins and trunk upright: knee 90, hip 90, depth ratio 1. *)
Definition deep_squat_pose : Frame :=
  side_pose (pt (3/10) (1/2)) (pt (3/10) (7/10)) (pt (1/2) (7/10)) (pt (1/2) (9/10)).

(** Knee 90 and hip 90, but the hips well above the knees: depth ratio 1/2. *)
Definition high_hips_pose : Frame :=
  side_pose (pt (3/10) (3/10)) (pt (1/2) (3/10)) (pt (1/2) (3/5)) (pt (7/10) (3/5)).

(** Knees bent to exactly 120 degrees. *)
Definition half_bent_pose : Frame :=
  side_pose (pt (1/2) (1/5)) (pt (1/2) (2/5)) (pt (1/2) (3/5))
            (pt (1/2 + sqrt 3 / 10) (7/10)).

(** A new detector that has just seen [deep_squat_pose]: it is down. *)
Definition squatting_detector : SquatDetector :=
  snd (after deep_squat_pose __init__).

(** A detector with 80 knee-good frames out of 120 frames of perfect
    repetitions. *)
Definition detector_80_of_120 : SquatDetector :=
  set_knee_correct_frames 80 (set_total_frames_in_correct_squats 120 __init__).

(** ** Vocabulary for further properties *)



(** The two folding steps at the end of [_calculate_angle]. *)
Definition fold_angle (angle : R) : R :=
  let angle := if Rltb angle 0 then (angle + 360)%R else angle in
  if Rgtb angle 180 then (360 - angle)%R else angle.

(** The vector from the hip midpoint to the shoulder midpoint, the
    [delta_x] and [delta_y] of [_calculate_back_lean]. *)
Definition trunk_dx (j : Joints) : R :=
  ((Landmark.x (left_shoulder j) + Landmark.x (right_shoulder j)) / 2
   - (Landmark.x (left_hip j) + Landmark.x (right_hip j)) / 2)%R.

Definition trunk_dy (j : Joints) : R :=
  ((Landmark.y (left_shoulder j) + Landmark.y (right_shoulder j)) / 2
   - (Landmark.y (left_hip j) + Landmark.y (right_hip j)) / 2)%R.


(** A person standing upright in image coordinates, [y] growing downwards. *)
Definition upright_joints : Joints :=
  {| left_shoulder := pt (1/2) (1/5); right_shoulder := pt (1/2) (1/5);
     left_hip := pt (1/2) (2/5); right_hip := pt (1/2) (2/5);
     left_knee := pt (1/2) (3/5); right_knee := pt (1/2) (3/5);
     left_ankle := pt (1/2) (4/5); right_ankle := pt (1/2) (4/5) |}.

(** [d.get(k)] on a dict kept as its list of items. *)
Fixpoint dict_get (k : Z) (d : list (Z * bool)) : option bool :=
  match d with
  | [] => None
  | (k', v) :: rest => if k =? k' then Some v else dict_get k rest
  end.

(** No tally is negative, and no count of good frames exceeds the count of
    frames it is taken from, for the lifetime accumulators and for the
    counters of the repetition under way. *)
Definition tallies_bounded (self : SquatDetector) : Prop :=
  0 <= total_attempts self /\
  0 <= correct_squats self /\
  0 <= missed_squats self /\
  0 <= knee_correct_frames self <= total_frames_in_correct_squats self /\
  0 <= hip_correct_frames self <= total_frames_in_correct_squats self /\
  0 <= back_correct_frames self <= total_frames_in_correct_squats self /\
  0 <= current_squat_knee_frames self <= current_squat_total_frames self /\
  0 <= current_squat_hip_frames self <= current_squat_total_frames self /\
  0 <= current_squat_back_frames self <= current_squat_total_frames self.

Definition Transition_eqb (t u : Transition) : bool :=
  match t, u with
  | SquatStarted, SquatStarted => true
  | SquatCompleted, SquatCompleted => true
  | StandingAgain, StandingAgain => true
  | NoTransition, NoTransition => true
  | _, _ => false
  end.

(** How many frames of a stream took the arm [t]. *)
Definition count_fired (t : Transition) (l : list (option Transition)) : Z :=
  Z.of_nat (List.length (filter (fun o => match o with
                                          | Some u => Transition_eqb t u
                                          | None => false
                                          end) l)).

(** 1 for a detector that is down, 0 otherwise. *)
Definition down (self : SquatDetector) : Z :=
  if is_currently_squatting self then 1 else 0.

(** A new detector after one perfect repetition. *)
Definition detector_after_one_squat : SquatDetector :=
  snd (after_all [deep_squat_pose; deep_squat_pose; standing_pose] __init__).

(** The five congratulation phrases for a count [n]. *)
Definition congratulations (n : Z) : list string :=
  [ ("Great job! Perfect squat! " ++ str n)%string;
    ("Nice form! Keep going! " ++ str n)%string;
    ("Excellent squat, well done! " ++ str n)%string;
    ("Perfect! That's " ++ str n)%string;
    ("Amazing form! " ++ str n ++ " squats")%string ].

(** A new detector that has seen two deep squat frames: down, with a frame
    of perfect form tracked. *)
Definition detector_down_with_form : SquatDetector :=
  snd (after_all [deep_squat_pose; deep_squat_pose] __init__).

(** The summary of a detector that has counted nothing. *)
Definition empty_summary : FeedbackData :=
  {| total := 0; correct := 0; missed := 0;
     kneePercentage := 0; hipPercentage := 0; backPercentage := 0;
     kneeCorrectFrames := 0; hipCorrectFrames := 0; backCorrectFrames := 0;
     totalFramesInCorrectSquats := 0 |}.

(** The detector with its frame bookkeeping blanked: every attribute but
    [frame_count] and [last_log_frame]. *)
Definition forget_frames (self : SquatDetector) : SquatDetector :=
  set_last_log_frame 0 (set_frame_count 0 self).

(** Whether [detect_squat] accepts the frame. *)
Definition accepted (f : Frame) : bool :=
  match measurement_of f with
  | Some _ => true
  | None => false
  end.

(** ** The caller in [backend/main.py]

    The calls the websocket loop makes on the session's detector for a frame
    in which a pose was found (lines 224 to 230 and 245): the analysis, the
    voice feedback and the count that go into the response.  Decoding the
    image, finding the pose, rounding and sending the response are outside
    the model. *)
Definition pose_frame_calls (draw : nat) (landmarks : list Landmark.t)
    : M (SquatAnalysis * option string * Z) :=
  fun detector =>
    match detect_squat (Some landmarks) detector with
    | Raise e => Raise e
    | Ok (squat_analysis, detector) =>
        let voice_feedback := None in
        match has_squat_just_completed detector with
        | Raise e => Raise e
        | Ok (completed, detector) =>
            match
              (if completed then
                 match was_last_squat_perfect detector with
                 | Raise e => Raise e
                 | Ok (was_perfect, detector) =>
                     match get_squat_completion_feedback draw was_perfect detector with
                     | Raise e => Raise e
                     | Ok (s, detector) => Ok (Some s, detector)
                     end
                 end
               else Ok (voice_feedback, detector))
            with
            | Raise e => Raise e
            | Ok (voice_feedback, detector) =>
                match get_squat_count detector with
                | Raise e => Raise e
                | Ok (n, detector) => Ok ((squat_analysis, voice_feedback, n), detector)
                end
            end
        end
    end.

(** Whether the frame takes the completion arm on this detector. *)
Definition completes (f : Frame) (self : SquatDetector) : bool :=
  match measurement_of f with
  | Some m => Transition_eqb (transition m self) SquatCompleted
  | None => false
  end.

(** The [hip_y] and [knee_y] of [_calculate_hip_depth]. *)
Definition hip_mid_y (j : Joints) : R :=
  ((Landmark.y (left_hip j) + Landmark.y (right_hip j)) / 2)%R.

Definition knee_mid_y (j : Joints) : R :=
  ((Landmark.y (left_knee j) + Landmark.y (right_knee j)) / 2)%R.

(** Two landmarks at the same place of the image; depth and visibility may
    differ. *)
Definition same_place (p q : Landmark.t) : Prop :=
  Landmark.x p = Landmark.x q /\ Landmark.y p = Landmark.y q.

(** Two sets of joints at the same places of the image. *)
Definition same_places (j j' : Joints) : Prop :=
  same_place (left_shoulder j) (left_shoulder j') /\
  same_place (right_shoulder j) (right_shoulder j') /\
  same_place (left_hip j) (left_hip j') /\
  same_place (right_hip j) (right_hip j') /\
  same_place (left_knee j) (left_knee j') /\
  same_place (right_knee j) (right_knee j') /\
  same_place (left_ankle j) (left_ankle j') /\
  same_place (right_ankle j) (right_ankle j').

(** A frame of 33 landmarks all at the origin. *)
Definition blank_pose : list Landmark.t := repeat (pt 0 0) 33.

(** The eight joints all at the origin. *)
Definition blank_joints : Joints :=
  {| left_shoulder := pt 0 0; right_shoulder := pt 0 0;
     left_hip := pt 0 0; right_hip := pt 0 0;
     left_knee := pt 0 0; right_knee := pt 0 0;
     left_ankle := pt 0 0; right_ankle := pt 0 0 |}.

(** The landmarks of [deep_squat_pose], and the same pose as another
    source might deliver it: other depths and visibilities, and one more
    landmark at the end. *)
Definition deep_squat_landmarks : list Landmark.t :=
  pose (pt (3/10) (1/2)) (pt (3/10) (1/2)) (pt (3/10) (7/10)) (pt (3/10) (7/10))
       (pt (1/2) (7/10)) (pt (1/2) (7/10)) (pt (1/2) (9/10)) (pt (1/2) (9/10)).

Definition deep_squat_landmarks_relabelled : list Landmark.t :=
  map (fun p => Landmark.mk (Landmark.x p) (Landmark.y p) 3 (1/2)) deep_squat_landmarks
    ++ [pt 9 9].

(** * Proofs *)

(** ** Facts about the geometry helpers *)

Section GeometryFacts.
Import Geometry.
Local Open Scope R_scope.


Local Ltac rdec :=
  repeat match goal with
  | |- context [Rlt_dec ?a ?b] => destruct (Rlt_dec a b)
  | |- context [Rle_dec ?a ?b] => destruct (Rle_dec a b)
  | |- context [Rge_dec ?a ?b] => destruct (Rge_dec a b)
  | |- context [Rgt_dec ?a ?b] => destruct (Rgt_dec a b)
  | |- context [Req_dec_T ?a ?b] => destruct (Req_dec_T a b)
  end.

Lemma atan2_bounds y x : - PI <= atan2 y x <= PI.
Proof.
  pose proof PI_RGT_0 as Hpi.
  pose proof (atan_bound (y / x)) as Hb.
  unfold atan2. rdec; try lra.
  - assert (y / x <= 0).
    { unfold Rdiv. assert (/ x < 0) by (apply Rinv_lt_0_compat; lra). nra. }
    assert (atan (y / x) <= 0).
    { destruct (Req_dec (y / x) 0) as [E|E].
      - rewrite E, atan_0. lra.
      - left. rewrite <- atan_0. apply atan_increasing. lra. }
    lra.
  - assert (0 < y / x).
    { unfold Rdiv. assert (/ x < 0) by (apply Rinv_lt_0_compat; lra). nra. }
    assert (0 < atan (y / x)).
    { rewrite <- atan_0. apply atan_increasing. lra. }
    lra.
Qed.

Lemma atan2_scale k y x : 0 < k -> atan2 (k * y) (k * x) = atan2 y x.
Proof.
  intros Hk. unfold atan2.
  assert (E : x <> 0 -> k * y / (k * x) = y / x) by (intros; field; lra).
  destruct (Rlt_dec 0 x) as [Hx|Hx].
  - destruct (Rlt_dec 0 (k * x)) as [_|N]; [|exfalso; apply N; nra].
    rewrite E by lra. reflexivity.
  - destruct (Rlt_dec 0 (k * x)) as [N|_]; [exfalso; nra|].
    destruct (Rlt_dec x 0) as [Hx'|Hx'].
    + destruct (Rlt_dec (k * x) 0) as [_|N]; [|exfalso; apply N; nra].
      rewrite E by lra.
      destruct (Rle_dec 0 y), (Rle_dec 0 (k * y)); try reflexivity; exfalso; nra.
    + destruct (Rlt_dec (k * x) 0) as [N|_]; [exfalso; nra|].
      destruct (Rlt_dec 0 y), (Rlt_dec 0 (k * y)); try reflexivity; try (exfalso; nra).
      destruct (Rlt_dec y 0), (Rlt_dec (k * y) 0); try reflexivity; exfalso; nra.
Qed.

Lemma atan2_opp y x :
  x <> 0 \/ y <> 0 ->
  atan2 (- y) (- x) - atan2 y x = PI \/ atan2 (- y) (- x) - atan2 y x = - PI.
Proof.
  intros Hnz. unfold atan2.
  assert (E : x <> 0 -> - y / - x = y / x) by (intros; field; lra).
  destruct (Rlt_dec 0 x) as [Hx|Hx].
  - destruct (Rlt_dec 0 (- x)); [lra|].
    destruct (Rlt_dec (- x) 0); [|lra].
    rewrite E by lra.
    destruct (Rle_dec 0 (- y)); [left|right]; lra.
  - destruct (Rlt_dec x 0) as [Hx'|Hx'].
    + destruct (Rlt_dec 0 (- x)); [|lra].
      rewrite E by lra.
      destruct (Rle_dec 0 y); [right|left]; lra.
    + assert (x = 0) by lra. subst x.
      destruct (Rlt_dec 0 (- 0)); [lra|].
      destruct (Rlt_dec (- 0) 0); [lra|].
      destruct (Rlt_dec 0 y).
      * destruct (Rlt_dec 0 (- y)); [lra|].
        destruct (Rlt_dec (- y) 0); [right; lra|lra].
      * destruct (Rlt_dec y 0).
        -- destruct (Rlt_dec 0 (- y)); [left; lra|lra].
        -- lra.
Qed.

Lemma degrees_bounds r : - (2 * PI) <= r <= 2 * PI -> -360 <= degrees r <= 360.
Proof.
  intros H. pose proof PI_RGT_0 as Hpi. unfold degrees.
  assert (E : r * (180 / PI) = (r / PI) * 180) by (field; lra).
  rewrite E.
  assert (-2 <= r / PI <= 2).
  { split.
    - apply Rmult_le_reg_r with PI; [lra|]. unfold Rdiv. rewrite Rmult_assoc, Rinv_l by lra. lra.
    - apply Rmult_le_reg_r with PI; [lra|]. unfold Rdiv. rewrite Rmult_assoc, Rinv_l by lra. lra. }
  lra.
Qed.

Lemma degrees_PI : degrees PI = 180.
Proof. pose proof PI_RGT_0. unfold degrees. field. lra. Qed.

Lemma degrees_opp r : degrees (- r) = - degrees r.
Proof. unfold degrees. ring. Qed.

Lemma degrees_0 : degrees 0 = 0.
Proof. unfold degrees. ring. Qed.

Lemma fold_angle_range a :
  -360 <= a <= 360 ->
  let a1 := if Rltb a 0 then a + 360 else a in
  0 <= (if Rgtb a1 180 then 360 - a1 else a1) <= 180.
Proof.
  intros H. unfold Rltb, Rgtb. cbv zeta.
  destruct (Rlt_dec a 0).
  - destruct (Rgt_dec (a + 360) 180); lra.
  - destruct (Rgt_dec a 180); lra.
Qed.

Lemma calculate_angle_range a b c : 0 <= _calculate_angle a b c <= 180.
Proof.
  unfold _calculate_angle. cbv zeta.
  apply fold_angle_range.
  apply degrees_bounds.
  pose proof (atan2_bounds (Landmark.y c - Landmark.y b) (Landmark.x c - Landmark.x b)).
  pose proof (atan2_bounds (Landmark.y a - Landmark.y b) (Landmark.x a - Landmark.x b)).
  lra.
Qed.

Lemma fold_angle_180 a :
  a = 180 \/ a = -180 ->
  (let a1 := if Rltb a 0 then a + 360 else a in
   if Rgtb a1 180 then 360 - a1 else a1) = 180.
Proof.
  intros H. unfold Rltb, Rgtb. cbv zeta.
  destruct (Rlt_dec a 0).
  - destruct (Rgt_dec (a + 360) 180); lra.
  - destruct (Rgt_dec a 180); lra.
Qed.

Lemma calculate_angle_opposite_rays a b c dx dy s t :
  0 < s -> 0 < t -> dx <> 0 \/ dy <> 0 ->
  Landmark.x a - Landmark.x b = s * dx ->
  Landmark.y a - Landmark.y b = s * dy ->
  Landmark.x c - Landmark.x b = t * - dx ->
  Landmark.y c - Landmark.y b = t * - dy ->
  _calculate_angle a b c = 180.
Proof.
  intros Hs Ht Hd Hax Hay Hcx Hcy.
  unfold _calculate_angle.
  rewrite Hax, Hay, Hcx, Hcy.
  rewrite !atan2_scale by assumption.
  apply fold_angle_180.
  destruct (atan2_opp dy dx Hd) as [E|E]; rewrite E.
  - left. apply degrees_PI.
  - right. rewrite degrees_opp, degrees_PI. reflexivity.
Qed.

Lemma atan2_0_0 : atan2 0 0 = 0.
Proof. unfold atan2. rdec; lra. Qed.

Lemma calculate_angle_coincident a b c :
  Landmark.x a = Landmark.x b -> Landmark.y a = Landmark.y b ->
  Landmark.x c = Landmark.x b -> Landmark.y c = Landmark.y b ->
  _calculate_angle a b c = 0.
Proof.
  intros E1 E2 E3 E4. unfold _calculate_angle.
  rewrite E1, E2, E3, E4.
  replace (Landmark.y b - Landmark.y b) with 0 by ring.
  replace (Landmark.x b - Landmark.x b) with 0 by ring.
  rewrite atan2_0_0.
  replace (0 - 0) with 0 by ring.
  rewrite degrees_0. cbv zeta.
  unfold Rltb, Rgtb.
  destruct (Rlt_dec 0 0); [lra|].
  destruct (Rgt_dec 0 180); lra.
Qed.

(** The bearing along each half-axis, and at 30 degrees. *)
Lemma atan2_pos_x x : 0 < x -> atan2 0 x = 0.
Proof. intros. unfold atan2. destruct (Rlt_dec 0 x); [|lra]. unfold Rdiv. rewrite Rmult_0_l. apply atan_0. Qed.
Lemma atan2_neg_x x : x < 0 -> atan2 0 x = PI.
Proof.
  intros. unfold atan2. destruct (Rlt_dec 0 x); [lra|]. destruct (Rlt_dec x 0); [|lra].
  destruct (Rle_dec 0 0); [|lra]. unfold Rdiv. rewrite Rmult_0_l, atan_0. ring.
Qed.
Lemma atan2_pos_y y : 0 < y -> atan2 y 0 = PI / 2.
Proof. intros. unfold atan2. rdec; lra. Qed.
Lemma atan2_neg_y y : y < 0 -> atan2 y 0 = - (PI / 2).
Proof. intros. unfold atan2. rdec; lra. Qed.

Lemma atan_inv_sqrt3 : atan (1 / sqrt 3) = PI / 6.
Proof.
  rewrite <- tan_PI6. apply atan_tan.
  pose proof PI_RGT_0. lra.
Qed.

Lemma atan2_PI6 k : 0 < k -> atan2 k (k * sqrt 3) = PI / 6.
Proof.
  intros Hk.
  assert (0 < sqrt 3) by (apply sqrt_lt_R0; lra).
  unfold atan2. destruct (Rlt_dec 0 (k * sqrt 3)) as [_|N]; [|exfalso; apply N; nra].
  replace (k / (k * sqrt 3)) with (1 / sqrt 3) by (field; lra).
  apply atan_inv_sqrt3.
Qed.

End GeometryFacts.

(** ** Accepted frames never raise *)

Lemma index_in_range {A : Type} (l : list A) (i : Z) :
  0 <= i < len l -> exists a, index l i = Ok a.
Proof.
  intros [H0 H1]. unfold index, len in *.
  destruct (nth_error l (Z.to_nat i)) as [a|] eqn:E.
  - exists a. reflexivity.
  - apply nth_error_None in E. lia.
Qed.

Ltac look_up i :=
  let a := fresh "a" in
  let E := fresh "E" in
  match goal with
  | H : 33 <= len ?l |- _ =>
      destruct (index_in_range l i) as [a E];
      [unfold i; lia | rewrite E; cbn [rbind]]
  end.

Lemma joints_ok (lms : list Landmark.t) :
  33 <= len lms -> exists j, joints lms = Ok j.
Proof.
  intros H. unfold joints.
  look_up LEFT_HIP. look_up LEFT_KNEE. look_up LEFT_ANKLE.
  look_up RIGHT_HIP. look_up RIGHT_KNEE. look_up RIGHT_ANKLE.
  look_up LEFT_SHOULDER. look_up RIGHT_SHOULDER.
  eexists. reflexivity.
Qed.

Lemma detect_squat_returns (f : Frame) (self : SquatDetector) :
  detect_squat f self = Ok (after f self).
Proof.
  unfold detect_squat, after, measurement_of.
  destruct f as [lms|]; [|reflexivity].
  destruct (py_not (Some lms) || (len lms <? 33)) eqn:E; [reflexivity|].
  apply orb_false_iff in E. destruct E as [_ E].
  apply Z.ltb_ge in E.
  destruct (joints_ok lms E) as [j Hj]. rewrite Hj. reflexivity.
Qed.

Lemma detect_squat_pair (f : Frame) (self : SquatDetector) :
  detect_squat f self = Ok (fst (after f self), snd (after f self)).
Proof. rewrite detect_squat_returns. destruct (after f self). reflexivity. Qed.

Lemma feed_returns (frames : list Frame) (self : SquatDetector) :
  feed frames self = Ok (after_all frames self).
Proof.
  revert self. induction frames as [|f rest IH]; intros self; [reflexivity|].
  cbn [feed after_all]. rewrite detect_squat_returns.
  destruct (after f self) as [a s1] eqn:E1. cbn [fst snd].
  rewrite IH. destruct (after_all rest s1) as [out s2]. reflexivity.
Qed.

Lemma after_all_app (fs gs : list Frame) (self : SquatDetector) :
  snd (after_all (fs ++ gs) self) = snd (after_all gs (snd (after_all fs self))).
Proof.
  revert self. induction fs as [|f fs IH]; intros self; [reflexivity|].
  cbn [app after_all].
  specialize (IH (snd (after f self))).
  destruct (after_all (fs ++ gs) (snd (after f self))) as [o1 s1].
  destruct (after_all fs (snd (after f self))) as [o2 s2].
  cbn [snd] in *. exact IH.
Qed.

Lemma after_all_cons (f : Frame) (fs : list Frame) (self : SquatDetector) :
  snd (after_all (f :: fs) self) = snd (after_all fs (snd (after f self))).
Proof.
  cbn [after_all]. destruct (after_all fs (snd (after f self))). reflexivity.
Qed.

(** ** Measurements of the sample poses *)

Section Poses.
Import Geometry.
Local Open Scope R_scope.

Lemma measurement_of_side_pose (s h k a : Landmark.t) :
  measurement_of (side_pose s h k a)
  = Some (measure {| left_shoulder := s; right_shoulder := s;
                     left_hip := h; right_hip := h;
                     left_knee := k; right_knee := k;
                     left_ankle := a; right_ankle := a |}).
Proof. reflexivity. Qed.

(** The angle once both bearings are known. *)
Lemma calculate_angle_bearings (a b c : Landmark.t) (tc ta d : R) :
  atan2 (Landmark.y c - Landmark.y b) (Landmark.x c - Landmark.x b) = tc ->
  atan2 (Landmark.y a - Landmark.y b) (Landmark.x a - Landmark.x b) = ta ->
  degrees (tc - ta) = d ->
  _calculate_angle a b c
  = (let a1 := if Rltb d 0 then d + 360 else d in
     if Rgtb a1 180 then 360 - a1 else a1).
Proof. intros <- <- <-. reflexivity. Qed.

Lemma degrees_half_PI : degrees (PI / 2) = 90.
Proof. pose proof PI_RGT_0. unfold degrees. field. lra. Qed.

Lemma fold_90 : (let a1 := if Rltb 90 0 then 90 + 360 else 90 in
                 if Rgtb a1 180 then 360 - a1 else a1) = 90.
Proof.
  unfold Rltb, Rgtb. cbv zeta.
  destruct (Rlt_dec 90 0); [lra|]. destruct (Rgt_dec 90 180); lra.
Qed.

Lemma fold_minus_90 : (let a1 := if Rltb (-90) 0 then -90 + 360 else -90 in
                       if Rgtb a1 180 then 360 - a1 else a1) = 90.
Proof.
  unfold Rltb, Rgtb. cbv zeta.
  destruct (Rlt_dec (-90) 0); [|lra]. destruct (Rgt_dec (-90 + 360) 180); lra.
Qed.

Lemma fold_120 : (let a1 := if Rltb 120 0 then 120 + 360 else 120 in
                  if Rgtb a1 180 then 360 - a1 else a1) = 120.
Proof.
  unfold Rltb, Rgtb. cbv zeta.
  destruct (Rlt_dec 120 0); [lra|]. destruct (Rgt_dec 120 180); lra.
Qed.

Lemma standing_pose_measurement :
  exists m, measurement_of standing_pose = Some m /\ avg_knee_angle m = 180.
Proof.
  eexists. split; [apply measurement_of_side_pose|].
  cbn [measure avg_knee_angle left_hip left_knee left_ankle right_hip right_knee right_ankle].
  assert (E : _calculate_angle (pt (1/2) (2/5)) (pt (1/2) (3/5)) (pt (1/2) (4/5)) = 180).
  { apply calculate_angle_opposite_rays with (dx := 0) (dy := -1) (s := 1/5) (t := 1/5);
      cbn [pt Landmark.x Landmark.y]; lra. }
  rewrite E. lra.
Qed.

Lemma deep_squat_pose_measurement :
  exists m, measurement_of deep_squat_pose = Some m /\
            avg_knee_angle m = 90 /\ avg_hip_angle m = 90 /\ hip_depth_ratio m = 1.
Proof.
  eexists. split; [apply measurement_of_side_pose|].
  cbn [measure avg_knee_angle avg_hip_angle hip_depth_ratio
       left_hip left_knee left_ankle right_hip right_knee right_ankle
       left_shoulder right_shoulder].
  assert (K : _calculate_angle (pt (3/10) (7/10)) (pt (1/2) (7/10)) (pt (1/2) (9/10)) = 90).
  { rewrite (calculate_angle_bearings _ _ _ (PI / 2) PI (-90)).
    - apply fold_minus_90.
    - cbn [pt Landmark.x Landmark.y].
      replace (1/2 - 1/2) with 0 by lra. apply atan2_pos_y. lra.
    - cbn [pt Landmark.x Landmark.y].
      replace (7/10 - 7/10) with 0 by lra. apply atan2_neg_x. lra.
    - replace (PI / 2 - PI) with (- (PI / 2)) by lra.
      rewrite degrees_opp, degrees_half_PI. reflexivity. }
  assert (H : _calculate_angle (pt (3/10) (1/2)) (pt (3/10) (7/10)) (pt (1/2) (7/10)) = 90).
  { rewrite (calculate_angle_bearings _ _ _ 0 (- (PI / 2)) 90).
    - apply fold_90.
    - cbn [pt Landmark.x Landmark.y].
      replace (7/10 - 7/10) with 0 by lra. apply atan2_pos_x. lra.
    - cbn [pt Landmark.x Landmark.y].
      replace (3/10 - 3/10) with 0 by lra. apply atan2_neg_y. lra.
    - replace (0 - - (PI / 2)) with (PI / 2) by lra. apply degrees_half_PI. }
  rewrite K, H. repeat split; try lra.
  unfold _calculate_hip_depth, Reqb. cbn [pt Landmark.y].
  destruct (Req_dec_T ((7/10 + 7/10) / 2) 0); [lra | field].
Qed.

Lemma high_hips_pose_measurement :
  exists m, measurement_of high_hips_pose = Some m /\
            avg_knee_angle m = 90 /\ avg_hip_angle m = 90 /\ hip_depth_ratio m = 1/2.
Proof.
  eexists. split; [apply measurement_of_side_pose|].
  cbn [measure avg_knee_angle avg_hip_angle hip_depth_ratio
       left_hip left_knee left_ankle right_hip right_knee right_ankle
       left_shoulder right_shoulder].
  assert (K : _calculate_angle (pt (1/2) (3/10)) (pt (1/2) (3/5)) (pt (7/10) (3/5)) = 90).
  { rewrite (calculate_angle_bearings _ _ _ 0 (- (PI / 2)) 90).
    - apply fold_90.
    - cbn [pt Landmark.x Landmark.y].
      replace (3/5 - 3/5) with 0 by lra. apply atan2_pos_x. lra.
    - cbn [pt Landmark.x Landmark.y].
      replace (1/2 - 1/2) with 0 by lra. apply atan2_neg_y. lra.
    - replace (0 - - (PI / 2)) with (PI / 2) by lra. apply degrees_half_PI. }
  assert (H : _calculate_angle (pt (3/10) (3/10)) (pt (1/2) (3/10)) (pt (1/2) (3/5)) = 90).
  { rewrite (calculate_angle_bearings _ _ _ (PI / 2) PI (-90)).
    - apply fold_minus_90.
    - cbn [pt Landmark.x Landmark.y].
      replace (1/2 - 1/2) with 0 by lra. apply atan2_pos_y. lra.
    - cbn [pt Landmark.x Landmark.y].
      replace (3/10 - 3/10) with 0 by lra. apply atan2_neg_x. lra.
    - replace (PI / 2 - PI) with (- (PI / 2)) by lra.
      rewrite degrees_opp, degrees_half_PI. reflexivity. }
  rewrite K, H. repeat split; try lra.
  unfold _calculate_hip_depth, Reqb. cbn [pt Landmark.y].
  destruct (Req_dec_T ((3/5 + 3/5) / 2) 0); [lra | field].
Qed.

Lemma half_bent_pose_measurement :
  exists m, measurement_of half_bent_pose = Some m /\ avg_knee_angle m = 120.
Proof.
  eexists. split; [apply measurement_of_side_pose|].
  cbn [measure avg_knee_angle left_hip left_knee left_ankle right_hip right_knee right_ankle].
  assert (K : _calculate_angle (pt (1/2) (2/5)) (pt (1/2) (3/5))
                               (pt (1/2 + sqrt 3 / 10) (7/10)) = 120).
  { pose proof PI_RGT_0.
    rewrite (calculate_angle_bearings _ _ _ (PI / 6) (- (PI / 2)) 120).
    - apply fold_120.
    - cbn [pt Landmark.x Landmark.y].
      replace (7/10 - 3/5) with (1/10) by lra.
      replace (1/2 + sqrt 3 / 10 - 1/2) with (1/10 * sqrt 3) by lra.
      apply atan2_PI6. lra.
    - cbn [pt Landmark.x Landmark.y].
      replace (1/2 - 1/2) with 0 by lra. apply atan2_neg_y. lra.
    - unfold degrees. field. lra. }
  rewrite K. lra.
Qed.

End Poses.

(** ** What each stage of [detect_squat] does to each attribute

    One equation per stage and attribute, used as rewrite rules. *)

Ltac split_ifs :=
  repeat match goal with
         | |- context [if ?c then _ else _] => destruct c eqn:?
         end.

Lemma set_frame_count_squat_count (n : Z) (self : SquatDetector) :
  squat_count (set_frame_count n self) = squat_count self.
Proof. reflexivity. Qed.

Lemma set_frame_count_total_attempts (n : Z) (self : SquatDetector) :
  total_attempts (set_frame_count n self) = total_attempts self.
Proof. reflexivity. Qed.

Lemma set_frame_count_correct_squats (n : Z) (self : SquatDetector) :
  correct_squats (set_frame_count n self) = correct_squats self.
Proof. reflexivity. Qed.

Lemma set_frame_count_missed_squats (n : Z) (self : SquatDetector) :
  missed_squats (set_frame_count n self) = missed_squats self.
Proof. reflexivity. Qed.

Lemma set_frame_count_knee_correct_frames (n : Z) (self : SquatDetector) :
  knee_correct_frames (set_frame_count n self) = knee_correct_frames self.
Proof. reflexivity. Qed.

Lemma set_frame_count_hip_correct_frames (n : Z) (self : SquatDetector) :
  hip_correct_frames (set_frame_count n self) = hip_correct_frames self.
Proof. reflexivity. Qed.

Lemma set_frame_count_back_correct_frames (n : Z) (self : SquatDetector) :
  back_correct_frames (set_frame_count n self) = back_correct_frames self.
Proof. reflexivity. Qed.

Lemma set_frame_count_total_frames_in_correct_squats (n : Z) (self : SquatDetector) :
  total_frames_in_correct_squats (set_frame_count n self) = total_frames_in_correct_squats self.
Proof. reflexivity. Qed.

Lemma set_frame_count_current_squat_knee_frames (n : Z) (self : SquatDetector) :
  current_squat_knee_frames (set_frame_count n self) = current_squat_knee_frames self.
Proof. reflexivity. Qed.

Lemma set_frame_count_current_squat_hip_frames (n : Z) (self : SquatDetector) :
  current_squat_hip_frames (set_frame_count n self) = current_squat_hip_frames self.
Proof. reflexivity. Qed.

Lemma set_frame_count_current_squat_back_frames (n : Z) (self : SquatDetector) :
  current_squat_back_frames (set_frame_count n self) = current_squat_back_frames self.
Proof. reflexivity. Qed.

Lemma set_frame_count_current_squat_total_frames (n : Z) (self : SquatDetector) :
  current_squat_total_frames (set_frame_count n self) = current_squat_total_frames self.
Proof. reflexivity. Qed.

Lemma set_frame_count_was_standing (n : Z) (self : SquatDetector) :
  was_standing (set_frame_count n self) = was_standing self.
Proof. reflexivity. Qed.

Lemma set_frame_count_is_currently_squatting (n : Z) (self : SquatDetector) :
  is_currently_squatting (set_frame_count n self) = is_currently_squatting self.
Proof. reflexivity. Qed.

Lemma set_frame_count_lowest_knee_angle_this_squat (n : Z) (self : SquatDetector) :
  lowest_knee_angle_this_squat (set_frame_count n self) = lowest_knee_angle_this_squat self.
Proof. reflexivity. Qed.

Lemma set_frame_count_best_form_this_squat (n : Z) (self : SquatDetector) :
  best_form_this_squat (set_frame_count n self) = best_form_this_squat self.
Proof. reflexivity. Qed.

Lemma set_frame_count_last_squat_analysis (n : Z) (self : SquatDetector) :
  last_squat_analysis (set_frame_count n self) = last_squat_analysis self.
Proof. reflexivity. Qed.

Lemma set_frame_count_last_squat_was_perfect (n : Z) (self : SquatDetector) :
  last_squat_was_perfect (set_frame_count n self) = last_squat_was_perfect self.
Proof. reflexivity. Qed.

Lemma set_frame_count_squat_just_completed (n : Z) (self : SquatDetector) :
  squat_just_completed (set_frame_count n self) = squat_just_completed self.
Proof. reflexivity. Qed.

Lemma set_frame_count_frame_count (n : Z) (self : SquatDetector) :
  frame_count (set_frame_count n self) = n.
Proof. reflexivity. Qed.

Lemma set_frame_count_last_log_frame (n : Z) (self : SquatDetector) :
  last_log_frame (set_frame_count n self) = last_log_frame self.
Proof. reflexivity. Qed.

Lemma set_last_squat_analysis_squat_count (a : option SquatAnalysis) (self : SquatDetector) :
  squat_count (set_last_squat_analysis a self) = squat_count self.
Proof. reflexivity. Qed.

Lemma set_last_squat_analysis_total_attempts (a : option SquatAnalysis) (self : SquatDetector) :
  total_attempts (set_last_squat_analysis a self) = total_attempts self.
Proof. reflexivity. Qed.

Lemma set_last_squat_analysis_correct_squats (a : option SquatAnalysis) (self : SquatDetector) :
  correct_squats (set_last_squat_analysis a self) = correct_squats self.
Proof. reflexivity. Qed.

Lemma set_last_squat_analysis_missed_squats (a : option SquatAnalysis) (self : SquatDetector) :
  missed_squats (set_last_squat_analysis a self) = missed_squats self.
Proof. reflexivity. Qed.

Lemma set_last_squat_analysis_knee_correct_frames (a : option SquatAnalysis) (self : SquatDetector) :
  knee_correct_frames (set_last_squat_analysis a self) = knee_correct_frames self.
Proof. reflexivity. Qed.

Lemma set_last_squat_analysis_hip_correct_frames (a : option SquatAnalysis) (self : SquatDetector) :
  hip_correct_frames (set_last_squat_analysis a self) = hip_correct_frames self.
Proof. reflexivity. Qed.

Lemma set_last_squat_analysis_back_correct_frames (a : option SquatAnalysis) (self : SquatDetector) :
  back_correct_frames (set_last_squat_analysis a self) = back_correct_frames self.
Proof. reflexivity. Qed.

Lemma set_last_squat_analysis_total_frames_in_correct_squats (a : option SquatAnalysis) (self : SquatDetector) :
  total_frames_in_correct_squats (set_last_squat_analysis a self) = total_frames_in_correct_squats self.
Proof. reflexivity. Qed.

Lemma set_last_squat_analysis_current_squat_knee_frames (a : option SquatAnalysis) (self : SquatDetector) :
  current_squat_knee_frames (set_last_squat_analysis a self) = current_squat_knee_frames self.
Proof. reflexivity. Qed.

Lemma set_last_squat_analysis_current_squat_hip_frames (a : option SquatAnalysis) (self : SquatDetector) :
  current_squat_hip_frames (set_last_squat_analysis a self) = current_squat_hip_frames self.
Proof. reflexivity. Qed.

Lemma set_last_squat_analysis_current_squat_back_frames (a : option SquatAnalysis) (self : SquatDetector) :
  current_squat_back_frames (set_last_squat_analysis a self) = current_squat_back_frames self.
Proof. reflexivity. Qed.

Lemma set_last_squat_analysis_current_squat_total_frames (a : option SquatAnalysis) (self : SquatDetector) :
  current_squat_total_frames (set_last_squat_analysis a self) = current_squat_total_frames self.
Proof. reflexivity. Qed.

Lemma set_last_squat_analysis_was_standing (a : option SquatAnalysis) (self : SquatDetector) :
  was_standing (set_last_squat_analysis a self) = was_standing self.
Proof. reflexivity. Qed.

Lemma set_last_squat_analysis_is_currently_squatting (a : option SquatAnalysis) (self : SquatDetector) :
  is_currently_squatting (set_last_squat_analysis a self) = is_currently_squatting self.
Proof. reflexivity. Qed.

Lemma set_last_squat_analysis_lowest_knee_angle_this_squat (a : option SquatAnalysis) (self : SquatDetector) :
  lowest_knee_angle_this_squat (set_last_squat_analysis a self) = lowest_knee_angle_this_squat self.
Proof. reflexivity. Qed.

Lemma set_last_squat_analysis_best_form_this_squat (a : option SquatAnalysis) (self : SquatDetector) :
  best_form_this_squat (set_last_squat_analysis a self) = best_form_this_squat self.
Proof. reflexivity. Qed.

Lemma set_last_squat_analysis_last_squat_analysis (a : option SquatAnalysis) (self : SquatDetector) :
  last_squat_analysis (set_last_squat_analysis a self) = a.
Proof. reflexivity. Qed.

Lemma set_last_squat_analysis_last_squat_was_perfect (a : option SquatAnalysis) (self : SquatDetector) :
  last_squat_was_perfect (set_last_squat_analysis a self) = last_squat_was_perfect self.
Proof. reflexivity. Qed.

Lemma set_last_squat_analysis_squat_just_completed (a : option SquatAnalysis) (self : SquatDetector) :
  squat_just_completed (set_last_squat_analysis a self) = squat_just_completed self.
Proof. reflexivity. Qed.

Lemma set_last_squat_analysis_frame_count (a : option SquatAnalysis) (self : SquatDetector) :
  frame_count (set_last_squat_analysis a self) = frame_count self.
Proof. reflexivity. Qed.

Lemma set_last_squat_analysis_last_log_frame (a : option SquatAnalysis) (self : SquatDetector) :
  last_log_frame (set_last_squat_analysis a self) = last_log_frame self.
Proof. reflexivity. Qed.

Lemma log_frame_squat_count (self : SquatDetector) :
  squat_count (log_frame self) = squat_count self.
Proof. unfold log_frame; split_ifs; reflexivity. Qed.

Lemma log_frame_total_attempts (self : SquatDetector) :
  total_attempts (log_frame self) = total_attempts self.
Proof. unfold log_frame; split_ifs; reflexivity. Qed.

Lemma log_frame_correct_squats (self : SquatDetector) :
  correct_squats (log_frame self) = correct_squats self.
Proof. unfold log_frame; split_ifs; reflexivity. Qed.

Lemma log_frame_missed_squats (self : SquatDetector) :
  missed_squats (log_frame self) = missed_squats self.
Proof. unfold log_frame; split_ifs; reflexivity. Qed.

Lemma log_frame_knee_correct_frames (self : SquatDetector) :
  knee_correct_frames (log_frame self) = knee_correct_frames self.
Proof. unfold log_frame; split_ifs; reflexivity. Qed.

Lemma log_frame_hip_correct_frames (self : SquatDetector) :
  hip_correct_frames (log_frame self) = hip_correct_frames self.
Proof. unfold log_frame; split_ifs; reflexivity. Qed.

Lemma log_frame_back_correct_frames (self : SquatDetector) :
  back_correct_frames (log_frame self) = back_correct_frames self.
Proof. unfold log_frame; split_ifs; reflexivity. Qed.

Lemma log_frame_total_frames_in_correct_squats (self : SquatDetector) :
  total_frames_in_correct_squats (log_frame self) = total_frames_in_correct_squats self.
Proof. unfold log_frame; split_ifs; reflexivity. Qed.

Lemma log_frame_current_squat_knee_frames (self : SquatDetector) :
  current_squat_knee_frames (log_frame self) = current_squat_knee_frames self.
Proof. unfold log_frame; split_ifs; reflexivity. Qed.

Lemma log_frame_current_squat_hip_frames (self : SquatDetector) :
  current_squat_hip_frames (log_frame self) = current_squat_hip_frames self.
Proof. unfold log_frame; split_ifs; reflexivity. Qed.

Lemma log_frame_current_squat_back_frames (self : SquatDetector) :
  current_squat_back_frames (log_frame self) = current_squat_back_frames self.
Proof. unfold log_frame; split_ifs; reflexivity. Qed.

Lemma log_frame_current_squat_total_frames (self : SquatDetector) :
  current_squat_total_frames (log_frame self) = current_squat_total_frames self.
Proof. unfold log_frame; split_ifs; reflexivity. Qed.

Lemma log_frame_was_standing (self : SquatDetector) :
  was_standing (log_frame self) = was_standing self.
Proof. unfold log_frame; split_ifs; reflexivity. Qed.

Lemma log_frame_is_currently_squatting (self : SquatDetector) :
  is_currently_squatting (log_frame self) = is_currently_squatting self.
Proof. unfold log_frame; split_ifs; reflexivity. Qed.

Lemma log_frame_lowest_knee_angle_this_squat (self : SquatDetector) :
  lowest_knee_angle_this_squat (log_frame self) = lowest_knee_angle_this_squat self.
Proof. unfold log_frame; split_ifs; reflexivity. Qed.

Lemma log_frame_best_form_this_squat (self : SquatDetector) :
  best_form_this_squat (log_frame self) = best_form_this_squat self.
Proof. unfold log_frame; split_ifs; reflexivity. Qed.

Lemma log_frame_last_squat_analysis (self : SquatDetector) :
  last_squat_analysis (log_frame self) = last_squat_analysis self.
Proof. unfold log_frame; split_ifs; reflexivity. Qed.

Lemma log_frame_last_squat_was_perfect (self : SquatDetector) :
  last_squat_was_perfect (log_frame self) = last_squat_was_perfect self.
Proof. unfold log_frame; split_ifs; reflexivity. Qed.

Lemma log_frame_squat_just_completed (self : SquatDetector) :
  squat_just_completed (log_frame self) = squat_just_completed self.
Proof. unfold log_frame; split_ifs; reflexivity. Qed.

Lemma log_frame_frame_count (self : SquatDetector) :
  frame_count (log_frame self) = frame_count self.
Proof. unfold log_frame; split_ifs; reflexivity. Qed.

Lemma track_squat_count (m : Measurement) (self : SquatDetector) :
  squat_count (track m self) = squat_count self.
Proof. unfold track; split_ifs; cbn; first [reflexivity | assumption]. Qed.

Lemma track_total_attempts (m : Measurement) (self : SquatDetector) :
  total_attempts (track m self) = total_attempts self.
Proof. unfold track; split_ifs; cbn; first [reflexivity | assumption]. Qed.

Lemma track_correct_squats (m : Measurement) (self : SquatDetector) :
  correct_squats (track m self) = correct_squats self.
Proof. unfold track; split_ifs; cbn; first [reflexivity | assumption]. Qed.

Lemma track_missed_squats (m : Measurement) (self : SquatDetector) :
  missed_squats (track m self) = missed_squats self.
Proof. unfold track; split_ifs; cbn; first [reflexivity | assumption]. Qed.

Lemma track_knee_correct_frames (m : Measurement) (self : SquatDetector) :
  knee_correct_frames (track m self) = knee_correct_frames self.
Proof. unfold track; split_ifs; cbn; first [reflexivity | assumption]. Qed.

Lemma track_hip_correct_frames (m : Measurement) (self : SquatDetector) :
  hip_correct_frames (track m self) = hip_correct_frames self.
Proof. unfold track; split_ifs; cbn; first [reflexivity | assumption]. Qed.

Lemma track_back_correct_frames (m : Measurement) (self : SquatDetector) :
  back_correct_frames (track m self) = back_correct_frames self.
Proof. unfold track; split_ifs; cbn; first [reflexivity | assumption]. Qed.

Lemma track_total_frames_in_correct_squats (m : Measurement) (self : SquatDetector) :
  total_frames_in_correct_squats (track m self) = total_frames_in_correct_squats self.
Proof. unfold track; split_ifs; cbn; first [reflexivity | assumption]. Qed.

Lemma track_was_standing (m : Measurement) (self : SquatDetector) :
  was_standing (track m self) = was_standing self.
Proof. unfold track; split_ifs; cbn; first [reflexivity | assumption]. Qed.

Lemma track_is_currently_squatting (m : Measurement) (self : SquatDetector) :
  is_currently_squatting (track m self) = is_currently_squatting self.
Proof. unfold track; split_ifs; cbn; first [reflexivity | assumption]. Qed.

Lemma track_last_squat_analysis (m : Measurement) (self : SquatDetector) :
  last_squat_analysis (track m self) = last_squat_analysis self.
Proof. unfold track; split_ifs; cbn; first [reflexivity | assumption]. Qed.

Lemma track_last_squat_was_perfect (m : Measurement) (self : SquatDetector) :
  last_squat_was_perfect (track m self) = last_squat_was_perfect self.
Proof. unfold track; split_ifs; cbn; first [reflexivity | assumption]. Qed.

Lemma track_squat_just_completed (m : Measurement) (self : SquatDetector) :
  squat_just_completed (track m self) = squat_just_completed self.
Proof. unfold track; split_ifs; cbn; first [reflexivity | assumption]. Qed.

Lemma track_frame_count (m : Measurement) (self : SquatDetector) :
  frame_count (track m self) = frame_count self.
Proof. unfold track; split_ifs; cbn; first [reflexivity | assumption]. Qed.

Lemma track_last_log_frame (m : Measurement) (self : SquatDetector) :
  last_log_frame (track m self) = last_log_frame self.
Proof. unfold track; split_ifs; cbn; first [reflexivity | assumption]. Qed.

Lemma squat_started_squat_count (m : Measurement) (self : SquatDetector) :
  squat_count (squat_started m self) = squat_count self.
Proof. reflexivity. Qed.

Lemma squat_started_total_attempts (m : Measurement) (self : SquatDetector) :
  total_attempts (squat_started m self) = total_attempts self.
Proof. reflexivity. Qed.

Lemma squat_started_correct_squats (m : Measurement) (self : SquatDetector) :
  correct_squats (squat_started m self) = correct_squats self.
Proof. reflexivity. Qed.

Lemma squat_started_missed_squats (m : Measurement) (self : SquatDetector) :
  missed_squats (squat_started m self) = missed_squats self.
Proof. reflexivity. Qed.

Lemma squat_started_knee_correct_frames (m : Measurement) (self : SquatDetector) :
  knee_correct_frames (squat_started m self) = knee_correct_frames self.
Proof. reflexivity. Qed.

Lemma squat_started_hip_correct_frames (m : Measurement) (self : SquatDetector) :
  hip_correct_frames (squat_started m self) = hip_correct_frames self.
Proof. reflexivity. Qed.

Lemma squat_started_back_correct_frames (m : Measurement) (self : SquatDetector) :
  back_correct_frames (squat_started m self) = back_correct_frames self.
Proof. reflexivity. Qed.

Lemma squat_started_total_frames_in_correct_squats (m : Measurement) (self : SquatDetector) :
  total_frames_in_correct_squats (squat_started m self) = total_frames_in_correct_squats self.
Proof. reflexivity. Qed.

Lemma squat_started_current_squat_knee_frames (m : Measurement) (self : SquatDetector) :
  current_squat_knee_frames (squat_started m self) = 0.
Proof. reflexivity. Qed.

Lemma squat_started_current_squat_hip_frames (m : Measurement) (self : SquatDetector) :
  current_squat_hip_frames (squat_started m self) = 0.
Proof. reflexivity. Qed.

Lemma squat_started_current_squat_back_frames (m : Measurement) (self : SquatDetector) :
  current_squat_back_frames (squat_started m self) = 0.
Proof. reflexivity. Qed.

Lemma squat_started_current_squat_total_frames (m : Measurement) (self : SquatDetector) :
  current_squat_total_frames (squat_started m self) = 0.
Proof. reflexivity. Qed.

Lemma squat_started_was_standing (m : Measurement) (self : SquatDetector) :
  was_standing (squat_started m self) = false.
Proof. reflexivity. Qed.

Lemma squat_started_is_currently_squatting (m : Measurement) (self : SquatDetector) :
  is_currently_squatting (squat_started m self) = true.
Proof. reflexivity. Qed.

Lemma squat_started_lowest_knee_angle_this_squat (m : Measurement) (self : SquatDetector) :
  lowest_knee_angle_this_squat (squat_started m self) = avg_knee_angle m.
Proof. reflexivity. Qed.

Lemma squat_started_best_form_this_squat (m : Measurement) (self : SquatDetector) :
  best_form_this_squat (squat_started m self) = false.
Proof. reflexivity. Qed.

Lemma squat_started_last_squat_analysis (m : Measurement) (self : SquatDetector) :
  last_squat_analysis (squat_started m self) = last_squat_analysis self.
Proof. reflexivity. Qed.

Lemma squat_started_last_squat_was_perfect (m : Measurement) (self : SquatDetector) :
  last_squat_was_perfect (squat_started m self) = last_squat_was_perfect self.
Proof. reflexivity. Qed.

Lemma squat_started_squat_just_completed (m : Measurement) (self : SquatDetector) :
  squat_just_completed (squat_started m self) = squat_just_completed self.
Proof. reflexivity. Qed.

Lemma squat_started_frame_count (m : Measurement) (self : SquatDetector) :
  frame_count (squat_started m self) = frame_count self.
Proof. reflexivity. Qed.

Lemma squat_started_last_log_frame (m : Measurement) (self : SquatDetector) :
  last_log_frame (squat_started m self) = last_log_frame self.
Proof. reflexivity. Qed.

Lemma standing_again_squat_count (self : SquatDetector) :
  squat_count (standing_again self) = squat_count self.
Proof. reflexivity. Qed.

Lemma standing_again_total_attempts (self : SquatDetector) :
  total_attempts (standing_again self) = total_attempts self.
Proof. reflexivity. Qed.

Lemma standing_again_correct_squats (self : SquatDetector) :
  correct_squats (standing_again self) = correct_squats self.
Proof. reflexivity. Qed.

Lemma standing_again_missed_squats (self : SquatDetector) :
  missed_squats (standing_again self) = missed_squats self.
Proof. reflexivity. Qed.

Lemma standing_again_knee_correct_frames (self : SquatDetector) :
  knee_correct_frames (standing_again self) = knee_correct_frames self.
Proof. reflexivity. Qed.

Lemma standing_again_hip_correct_frames (self : SquatDetector) :
  hip_correct_frames (standing_again self) = hip_correct_frames self.
Proof. reflexivity. Qed.

Lemma standing_again_back_correct_frames (self : SquatDetector) :
  back_correct_frames (standing_again self) = back_correct_frames self.
Proof. reflexivity. Qed.

Lemma standing_again_total_frames_in_correct_squats (self : SquatDetector) :
  total_frames_in_correct_squats (standing_again self) = total_frames_in_correct_squats self.
Proof. reflexivity. Qed.

Lemma standing_again_current_squat_knee_frames (self : SquatDetector) :
  current_squat_knee_frames (standing_again self) = current_squat_knee_frames self.
Proof. reflexivity. Qed.

Lemma standing_again_current_squat_hip_frames (self : SquatDetector) :
  current_squat_hip_frames (standing_again self) = current_squat_hip_frames self.
Proof. reflexivity. Qed.

Lemma standing_again_current_squat_back_frames (self : SquatDetector) :
  current_squat_back_frames (standing_again self) = current_squat_back_frames self.
Proof. reflexivity. Qed.

Lemma standing_again_current_squat_total_frames (self : SquatDetector) :
  current_squat_total_frames (standing_again self) = current_squat_total_frames self.
Proof. reflexivity. Qed.

Lemma standing_again_was_standing (self : SquatDetector) :
  was_standing (standing_again self) = true.
Proof. reflexivity. Qed.

Lemma standing_again_is_currently_squatting (self : SquatDetector) :
  is_currently_squatting (standing_again self) = false.
Proof. reflexivity. Qed.

Lemma standing_again_lowest_knee_angle_this_squat (self : SquatDetector) :
  lowest_knee_angle_this_squat (standing_again self) = lowest_knee_angle_this_squat self.
Proof. reflexivity. Qed.

Lemma standing_again_best_form_this_squat (self : SquatDetector) :
  best_form_this_squat (standing_again self) = best_form_this_squat self.
Proof. reflexivity. Qed.

Lemma standing_again_last_squat_analysis (self : SquatDetector) :
  last_squat_analysis (standing_again self) = last_squat_analysis self.
Proof. reflexivity. Qed.

Lemma standing_again_last_squat_was_perfect (self : SquatDetector) :
  last_squat_was_perfect (standing_again self) = last_squat_was_perfect self.
Proof. reflexivity. Qed.

Lemma standing_again_squat_just_completed (self : SquatDetector) :
  squat_just_completed (standing_again self) = squat_just_completed self.
Proof. reflexivity. Qed.

Lemma standing_again_frame_count (self : SquatDetector) :
  frame_count (standing_again self) = frame_count self.
Proof. reflexivity. Qed.

Lemma standing_again_last_log_frame (self : SquatDetector) :
  last_log_frame (standing_again self) = last_log_frame self.
Proof. reflexivity. Qed.

Create Rewrite HintDb stages.
#[local] Hint Rewrite
  set_frame_count_squat_count
  set_frame_count_total_attempts
  set_frame_count_correct_squats
  set_frame_count_missed_squats
  set_frame_count_knee_correct_frames
  set_frame_count_hip_correct_frames
  set_frame_count_back_correct_frames
  set_frame_count_total_frames_in_correct_squats
  set_frame_count_current_squat_knee_frames
  set_frame_count_current_squat_hip_frames
  set_frame_count_current_squat_back_frames
  set_frame_count_current_squat_total_frames
  set_frame_count_was_standing
  set_frame_count_is_currently_squatting
  set_frame_count_lowest_knee_angle_this_squat
  set_frame_count_best_form_this_squat
  set_frame_count_last_squat_analysis
  set_frame_count_last_squat_was_perfect
  set_frame_count_squat_just_completed
  set_frame_count_frame_count
  set_frame_count_last_log_frame
  set_last_squat_analysis_squat_count
  set_last_squat_analysis_total_attempts
  set_last_squat_analysis_correct_squats
  set_last_squat_analysis_missed_squats
  set_last_squat_analysis_knee_correct_frames
  set_last_squat_analysis_hip_correct_frames
  set_last_squat_analysis_back_correct_frames
  set_last_squat_analysis_total_frames_in_correct_squats
  set_last_squat_analysis_current_squat_knee_frames
  set_last_squat_analysis_current_squat_hip_frames
  set_last_squat_analysis_current_squat_back_frames
  set_last_squat_analysis_current_squat_total_frames
  set_last_squat_analysis_was_standing
  set_last_squat_analysis_is_currently_squatting
  set_last_squat_analysis_lowest_knee_angle_this_squat
  set_last_squat_analysis_best_form_this_squat
  set_last_squat_analysis_last_squat_analysis
  set_last_squat_analysis_last_squat_was_perfect
  set_last_squat_analysis_squat_just_completed
  set_last_squat_analysis_frame_count
  set_last_squat_analysis_last_log_frame
  log_frame_squat_count
  log_frame_total_attempts
  log_frame_correct_squats
  log_frame_missed_squats
  log_frame_knee_correct_frames
  log_frame_hip_correct_frames
  log_frame_back_correct_frames
  log_frame_total_frames_in_correct_squats
  log_frame_current_squat_knee_frames
  log_frame_current_squat_hip_frames
  log_frame_current_squat_back_frames
  log_frame_current_squat_total_frames
  log_frame_was_standing
  log_frame_is_currently_squatting
  log_frame_lowest_knee_angle_this_squat
  log_frame_best_form_this_squat
  log_frame_last_squat_analysis
  log_frame_last_squat_was_perfect
  log_frame_squat_just_completed
  log_frame_frame_count
  track_squat_count
  track_total_attempts
  track_correct_squats
  track_missed_squats
  track_knee_correct_frames
  track_hip_correct_frames
  track_back_correct_frames
  track_total_frames_in_correct_squats
  track_was_standing
  track_is_currently_squatting
  track_last_squat_analysis
  track_last_squat_was_perfect
  track_squat_just_completed
  track_frame_count
  track_last_log_frame
  squat_started_squat_count
  squat_started_total_attempts
  squat_started_correct_squats
  squat_started_missed_squats
  squat_started_knee_correct_frames
  squat_started_hip_correct_frames
  squat_started_back_correct_frames
  squat_started_total_frames_in_correct_squats
  squat_started_current_squat_knee_frames
  squat_started_current_squat_hip_frames
  squat_started_current_squat_back_frames
  squat_started_current_squat_total_frames
  squat_started_was_standing
  squat_started_is_currently_squatting
  squat_started_lowest_knee_angle_this_squat
  squat_started_best_form_this_squat
  squat_started_last_squat_analysis
  squat_started_last_squat_was_perfect
  squat_started_squat_just_completed
  squat_started_frame_count
  squat_started_last_log_frame
  standing_again_squat_count
  standing_again_total_attempts
  standing_again_correct_squats
  standing_again_missed_squats
  standing_again_knee_correct_frames
  standing_again_hip_correct_frames
  standing_again_back_correct_frames
  standing_again_total_frames_in_correct_squats
  standing_again_current_squat_knee_frames
  standing_again_current_squat_hip_frames
  standing_again_current_squat_back_frames
  standing_again_current_squat_total_frames
  standing_again_was_standing
  standing_again_is_currently_squatting
  standing_again_lowest_knee_angle_this_squat
  standing_again_best_form_this_squat
  standing_again_last_squat_analysis
  standing_again_last_squat_was_perfect
  standing_again_squat_just_completed
  standing_again_frame_count
  standing_again_last_log_frame
  : stages.

(** ** One accepted frame *)

Lemma analyse_state (m : Measurement) (self : SquatDetector) :
  snd (analyse m self)
  = set_last_squat_analysis (Some (fst (analyse m self)))
      (state_machine m (track m (log_frame self))).
Proof. reflexivity. Qed.

Lemma transition_tracked (m : Measurement) (self : SquatDetector) :
  transition m (track m (log_frame self)) = transition m self.
Proof. unfold transition. autorewrite with stages. reflexivity. Qed.

Lemma after_accepted (f : Frame) (m : Measurement) (self : SquatDetector) :
  measurement_of f = Some m ->
  after f self = analyse m (set_frame_count (frame_count self + 1) self).
Proof. intros H. unfold after. rewrite H. reflexivity. Qed.

Lemma after_rejected (f : Frame) (self : SquatDetector) :
  measurement_of f = None ->
  after f self
  = (_get_empty_analysis "No pose detected",
     set_frame_count (frame_count self + 1) self).
Proof. intros H. unfold after. rewrite H. reflexivity. Qed.

Lemma Rltb_true (a b : R) : (a < b)%R -> Rltb a b = true.
Proof. intros H. unfold Rltb. destruct (Rlt_dec a b); [reflexivity | contradiction]. Qed.

Lemma Rltb_false (a b : R) : (b <= a)%R -> Rltb a b = false.
Proof. intros H. unfold Rltb. destruct (Rlt_dec a b); [lra | reflexivity]. Qed.

Lemma Rgeb_true (a b : R) : (b <= a)%R -> Rgeb a b = true.
Proof. intros H. unfold Rgeb. destruct (Rge_dec a b); [reflexivity | lra]. Qed.

Lemma Rgeb_false (a b : R) : (a < b)%R -> Rgeb a b = false.
Proof. intros H. unfold Rgeb. destruct (Rge_dec a b); [lra | reflexivity]. Qed.

Lemma Rleb_true (a b : R) : (a <= b)%R -> Rleb a b = true.
Proof. intros H. unfold Rleb. destruct (Rle_dec a b); [reflexivity | contradiction]. Qed.

Lemma Rleb_false (a b : R) : (b < a)%R -> Rleb a b = false.
Proof. intros H. unfold Rleb. destruct (Rle_dec a b); [lra | reflexivity]. Qed.

Lemma in_band_no_transition (m : Measurement) (self : SquatDetector) :
  in_band m -> transition m self = NoTransition.
Proof.
  unfold in_band, transition, is_squatting, is_standing. intros [H1 H2].
  rewrite Rltb_false by assumption. rewrite Rgeb_false by assumption.
  rewrite !andb_false_r. reflexivity.
Qed.

Lemma in_band_keeps (f : Frame) (m : Measurement) (self : SquatDetector) :
  measurement_of f = Some m -> in_band m ->
  same_posture self (snd (after f self)) /\
  same_counters self (snd (after f self)) /\
  same_accumulators self (snd (after f self)) /\
  squat_just_completed (snd (after f self)) = squat_just_completed self.
Proof.
  intros Hm Hb. rewrite (after_accepted f m self Hm), analyse_state.
  unfold state_machine. rewrite transition_tracked, (in_band_no_transition m _ Hb).
  unfold same_posture, same_counters, same_accumulators.
  autorewrite with stages. repeat split.
Qed.

(** ** The arms of the state machine *)

#[local] Arguments track : simpl never.
#[local] Arguments log_frame : simpl never.
#[local] Arguments squat_completed : simpl never.

Lemma transition_bump (m : Measurement) (self : SquatDetector) (n : Z) :
  transition m (set_frame_count n self) = transition m self.
Proof. reflexivity. Qed.

Lemma squat_completed_flags (self : SquatDetector) :
  was_standing (squat_completed self) = true /\
  is_currently_squatting (squat_completed self) = false /\
  squat_just_completed (squat_completed self) = true /\
  total_attempts (squat_completed self) = total_attempts self + 1 /\
  last_squat_was_perfect (squat_completed self)
  = best_form_this_squat self && Rltb (lowest_knee_angle_this_squat self) 110.
Proof.
  unfold squat_completed. cbn.
  destruct (best_form_this_squat self && Rltb (lowest_knee_angle_this_squat self) 110);
    cbn; repeat split.
Qed.

Lemma squat_completed_perfect (self : SquatDetector) :
  last_squat_was_perfect (squat_completed self) = true ->
  correct_squats (squat_completed self) = correct_squats self + 1 /\
  squat_count (squat_completed self) = squat_count self + 1 /\
  missed_squats (squat_completed self) = missed_squats self /\
  knee_correct_frames (squat_completed self)
  = knee_correct_frames self + current_squat_knee_frames self /\
  hip_correct_frames (squat_completed self)
  = hip_correct_frames self + current_squat_hip_frames self /\
  back_correct_frames (squat_completed self)
  = back_correct_frames self + current_squat_back_frames self /\
  total_frames_in_correct_squats (squat_completed self)
  = total_frames_in_correct_squats self + current_squat_total_frames self.
Proof.
  unfold squat_completed. cbn.
  destruct (best_form_this_squat self && Rltb (lowest_knee_angle_this_squat self) 110);
    cbn; intros H; [repeat split | discriminate].
Qed.

Lemma squat_completed_imperfect (self : SquatDetector) :
  last_squat_was_perfect (squat_completed self) = false ->
  correct_squats (squat_completed self) = correct_squats self /\
  squat_count (squat_completed self) = squat_count self /\
  missed_squats (squat_completed self) = missed_squats self + 1 /\
  same_accumulators self (squat_completed self).
Proof.
  unfold squat_completed, same_accumulators. cbn.
  destruct (best_form_this_squat self && Rltb (lowest_knee_angle_this_squat self) 110);
    cbn; intros H; [discriminate | repeat split].
Qed.

Lemma squat_completed_transient (self : SquatDetector) :
  current_squat_knee_frames (squat_completed self) = current_squat_knee_frames self /\
  current_squat_hip_frames (squat_completed self) = current_squat_hip_frames self /\
  current_squat_back_frames (squat_completed self) = current_squat_back_frames self /\
  current_squat_total_frames (squat_completed self) = current_squat_total_frames self /\
  lowest_knee_angle_this_squat (squat_completed self) = lowest_knee_angle_this_squat self.
Proof.
  unfold squat_completed. cbn.
  destruct (best_form_this_squat self && Rltb (lowest_knee_angle_this_squat self) 110);
    cbn; repeat split.
Qed.

(** Every call but a perfect completion leaves the lifetime accumulators. *)
Lemma accumulators_after (f : Frame) (self : SquatDetector) :
  (fired [f] self = [Some SquatCompleted] /\
   last_squat_was_perfect (snd (after f self)) = true) \/
  same_accumulators self (snd (after f self)).
Proof.
  cbn [fired]. unfold after.
  destruct (measurement_of f) as [m|];
    [|right; unfold same_accumulators; cbn [snd]; autorewrite with stages; repeat split].
  rewrite analyse_state. unfold state_machine.
  destruct (transition m (track m (log_frame (set_frame_count (frame_count self + 1) self))))
    eqn:T.
  - right. unfold same_accumulators. autorewrite with stages. repeat split.
  - destruct (last_squat_was_perfect
                (squat_completed
                   (track m (log_frame (set_frame_count (frame_count self + 1) self)))))
      eqn:P.
    + left. split; [reflexivity | autorewrite with stages; exact P].
    + right. apply squat_completed_imperfect in P.
      destruct P as (_ & _ & _ & P). unfold same_accumulators in *.
      autorewrite with stages in *. exact P.
  - right. unfold same_accumulators. autorewrite with stages. repeat split.
  - right. unfold same_accumulators. autorewrite with stages. repeat split.
Qed.

Lemma accumulators_after_perfect (f : Frame) (self : SquatDetector) :
  fired [f] self = [Some SquatCompleted] ->
  last_squat_was_perfect (snd (after f self)) = true ->
  knee_correct_frames (snd (after f self))
  = knee_correct_frames self + current_squat_knee_frames (snd (after f self)) /\
  hip_correct_frames (snd (after f self))
  = hip_correct_frames self + current_squat_hip_frames (snd (after f self)) /\
  back_correct_frames (snd (after f self))
  = back_correct_frames self + current_squat_back_frames (snd (after f self)) /\
  total_frames_in_correct_squats (snd (after f self))
  = total_frames_in_correct_squats self + current_squat_total_frames (snd (after f self)).
Proof.
  cbn [fired]. unfold after.
  destruct (measurement_of f) as [m|]; [|discriminate].
  rewrite analyse_state. unfold state_machine. intros T. injection T as T.
  rewrite T. autorewrite with stages. intros P.
  pose proof (squat_completed_perfect _ P) as (_ & _ & _ & K & H & B & N).
  pose proof (squat_completed_transient
                (track m (log_frame (set_frame_count (frame_count self + 1) self))))
    as (K' & H' & B' & N' & _).
  rewrite K, H, B, N, K', H', B', N'.
  autorewrite with stages. repeat split.
Qed.

(** The posture flags after one call. *)
Lemma posture_after (f : Frame) (self : SquatDetector) :
  posture_consistent self -> posture_consistent (snd (after f self)).
Proof.
  unfold posture_consistent, after. intros H.
  destruct (measurement_of f) as [m|];
    [|cbn [snd]; autorewrite with stages; exact H].
  rewrite analyse_state. unfold state_machine.
  destruct (transition m (track m (log_frame (set_frame_count (frame_count self + 1) self))))
    eqn:T.
  - autorewrite with stages. intros [A _]. discriminate.
  - autorewrite with stages.
    destruct (squat_completed_flags
                (track m (log_frame (set_frame_count (frame_count self + 1) self))))
      as (_ & E & _). rewrite E. intros [_ A]. discriminate.
  - autorewrite with stages. intros [_ A]. discriminate.
  - autorewrite with stages. exact H.
Qed.

(** The counters after one call. *)
Lemma counters_after (f : Frame) (self : SquatDetector) :
  total_attempts self = correct_squats self + missed_squats self ->
  squat_count self = correct_squats self ->
  total_attempts (snd (after f self))
  = correct_squats (snd (after f self)) + missed_squats (snd (after f self)) /\
  squat_count (snd (after f self)) = correct_squats (snd (after f self)).
Proof.
  intros H1 H2. unfold after.
  destruct (measurement_of f) as [m|];
    [|cbn [snd]; autorewrite with stages; split; assumption].
  rewrite analyse_state. unfold state_machine.
  destruct (transition m (track m (log_frame (set_frame_count (frame_count self + 1) self))))
    eqn:T; autorewrite with stages; try (split; assumption).
  set (s2 := track m (log_frame (set_frame_count (frame_count self + 1) self))).
  destruct (squat_completed_flags s2) as (_ & _ & _ & A & _).
  assert (E1 : total_attempts s2 = total_attempts self)
    by (unfold s2; autorewrite with stages; reflexivity).
  assert (E2 : correct_squats s2 = correct_squats self)
    by (unfold s2; autorewrite with stages; reflexivity).
  assert (E3 : missed_squats s2 = missed_squats self)
    by (unfold s2; autorewrite with stages; reflexivity).
  assert (E4 : squat_count s2 = squat_count self)
    by (unfold s2; autorewrite with stages; reflexivity).
  destruct (last_squat_was_perfect (squat_completed s2)) eqn:P.
  - destruct (squat_completed_perfect s2 P) as (C & S & M & _). lia.
  - destruct (squat_completed_imperfect s2 P) as (C & S & M & _). lia.
Qed.

(** ** Streams of frames inside the hysteresis band *)

Lemma in_band_fires_nothing (f : Frame) (m : Measurement) (self : SquatDetector) :
  measurement_of f = Some m -> in_band m ->
  fired [f] self = [Some NoTransition].
Proof.
  intros Hm Hb. cbn [fired]. rewrite Hm.
  rewrite (in_band_no_transition m _ Hb). reflexivity.
Qed.

Lemma fired_cons (f : Frame) (rest : list Frame) (self : SquatDetector) :
  fired (f :: rest) self = fired [f] self ++ fired rest (snd (after f self)).
Proof. reflexivity. Qed.

Lemma in_band_stream (frames : list Frame) (self : SquatDetector) :
  Forall (accepted_with in_band) frames ->
  Forall (eq (Some NoTransition)) (fired frames self) /\
  same_posture self (snd (after_all frames self)) /\
  same_counters self (snd (after_all frames self)) /\
  same_accumulators self (snd (after_all frames self)) /\
  squat_just_completed (snd (after_all frames self)) = squat_just_completed self.
Proof.
  intros H. revert self.
  induction H as [|f rest [m [Hm Hb]] _ IH]; intros self.
  - cbn. unfold same_posture, same_counters, same_accumulators. repeat split. constructor.
  - rewrite after_all_cons, fired_cons, (in_band_fires_nothing f m self Hm Hb).
    destruct (in_band_keeps f m self Hm Hb) as (P1 & C1 & A1 & J1).
    destruct (IH (snd (after f self))) as (F2 & P2 & C2 & A2 & J2).
    unfold same_posture, same_counters, same_accumulators in *.
    split; [constructor; [reflexivity | exact F2] |].
    repeat split; intuition congruence.
Qed.

(** ** Reset *)

Lemma reset_squat_count_init (self : SquatDetector) :
  reset_squat_count self = Ok (tt, __init__).
Proof. reflexivity. Qed.

(** ** Methods that only read *)

Lemma determine_bad_squat_feedback_reads (self : SquatDetector) :
  exists s, _determine_bad_squat_feedback self = Ok (s, self).
Proof.
  unfold _determine_bad_squat_feedback.
  destruct (last_squat_analysis self) as [a|]; [|eexists; reflexivity].
  split_ifs; eexists; reflexivity.
Qed.

Lemma get_squat_completion_feedback_reads
    (draw : nat) (was_perfect : bool) (self : SquatDetector) :
  exists s, get_squat_completion_feedback draw was_perfect self = Ok (s, self).
Proof.
  unfold get_squat_completion_feedback. destruct was_perfect.
  - eexists. reflexivity.
  - apply determine_bad_squat_feedback_reads.
Qed.

Lemma get_feedback_data_reads (self : SquatDetector) :
  exists d, get_feedback_data self = Ok (d, self) /\
            total d = total_attempts self /\
            correct d = correct_squats self /\
            missed d = missed_squats self.
Proof.
  unfold get_feedback_data.
  destruct (total_frames_in_correct_squats self >? 0); eexists; repeat split.
Qed.

(** ** Invariants of the reachable states *)

Lemma reachable_counters (self : SquatDetector) :
  reachable self ->
  total_attempts self = correct_squats self + missed_squats self /\
  squat_count self = correct_squats self.
Proof.
  induction 1 as [ | f self a self' _ IH H | self b self' _ IH H | self b self' _ IH H
                 | draw wp self s self' _ IH H | self d self' _ IH H
                 | self n self' _ IH H | self u self' _ IH H ].
  - split; reflexivity.
  - rewrite detect_squat_returns in H. injection H as H. 
    assert (E : self' = snd (after f self)) by (rewrite H; reflexivity). subst self'.
    destruct IH. apply counters_after; assumption.
  - unfold has_squat_just_completed in H. injection H as _ H. subst self'. exact IH.
  - unfold was_last_squat_perfect in H. injection H as _ H. subst self'. exact IH.
  - destruct (get_squat_completion_feedback_reads draw wp self) as [s' E].
    rewrite E in H. injection H as _ H. subst self'. exact IH.
  - destruct (get_feedback_data_reads self) as [d' [E _]].
    rewrite E in H. injection H as _ H. subst self'. exact IH.
  - unfold get_squat_count in H. injection H as _ H. subst self'. exact IH.
  - rewrite reset_squat_count_init in H. injection H as _ H. subst self'.
    split; reflexivity.
Qed.

Lemma reachable_posture (self : SquatDetector) :
  reachable self -> posture_consistent self.
Proof.
  induction 1 as [ | f self a self' _ IH H | self b self' _ IH H | self b self' _ IH H
                 | draw wp self s self' _ IH H | self d self' _ IH H
                 | self n self' _ IH H | self u self' _ IH H ].
  - intros [_ A]. discriminate.
  - rewrite detect_squat_returns in H. injection H as H.
    assert (E : self' = snd (after f self)) by (rewrite H; reflexivity). subst self'.
    apply posture_after. exact IH.
  - unfold has_squat_just_completed in H. injection H as _ H. subst self'. exact IH.
  - unfold was_last_squat_perfect in H. injection H as _ H. subst self'. exact IH.
  - destruct (get_squat_completion_feedback_reads draw wp self) as [s' E].
    rewrite E in H. injection H as _ H. subst self'. exact IH.
  - destruct (get_feedback_data_reads self) as [d' [E _]].
    rewrite E in H. injection H as _ H. subst self'. exact IH.
  - unfold get_squat_count in H. injection H as _ H. subst self'. exact IH.
  - rewrite reset_squat_count_init in H. injection H as _ H. subst self'.
    intros [_ A]. discriminate.
Qed.

(** ** Frames processed while down *)

Lemma knee_angles_app (fs gs : list Frame) :
  knee_angles (fs ++ gs) = knee_angles fs ++ knee_angles gs.
Proof. unfold knee_angles. apply flat_map_app. Qed.

Lemma count_frames_app (c : Measurement -> bool) (fs gs : list Frame) :
  count_frames c (fs ++ gs) = count_frames c fs + count_frames c gs.
Proof. unfold count_frames. rewrite filter_app, length_app. lia. Qed.

Lemma knee_angles_accepted (f : Frame) (m : Measurement) :
  measurement_of f = Some m -> knee_angles [f] = [avg_knee_angle m].
Proof. intros H. unfold knee_angles. cbn. rewrite H. reflexivity. Qed.

Lemma knee_angles_rejected (f : Frame) :
  measurement_of f = None -> knee_angles [f] = [].
Proof. intros H. unfold knee_angles. cbn. rewrite H. reflexivity. Qed.

Lemma count_frames_accepted (c : Measurement -> bool) (f : Frame) (m : Measurement) :
  measurement_of f = Some m -> count_frames c [f] = if c m then 1 else 0.
Proof.
  intros H. unfold count_frames, frame_sat. cbn. rewrite H. destruct (c m); reflexivity.
Qed.

Lemma count_frames_rejected (c : Measurement -> bool) (f : Frame) :
  measurement_of f = None -> count_frames c [f] = 0.
Proof. intros H. unfold count_frames, frame_sat. cbn. rewrite H. reflexivity. Qed.

Lemma Rmin_track (knee lowest : R) :
  (if Rltb knee lowest then knee else lowest) = Rmin lowest knee.
Proof.
  unfold Rltb, Rmin. destruct (Rlt_dec knee lowest), (Rle_dec lowest knee); lra.
Qed.

(** What the tracking block records for an accepted frame while down. *)
Lemma track_down (m : Measurement) (self : SquatDetector) :
  is_currently_squatting self = true ->
  lowest_knee_angle_this_squat (track m self)
  = Rmin (lowest_knee_angle_this_squat self) (avg_knee_angle m) /\
  best_form_this_squat (track m self)
  = best_form_this_squat self || lower_body_perfect m /\
  current_squat_total_frames (track m self) = current_squat_total_frames self + 1 /\
  current_squat_knee_frames (track m self)
  = current_squat_knee_frames self + (if knees_good m then 1 else 0) /\
  current_squat_hip_frames (track m self)
  = current_squat_hip_frames self + (if hips_good m && depth_good m then 1 else 0) /\
  current_squat_back_frames (track m self)
  = current_squat_back_frames self + (if back_good m then 1 else 0).
Proof.
  intros H. rewrite <- Rmin_track. unfold track. rewrite H.
  destruct (knees_good m), (hips_good m && depth_good m), (back_good m),
    (Rltb (avg_knee_angle m) (lowest_knee_angle_this_squat self)) eqn:L,
    (lower_body_perfect m);
    cbn; rewrite ?L, ?orb_true_r, ?orb_false_r, ?Z.add_0_r; repeat split.
Qed.

(** The state just before the state machine runs on an accepted frame. *)
Lemma tracked_frame (f : Frame) (m : Measurement) (self : SquatDetector) :
  measurement_of f = Some m ->
  is_currently_squatting self = true ->
  let tracked := track m (log_frame (set_frame_count (frame_count self + 1) self)) in
  lowest_knee_angle_this_squat tracked
  = fold_left Rmin (knee_angles [f]) (lowest_knee_angle_this_squat self) /\
  best_form_this_squat tracked
  = best_form_this_squat self || existsb (frame_sat lower_body_perfect) [f] /\
  current_squat_total_frames tracked
  = current_squat_total_frames self + count_frames (fun _ => true) [f] /\
  current_squat_knee_frames tracked
  = current_squat_knee_frames self + count_frames knees_good [f] /\
  current_squat_hip_frames tracked
  = current_squat_hip_frames self
    + count_frames (fun m => hips_good m && depth_good m) [f] /\
  current_squat_back_frames tracked
  = current_squat_back_frames self + count_frames back_good [f].
Proof.
  intros Hm Hs tracked.
  assert (Hs' : is_currently_squatting
                  (log_frame (set_frame_count (frame_count self + 1) self)) = true)
    by (autorewrite with stages; exact Hs).
  destruct (track_down m _ Hs') as (L & B & T & K & H & A).
  unfold tracked. rewrite L, B, T, K, H, A.
  rewrite (knee_angles_accepted f m Hm), !(count_frames_accepted _ f m Hm).
  cbn [fold_left existsb]. unfold frame_sat. rewrite Hm, orb_false_r.
  autorewrite with stages. repeat split.
Qed.

Lemma down_no_transition (m : Measurement) (self : SquatDetector) :
  was_standing self = false ->
  (avg_knee_angle m < STANDING_KNEE_THRESHOLD)%R ->
  transition m self = NoTransition.
Proof.
  intros Hw Hk. unfold transition, is_standing. rewrite Hw.
  rewrite (Rgeb_false _ _ Hk). reflexivity.
Qed.

(** The attributes a detector that is down carries through a stream of
    frames none of which brings the knees back to the standing threshold. *)
Lemma down_stream (frames : list Frame) (self : SquatDetector) :
  was_standing self = false ->
  is_currently_squatting self = true ->
  Forall not_standing frames ->
  was_standing (snd (after_all frames self)) = false /\
  is_currently_squatting (snd (after_all frames self)) = true /\
  same_counters self (snd (after_all frames self)) /\
  same_accumulators self (snd (after_all frames self)) /\
  lowest_knee_angle_this_squat (snd (after_all frames self))
  = fold_left Rmin (knee_angles frames) (lowest_knee_angle_this_squat self) /\
  best_form_this_squat (snd (after_all frames self))
  = best_form_this_squat self || existsb (frame_sat lower_body_perfect) frames /\
  current_squat_total_frames (snd (after_all frames self))
  = current_squat_total_frames self + count_frames (fun _ => true) frames /\
  current_squat_knee_frames (snd (after_all frames self))
  = current_squat_knee_frames self + count_frames knees_good frames /\
  current_squat_hip_frames (snd (after_all frames self))
  = current_squat_hip_frames self
    + count_frames (fun m => hips_good m && depth_good m) frames /\
  current_squat_back_frames (snd (after_all frames self))
  = current_squat_back_frames self + count_frames back_good frames.
Proof.
  intros Hw Hs H. revert self Hw Hs.
  induction H as [|f rest Hf _ IH]; intros self Hw Hs.
  - cbn [after_all snd knee_angles flat_map fold_left existsb].
    unfold same_counters, same_accumulators, count_frames. cbn [filter List.length Z.of_nat].
    rewrite orb_false_r, !Z.add_0_r. repeat split; assumption.
  - rewrite after_all_cons.
    change (f :: rest) with ([f] ++ rest).
    rewrite knee_angles_app, fold_left_app, existsb_app, !count_frames_app.
    assert (S1 :
      was_standing (snd (after f self)) = false /\
      is_currently_squatting (snd (after f self)) = true /\
      same_counters self (snd (after f self)) /\
      same_accumulators self (snd (after f self)) /\
      lowest_knee_angle_this_squat (snd (after f self))
      = fold_left Rmin (knee_angles [f]) (lowest_knee_angle_this_squat self) /\
      best_form_this_squat (snd (after f self))
      = best_form_this_squat self || existsb (frame_sat lower_body_perfect) [f] /\
      current_squat_total_frames (snd (after f self))
      = current_squat_total_frames self + count_frames (fun _ => true) [f] /\
      current_squat_knee_frames (snd (after f self))
      = current_squat_knee_frames self + count_frames knees_good [f] /\
      current_squat_hip_frames (snd (after f self))
      = current_squat_hip_frames self
        + count_frames (fun m => hips_good m && depth_good m) [f] /\
      current_squat_back_frames (snd (after f self))
      = current_squat_back_frames self + count_frames back_good [f]).
    { unfold same_counters, same_accumulators.
      destruct (measurement_of f) as [m|] eqn:Hm.
      - rewrite (after_accepted f m self Hm), analyse_state. unfold state_machine.
        rewrite transition_tracked, transition_bump.
        rewrite (down_no_transition m self Hw (Hf m Hm)).
        destruct (tracked_frame f m self Hm Hs) as (L & B & T & K & H & A).
        autorewrite with stages. rewrite L, B, T, K, H, A.
        repeat split; assumption.
      - rewrite (after_rejected f self Hm). cbn [snd].
        rewrite (knee_angles_rejected f Hm), !(count_frames_rejected _ f Hm).
        cbn [fold_left existsb]. unfold frame_sat. rewrite Hm.
        autorewrite with stages. rewrite !orb_false_r, !Z.add_0_r.
        repeat split; assumption. }
    destruct S1 as (W1 & Q1 & C1 & A1 & L1 & B1 & T1 & K1 & H1 & R1).
    destruct (IH (snd (after f self)) W1 Q1)
      as (W2 & Q2 & C2 & A2 & L2 & B2 & T2 & K2 & H2 & R2).
    unfold same_counters, same_accumulators in *.
    rewrite L2, B2, T2, K2, H2, R2, L1, B1, T1, K1, H1, R1.
    rewrite !orb_assoc, !Z.add_assoc.
    repeat split; try assumption; intuition congruence.
Qed.

(** ** A whole repetition *)

Lemma start_transition (m : Measurement) (self : SquatDetector) :
  was_standing self = true ->
  (avg_knee_angle m < SQUATTING_KNEE_THRESHOLD)%R ->
  transition m self = SquatStarted.
Proof.
  intros Hw Hk. unfold transition, is_squatting.
  rewrite Hw, (Rltb_true _ _ Hk). reflexivity.
Qed.

Lemma finish_transition (m : Measurement) (self : SquatDetector) :
  was_standing self = false ->
  is_currently_squatting self = true ->
  (STANDING_KNEE_THRESHOLD <= avg_knee_angle m)%R ->
  transition m self = SquatCompleted.
Proof.
  intros Hw Hs Hk. unfold transition, is_standing.
  rewrite Hw, Hs, (Rgeb_true _ _ Hk). reflexivity.
Qed.

Lemma start_frame (f : Frame) (m : Measurement) (self : SquatDetector) :
  measurement_of f = Some m ->
  was_standing self = true ->
  (avg_knee_angle m < SQUATTING_KNEE_THRESHOLD)%R ->
  was_standing (snd (after f self)) = false /\
  is_currently_squatting (snd (after f self)) = true /\
  same_counters self (snd (after f self)) /\
  same_accumulators self (snd (after f self)) /\
  lowest_knee_angle_this_squat (snd (after f self)) = avg_knee_angle m /\
  best_form_this_squat (snd (after f self)) = false /\
  current_squat_total_frames (snd (after f self)) = 0 /\
  current_squat_knee_frames (snd (after f self)) = 0 /\
  current_squat_hip_frames (snd (after f self)) = 0 /\
  current_squat_back_frames (snd (after f self)) = 0.
Proof.
  intros Hm Hw Hk.
  rewrite (after_accepted f m self Hm), analyse_state. unfold state_machine.
  rewrite transition_tracked, transition_bump, (start_transition m self Hw Hk).
  unfold same_counters, same_accumulators.
  autorewrite with stages. repeat split.
Qed.

Lemma finish_frame (f : Frame) (m : Measurement) (self : SquatDetector) :
  measurement_of f = Some m ->
  was_standing self = false ->
  is_currently_squatting self = true ->
  (STANDING_KNEE_THRESHOLD <= avg_knee_angle m)%R ->
  fired [f] self = [Some SquatCompleted] /\
  snd (after f self)
  = set_last_squat_analysis (Some (fst (after f self)))
      (squat_completed
         (track m (log_frame (set_frame_count (frame_count self + 1) self)))).
Proof.
  intros Hm Hw Hs Hk. cbn [fired].
  rewrite (after_accepted f m self Hm), analyse_state, Hm. unfold state_machine.
  rewrite transition_tracked, transition_bump, (finish_transition m self Hw Hs Hk).
  split; reflexivity.
Qed.

Lemma lowest_knee_start (start : Frame) (m : Measurement) (rest : list Frame) :
  measurement_of start = Some m ->
  lowest_knee (start :: rest) = fold_left Rmin (knee_angles rest) (avg_knee_angle m).
Proof.
  intros Hm. unfold lowest_knee.
  change (start :: rest) with ([start] ++ rest).
  rewrite knee_angles_app, (knee_angles_accepted start m Hm). reflexivity.
Qed.

Lemma repetition_outcome
    (self : SquatDetector) (start : Frame) (middle : list Frame) (finish : Frame) :
  repetition self start middle finish ->
  let self' := snd (after_all (start :: middle ++ [finish]) self) in
  let tracked := middle ++ [finish] in
  fired [finish] (snd (after_all (start :: middle) self)) = [Some SquatCompleted] /\
  total_attempts self' = total_attempts self + 1 /\
  squat_just_completed self' = true /\
  was_standing self' = true /\
  is_currently_squatting self' = false /\
  lowest_knee_angle_this_squat self' = lowest_knee (start :: tracked) /\
  last_squat_was_perfect self'
  = existsb (frame_sat lower_body_perfect) tracked
    && Rltb (lowest_knee (start :: tracked)) 110 /\
  (last_squat_was_perfect self' = true ->
   correct_squats self' = correct_squats self + 1 /\
   squat_count self' = squat_count self + 1 /\
   missed_squats self' = missed_squats self /\
   knee_correct_frames self'
   = knee_correct_frames self + count_frames knees_good tracked /\
   hip_correct_frames self'
   = hip_correct_frames self
     + count_frames (fun m => hips_good m && depth_good m) tracked /\
   back_correct_frames self'
   = back_correct_frames self + count_frames back_good tracked /\
   total_frames_in_correct_squats self'
   = total_frames_in_correct_squats self + count_frames (fun _ => true) tracked) /\
  (last_squat_was_perfect self' = false ->
   correct_squats self' = correct_squats self /\
   squat_count self' = squat_count self /\
   missed_squats self' = missed_squats self + 1 /\
   same_accumulators self self').
Proof.
  intros (Hw & (m0 & Hm0 & Hk0) & Hmid & (mc & Hmc & Hkc)) self' tracked.
  destruct (start_frame start m0 self Hm0 Hw Hk0)
    as (W1 & Q1 & C1 & A1 & L1 & B1 & T1 & K1 & H1 & R1).
  destruct (down_stream middle _ W1 Q1 Hmid)
    as (W2 & Q2 & C2 & A2 & L2 & B2 & T2 & K2 & H2 & R2).
  set (s1 := snd (after start self)) in *.
  assert (E2 : snd (after_all (start :: middle) self) = snd (after_all middle s1))
    by apply after_all_cons.
  set (s2 := snd (after_all middle s1)) in *.
  destruct (finish_frame finish mc s2 Hmc W2 Q2 Hkc) as (F3 & E3).
  destruct (tracked_frame finish mc s2 Hmc Q2) as (L3 & B3 & T3 & K3 & H3 & R3).
  set (s3 := track mc (log_frame (set_frame_count (frame_count s2 + 1) s2))) in *.
  assert (E : self' = set_last_squat_analysis (Some (fst (after finish s2)))
                        (squat_completed s3)).
  { unfold self'. rewrite after_all_cons, after_all_app. fold s1. fold s2.
    rewrite after_all_cons. cbn [after_all snd]. exact E3. }
  destruct (squat_completed_flags s3) as (W4 & Q4 & J4 & N4 & P4).
  destruct (squat_completed_transient s3) as (_ & _ & _ & _ & L4).
  assert (Lw : lowest_knee_angle_this_squat s3 = lowest_knee (start :: tracked)).
  { rewrite (lowest_knee_start start m0 tracked Hm0). unfold tracked.
    rewrite knee_angles_app, fold_left_app, L3, L2, L1. reflexivity. }
  assert (Bf : best_form_this_squat s3 = existsb (frame_sat lower_body_perfect) tracked).
  { unfold tracked. rewrite existsb_app, B3, B2, B1. reflexivity. }
  unfold same_counters, same_accumulators in *.
  assert (Ct : total_attempts s3 = total_attempts self /\
               correct_squats s3 = correct_squats self /\
               missed_squats s3 = missed_squats self /\
               squat_count s3 = squat_count self /\
               knee_correct_frames s3 = knee_correct_frames self /\
               hip_correct_frames s3 = hip_correct_frames self /\
               back_correct_frames s3 = back_correct_frames self /\
               total_frames_in_correct_squats s3 = total_frames_in_correct_squats self).
  { unfold s3. autorewrite with stages. repeat split; intuition congruence. }
  destruct Ct as (c1 & c2 & c3 & c4 & c5 & c6 & c7 & c8).
  rewrite E2. split; [exact F3|].
  rewrite E. autorewrite with stages.
  rewrite W4, Q4, J4, N4, L4, Lw, c1.
  split; [reflexivity|]. split; [reflexivity|]. split; [reflexivity|].
  split; [reflexivity|]. split; [reflexivity|].
  split; [rewrite P4, Bf, Lw; reflexivity|].
  split; intros P.
  - destruct (squat_completed_perfect s3 P) as (p1 & p2 & p3 & p4 & p5 & p6 & p7).
    rewrite p1, p2, p3, p4, p5, p6, p7, c2, c3, c4, c5, c6, c7, c8, K3, H3, R3, T3.
    rewrite K2, H2, R2, T2, K1, H1, R1, T1.
    unfold tracked. rewrite !count_frames_app. repeat split; lia.
  - destruct (squat_completed_imperfect s3 P) as (p1 & p2 & p3 & p4 & p5 & p6 & p7).
    rewrite p1, p2, p3, p4, p5, p6, p7, c2, c3, c4, c5, c6, c7, c8.
    repeat split.
Qed.

(** ** Real-time feedback *)

Lemma feedback_after (f : Frame) (m : Measurement) (self : SquatDetector) :
  measurement_of f = Some m ->
  form_feedback (fst (after f self))
  = _generate_feedback (lower_body_perfect m) (back_good m) (hips_good m)
      (knees_good m) (depth_good m) (is_currently_squatting (snd (after f self))).
Proof.
  intros Hm. rewrite (after_accepted f m self Hm), analyse_state.
  autorewrite with stages. reflexivity.
Qed.

Lemma issues_as_built_nonempty (m : Measurement) :
  lower_body_perfect m = false -> issues_as_built m <> [].
Proof.
  unfold lower_body_perfect, issues_as_built, append_if.
  destruct (knees_good m), (hips_good m), (depth_good m); cbn; congruence.
Qed.

Lemma generate_feedback_fix (m : Measurement) (shoulders_good : bool) :
  lower_body_perfect m = false ->
  _generate_feedback (lower_body_perfect m) shoulders_good (hips_good m)
    (knees_good m) (depth_good m) true
  = ("Fix: " ++ String.concat ", " (firstn 2 (issues_as_built m)))%string.
Proof.
  intros H. pose proof (issues_as_built_nonempty m H) as N.
  unfold _generate_feedback. rewrite H. cbn [andb].
  change (append_if (negb (depth_good m)) "Depth"
            (append_if (negb (knees_good m)) "Knees"
               (append_if (negb (hips_good m)) "Hips" [])))
    with (issues_as_built m).
  destruct (issues_as_built m); [contradiction | reflexivity].
Qed.

(** ** The criteria on the sample poses *)

Lemma perfect_form_iff (m : Measurement) :
  lower_body_perfect m = true <-> perfect_form m.
Proof.
  unfold lower_body_perfect, perfect_form, knees_good, hips_good, depth_good,
    Rleb, Rgeb, KNEE_PERFECT_MIN, KNEE_PERFECT_MAX, HIP_PERFECT_MIN, HIP_PERFECT_MAX,
    MIN_HIP_DEPTH_RATIO.
  destruct (Rle_dec 50 (avg_knee_angle m)), (Rle_dec (avg_knee_angle m) 110),
    (Rle_dec 60 (avg_hip_angle m)), (Rle_dec (avg_hip_angle m) 120),
    (Rge_dec (hip_depth_ratio m) 0.85); cbn; split; intros H;
    try discriminate; try reflexivity; try lra.
Qed.

Lemma deep_squat_pose_form :
  exists m, measurement_of deep_squat_pose = Some m /\
            (avg_knee_angle m = 90)%R /\ lower_body_perfect m = true.
Proof.
  destruct deep_squat_pose_measurement as (m & Hm & K & H & D).
  exists m. split; [exact Hm|]. split; [exact K|].
  apply perfect_form_iff. unfold perfect_form. rewrite K, H, D. lra.
Qed.

Lemma high_hips_pose_form :
  exists m, measurement_of high_hips_pose = Some m /\
            (avg_knee_angle m = 90)%R /\
            knees_good m = true /\ hips_good m = true /\ depth_good m = false.
Proof.
  destruct high_hips_pose_measurement as (m & Hm & K & H & D).
  exists m. split; [exact Hm|]. split; [exact K|].
  unfold knees_good, hips_good, depth_good. rewrite K, H, D.
  unfold KNEE_PERFECT_MIN, KNEE_PERFECT_MAX, HIP_PERFECT_MIN, HIP_PERFECT_MAX,
    MIN_HIP_DEPTH_RATIO.
  rewrite !Rleb_true by lra. rewrite Rgeb_false by lra. repeat split.
Qed.

Lemma standing_pose_form :
  exists m, measurement_of standing_pose = Some m /\
            (avg_knee_angle m = 180)%R /\ lower_body_perfect m = false.
Proof.
  destruct standing_pose_measurement as (m & Hm & K).
  exists m. split; [exact Hm|]. split; [exact K|].
  unfold lower_body_perfect, knees_good. rewrite K.
  unfold KNEE_PERFECT_MAX. rewrite (Rleb_false 180 110) by lra.
  rewrite andb_false_r. reflexivity.
Qed.

(** * Properties of the detector *)

(** ** C3: hysteresis *)

(** C3.  While the average knee angle of every frame of a stream stays in
    the band [120, 130), no arm of the state machine runs on any of the
    frames: the posture flags, the attempt, perfect, imperfect and squat
    counters, the lifetime frame accumulators and the completion flag are
    after the stream what they were before it.  This holds from every
    detector state, the initial standing one included. *)
Theorem C3_hysteresis_band_stable :
  forall (frames : list Frame) (self : SquatDetector),
    Forall (accepted_with in_band) frames ->
    exists out self',
      feed frames self = Ok (out, self') /\
      Forall (eq (Some NoTransition)) (fired frames self) /\
      same_posture self self' /\
      same_counters self self' /\
      same_accumulators self self' /\
      squat_just_completed self' = squat_just_completed self.
Proof.
  intros frames self H.
  exists (fst (after_all frames self)), (snd (after_all frames self)).
  split; [rewrite feed_returns; destruct (after_all frames self); reflexivity|].
  apply in_band_stream. exact H.
Qed.

Lemma half_bent_pose_in_band : accepted_with in_band half_bent_pose.
Proof.
  destruct half_bent_pose_measurement as (m & Hm & K).
  exists m. split; [exact Hm|].
  unfold in_band, SQUATTING_KNEE_THRESHOLD, STANDING_KNEE_THRESHOLD. rewrite K. lra.
Qed.

(** C3 on a new detector fed two frames with the knees at 120 degrees. *)
Lemma C3_hysteresis_band_stable_witness :
  Forall (accepted_with in_band) [half_bent_pose; half_bent_pose] /\
  exists out self',
    feed [half_bent_pose; half_bent_pose] __init__ = Ok (out, self') /\
    Forall (eq (Some NoTransition)) (fired [half_bent_pose; half_bent_pose] __init__) /\
    same_posture __init__ self' /\
    same_counters __init__ self' /\
    same_accumulators __init__ self' /\
    squat_just_completed self' = squat_just_completed __init__.
Proof.
  assert (H : Forall (accepted_with in_band) [half_bent_pose; half_bent_pose])
    by (repeat constructor; apply half_bent_pose_in_band).
  split; [exact H|].
  exact (C3_hysteresis_band_stable [half_bent_pose; half_bent_pose] __init__ H).
Defined.

(** ** C4: the posture flags *)

(** C4.  [was_standing] and [is_currently_squatting] are not both true in
    the freshly constructed detector, nor after [reset_squat_count]; every
    call of [detect_squat], on an accepted or a rejected frame, keeps it so;
    hence it is so in every reachable state. *)
Theorem C4_posture_flags_exclusive :
  posture_consistent __init__ /\
  (forall self, exists self',
      reset_squat_count self = Ok (tt, self') /\ posture_consistent self') /\
  (forall f self,
      posture_consistent self ->
      exists a self', detect_squat f self = Ok (a, self') /\ posture_consistent self') /\
  (forall self, reachable self -> posture_consistent self).
Proof.
  split; [intros [_ A]; discriminate|].
  split.
  { intros self. exists __init__. split; [apply reset_squat_count_init|].
    intros [_ A]. discriminate. }
  split.
  { intros f self H. exists (fst (after f self)), (snd (after f self)).
    split; [rewrite detect_squat_returns; destruct (after f self); reflexivity|].
    apply posture_after. exact H. }
  apply reachable_posture.
Qed.

(** C4 on a new detector fed a standing frame. *)
Lemma C4_posture_flags_exclusive_witness :
  posture_consistent __init__ /\
  exists a self',
    detect_squat standing_pose __init__ = Ok (a, self') /\ posture_consistent self'.
Proof.
  pose proof C4_posture_flags_exclusive as (H0 & _ & H & _).
  split; [exact H0|]. exact (H standing_pose __init__ H0).
Defined.

(** ** C5: rejected frames *)

Lemma rejected_measurement (f : Frame) :
  py_not f = true \/ (exists lms, f = Some lms /\ len lms < 33) ->
  measurement_of f = None.
Proof.
  intros [H | (lms & -> & H)].
  - unfold measurement_of. destruct f as [lms|]; [|reflexivity].
    rewrite H. reflexivity.
  - unfold measurement_of. apply Z.ltb_lt in H. rewrite H, orb_true_r. reflexivity.
Qed.

(** C5.  On a frame that is missing, empty or shorter than 33 landmarks,
    [detect_squat] returns without raising; the only attribute it writes is
    [frame_count], which goes up by one; no measurement is taken and the
    state machine is not reached; the analysis returned has all four
    numbers at 0 and the message "No pose detected". *)
Theorem C5_rejected_frame :
  forall (f : Frame) (self : SquatDetector),
    py_not f = true \/ (exists lms, f = Some lms /\ len lms < 33) ->
    exists a self',
      detect_squat f self = Ok (a, self') /\
      self' = set_frame_count (frame_count self + 1) self /\
      frame_count self' = frame_count self + 1 /\
      measurement_of f = None /\
      fired [f] self = [None] /\
      knee_angle a = 0%R /\ hip_angle a = 0%R /\ back_angle a = 0%R /\
      hip_depth a = 0%R /\
      form_feedback a = "No pose detected"%string /\
      is_squat_position a = false /\
      checkpoint_results a = [].
Proof.
  intros f self H. apply rejected_measurement in H.
  exists (_get_empty_analysis "No pose detected"),
         (set_frame_count (frame_count self + 1) self).
  split; [rewrite detect_squat_returns, (after_rejected f self H); reflexivity|].
  cbn [fired]. rewrite H. repeat split.
Qed.

(** C5 on a new detector fed a frame of two landmarks. *)
Lemma C5_rejected_frame_witness :
  exists a self',
    detect_squat (Some [pt 0 0; pt 1 1]) __init__ = Ok (a, self') /\
    frame_count self' = 1 /\
    knee_angle a = 0%R /\
    form_feedback a = "No pose detected"%string.
Proof.
  destruct (C5_rejected_frame (Some [pt 0 0; pt 1 1]) __init__)
    as (a & self' & E & _ & C & _ & _ & K & _ & _ & _ & F & _).
  - right. exists [pt 0 0; pt 1 1]. split; [reflexivity | reflexivity].
  - exists a, self'. repeat split; assumption.
Defined.

(** ** C7: the completion flag *)

Lemma completed_sets_flag (f : Frame) (self : SquatDetector) :
  fired [f] self = [Some SquatCompleted] ->
  squat_just_completed (snd (after f self)) = true.
Proof.
  cbn [fired]. unfold after.
  destruct (measurement_of f) as [m|]; [|discriminate].
  intros T. injection T as T.
  rewrite analyse_state. unfold state_machine. rewrite T.
  autorewrite with stages.
  apply (squat_completed_flags
           (track m (log_frame (set_frame_count (frame_count self + 1) self)))).
Qed.

(** C7.  [has_squat_just_completed] returns the completion flag and leaves
    the detector as it was but for the flag, which it clears.  After a frame
    on which the completion arm ran, a first call returns true and a second
    call, made right after it, returns false. *)
Theorem C7_completion_flag_one_shot :
  (forall self,
      has_squat_just_completed self
      = Ok (squat_just_completed self, set_squat_just_completed false self)) /\
  (forall f self,
      fired [f] self = [Some SquatCompleted] ->
      exists a self1 self2,
        detect_squat f self = Ok (a, self1) /\
        has_squat_just_completed self1 = Ok (true, self2) /\
        has_squat_just_completed self2 = Ok (false, self2) /\
        self2 = set_squat_just_completed false self1).
Proof.
  split; [reflexivity|].
  intros f self H.
  exists (fst (after f self)), (snd (after f self)),
         (set_squat_just_completed false (snd (after f self))).
  split; [rewrite detect_squat_returns; destruct (after f self); reflexivity|].
  split; [|split; reflexivity].
  unfold has_squat_just_completed. rewrite (completed_sets_flag f self H). reflexivity.
Qed.

Lemma squatting_detector_down :
  was_standing squatting_detector = false /\
  is_currently_squatting squatting_detector = true.
Proof.
  destruct deep_squat_pose_form as (m & Hm & K & _).
  assert (Hk : (avg_knee_angle m < SQUATTING_KNEE_THRESHOLD)%R)
    by (unfold SQUATTING_KNEE_THRESHOLD; rewrite K; lra).
  destruct (start_frame deep_squat_pose m __init__ Hm eq_refl Hk) as (W & Q & _).
  split; assumption.
Qed.

Lemma standing_pose_completes :
  fired [standing_pose] squatting_detector = [Some SquatCompleted].
Proof.
  destruct standing_pose_form as (m & Hm & K & _).
  destruct squatting_detector_down as (W & Q).
  apply (finish_frame standing_pose m squatting_detector Hm W Q).
  unfold STANDING_KNEE_THRESHOLD. rewrite K. lra.
Qed.

(** C7 on a down detector fed a standing frame. *)
Lemma C7_completion_flag_one_shot_witness :
  exists a self1 self2,
    detect_squat standing_pose squatting_detector = Ok (a, self1) /\
    has_squat_just_completed self1 = Ok (true, self2) /\
    has_squat_just_completed self2 = Ok (false, self2).
Proof.
  destruct (proj2 C7_completion_flag_one_shot standing_pose squatting_detector
              standing_pose_completes)
    as (a & self1 & self2 & E & H1 & H2 & _).
  exists a, self1, self2. repeat split; assumption.
Defined.

(** ** C8: the percentages *)

(** C8.  [get_feedback_data] leaves the detector as it was.  With a positive
    number [t] of frames of perfect repetitions, each percentage is the
    integer quotient of 100 times the good frames by [t], that is, the
    largest integer [p] with [p * t <= 100 * good]; with [t = 0] each
    percentage is 0.  With 80 knee-good frames out of 120 the knee
    percentage is 66. *)
Theorem C8_percentages :
  forall self : SquatDetector,
    exists d,
      get_feedback_data self = Ok (d, self) /\
      (0 < total_frames_in_correct_squats self ->
       kneePercentage d
       = knee_correct_frames self * 100 / total_frames_in_correct_squats self /\
       hipPercentage d
       = hip_correct_frames self * 100 / total_frames_in_correct_squats self /\
       backPercentage d
       = back_correct_frames self * 100 / total_frames_in_correct_squats self /\
       kneePercentage d * total_frames_in_correct_squats self
         <= 100 * knee_correct_frames self
         < (kneePercentage d + 1) * total_frames_in_correct_squats self /\
       hipPercentage d * total_frames_in_correct_squats self
         <= 100 * hip_correct_frames self
         < (hipPercentage d + 1) * total_frames_in_correct_squats self /\
       backPercentage d * total_frames_in_correct_squats self
         <= 100 * back_correct_frames self
         < (backPercentage d + 1) * total_frames_in_correct_squats self) /\
      (total_frames_in_correct_squats self = 0 ->
       kneePercentage d = 0 /\ hipPercentage d = 0 /\ backPercentage d = 0) /\
      (knee_correct_frames self = 80 ->
       total_frames_in_correct_squats self = 120 ->
       kneePercentage d = 66).
Proof.
  intros self. unfold get_feedback_data.
  destruct (total_frames_in_correct_squats self >? 0) eqn:G.
  - eexists. split; [reflexivity|].
    cbn [kneePercentage hipPercentage backPercentage].
    apply Z.gtb_lt in G.
    split; [|split].
    + intros _.
      pose proof (Z.mul_div_le (knee_correct_frames self * 100) _ G) as Lk.
      pose proof (Z.mul_succ_div_gt (knee_correct_frames self * 100) _ G) as Uk.
      pose proof (Z.mul_div_le (hip_correct_frames self * 100) _ G) as Lh.
      pose proof (Z.mul_succ_div_gt (hip_correct_frames self * 100) _ G) as Uh.
      pose proof (Z.mul_div_le (back_correct_frames self * 100) _ G) as Lb.
      pose proof (Z.mul_succ_div_gt (back_correct_frames self * 100) _ G) as Ub.
      repeat split; try reflexivity; lia.
    + intros Z0. lia.
    + intros K T. rewrite K, T. reflexivity.
  - eexists. split; [reflexivity|].
    cbn [kneePercentage hipPercentage backPercentage].
    rewrite Z.gtb_ltb in G. apply Z.ltb_ge in G.
    split; [intros; lia|]. split; [intros; repeat split|].
    intros K T. lia.
Qed.

(** C8 on 80 knee-good frames out of 120. *)
Lemma C8_percentages_witness :
  exists d,
    get_feedback_data detector_80_of_120 = Ok (d, detector_80_of_120) /\
    kneePercentage d = 66.
Proof.
  destruct (C8_percentages detector_80_of_120) as (d & E & _ & _ & H).
  exists d. split; [exact E|]. apply H; reflexivity.
Defined.

(** ** C9: the angle at a joint *)

(** C9.  [_calculate_angle] is a total function on real coordinates and its
    value lies in [0, 180]; when the middle point lies strictly between the
    two others on a line the value is 180; when the three points coincide
    it is 0. *)
Theorem C9_calculate_angle :
  (forall a b c : Landmark.t,
      (0 <= Geometry._calculate_angle a b c <= 180)%R) /\
  (forall (a b c : Landmark.t) (t : R),
      (0 < t < 1)%R ->
      Landmark.x a <> Landmark.x c \/ Landmark.y a <> Landmark.y c ->
      Landmark.x b = (Landmark.x a + t * (Landmark.x c - Landmark.x a))%R ->
      Landmark.y b = (Landmark.y a + t * (Landmark.y c - Landmark.y a))%R ->
      Geometry._calculate_angle a b c = 180%R) /\
  (forall a b c : Landmark.t,
      Landmark.x a = Landmark.x b -> Landmark.y a = Landmark.y b ->
      Landmark.x c = Landmark.x b -> Landmark.y c = Landmark.y b ->
      Geometry._calculate_angle a b c = 0%R).
Proof.
  split; [apply calculate_angle_range|].
  split; [|apply calculate_angle_coincident].
  intros a b c t Ht Hac Hx Hy.
  apply calculate_angle_opposite_rays
    with (dx := (Landmark.x a - Landmark.x c)%R) (dy := (Landmark.y a - Landmark.y c)%R)
         (s := t) (t := (1 - t)%R).
  - lra.
  - lra.
  - destruct Hac; [left | right]; lra.
  - rewrite Hx. ring.
  - rewrite Hy. ring.
  - rewrite Hx. ring.
  - rewrite Hy. ring.
Qed.

(** C9 on the points (0,0), (1/2,1/2), (1,1), and on three times (1,1). *)
Lemma C9_calculate_angle_witness :
  Geometry._calculate_angle (pt 0 0) (pt (1/2) (1/2)) (pt 1 1) = 180%R /\
  Geometry._calculate_angle (pt 1 1) (pt 1 1) (pt 1 1) = 0%R.
Proof.
  split.
  - apply (proj1 (proj2 C9_calculate_angle) (pt 0 0) (pt (1/2) (1/2)) (pt 1 1) (1/2)%R);
      cbn [pt Landmark.x Landmark.y]; lra.
  - apply (proj2 (proj2 C9_calculate_angle)); reflexivity.
Defined.

(** ** C10: the counters *)

(** C10.  In every state a detector can reach through its public methods,
    the attempts are the perfect plus the imperfect repetitions and
    [squat_count] is the number of perfect ones; so the dict of
    [get_feedback_data] has "total" = "correct" + "missed", and
    [get_squat_count] returns the number of perfect repetitions. *)
Theorem C10_counter_invariants :
  forall self : SquatDetector,
    reachable self ->
    total_attempts self = correct_squats self + missed_squats self /\
    squat_count self = correct_squats self /\
    (exists d, get_feedback_data self = Ok (d, self) /\
               total d = correct d + missed d) /\
    get_squat_count self = Ok (correct_squats self, self).
Proof.
  intros self H. destruct (reachable_counters self H) as [T S].
  split; [exact T|]. split; [exact S|]. split.
  - destruct (get_feedback_data_reads self) as (d & E & Et & Ec & Em).
    exists d. split; [exact E|]. rewrite Et, Ec, Em. exact T.
  - unfold get_squat_count. rewrite S. reflexivity.
Qed.

(** C10 on a new detector after one squat. *)
Lemma C10_counter_invariants_witness :
  exists out self,
    feed [deep_squat_pose; standing_pose] __init__ = Ok (out, self) /\
    total_attempts self = correct_squats self + missed_squats self /\
    get_squat_count self = Ok (correct_squats self, self).
Proof.
  exists (fst (after_all [deep_squat_pose; standing_pose] __init__)),
         (snd (after_all [deep_squat_pose; standing_pose] __init__)).
  split; [rewrite feed_returns;
          destruct (after_all [deep_squat_pose; standing_pose] __init__); reflexivity|].
  assert (R : reachable (snd (after_all [deep_squat_pose; standing_pose] __init__))).
  { rewrite !after_all_cons. cbn [after_all snd].
    eapply reach_detect_squat; [|apply detect_squat_pair].
    eapply reach_detect_squat; [|apply detect_squat_pair].
    apply reach_init. }
  destruct (C10_counter_invariants _ R) as (T & _ & _ & G).
  split; assumption.
Defined.

(** ** C1 and C6: what a repetition adds to the counters *)

Lemma frame_sat_perfect (f : Frame) :
  frame_sat lower_body_perfect f = true <-> accepted_with perfect_form f.
Proof.
  unfold frame_sat, accepted_with. split.
  - destruct (measurement_of f) as [m|]; [|discriminate].
    intros H. exists m. split; [reflexivity | apply perfect_form_iff; exact H].
  - intros (m & -> & H). apply perfect_form_iff. exact H.
Qed.

Lemma existsb_perfect (frames : list Frame) :
  existsb (frame_sat lower_body_perfect) frames = true
  <-> Exists (accepted_with perfect_form) frames.
Proof.
  rewrite existsb_exists, Exists_exists.
  split; intros (f & I & H); exists f; (split; [exact I | apply frame_sat_perfect; exact H]).
Qed.

Lemma Rltb_iff (a b : R) : Rltb a b = true <-> (a < b)%R.
Proof.
  unfold Rltb. destruct (Rlt_dec a b); split; intros H;
    try reflexivity; try assumption; try discriminate; contradiction.
Qed.

(** C1, amended.  Take a detector that was standing, a frame that takes the
    knees below 120, any frames that keep them below 130, and a frame that
    brings them back to 130 or more.  The stream is processed without
    raising and counts one more attempt.  The repetition is recorded as
    perfect if and only if (a) one of the frames processed after the
    starting frame had knee angle in [50, 110], hip angle in [60, 120] and
    depth ratio at least 0.85 at once, and (b) the lowest average knee angle
    over all frames of the repetition, the starting frame included, is
    below 110; that lowest angle is what the detector has recorded.  A
    perfect repetition adds one to [correct_squats] and nothing to
    [missed_squats]; any other adds one to [missed_squats] and nothing to
    [correct_squats]. *)
Theorem C1_repetition_classification :
  forall (self : SquatDetector) (start : Frame) (middle : list Frame) (finish : Frame),
    repetition self start middle finish ->
    exists out self',
      feed (start :: middle ++ [finish]) self = Ok (out, self') /\
      total_attempts self' = total_attempts self + 1 /\
      lowest_knee_angle_this_squat self' = lowest_knee (start :: middle ++ [finish]) /\
      (last_squat_was_perfect self' = true <->
       Exists (accepted_with perfect_form) (middle ++ [finish]) /\
       (lowest_knee (start :: middle ++ [finish]) < 110)%R) /\
      (last_squat_was_perfect self' = true ->
       correct_squats self' = correct_squats self + 1 /\
       missed_squats self' = missed_squats self) /\
      (last_squat_was_perfect self' = false ->
       missed_squats self' = missed_squats self + 1 /\
       correct_squats self' = correct_squats self).
Proof.
  intros self start middle finish H.
  exists (fst (after_all (start :: middle ++ [finish]) self)),
         (snd (after_all (start :: middle ++ [finish]) self)).
  split; [rewrite feed_returns; destruct (after_all _ self); reflexivity|].
  destruct (repetition_outcome self start middle finish H)
    as (_ & T & _ & _ & _ & L & P & Y & N).
  split; [exact T|]. split; [exact L|]. split; [|split].
  - rewrite P, andb_true_iff, existsb_perfect, Rltb_iff. reflexivity.
  - intros E. destruct (Y E) as (c & _ & m & _). split; assumption.
  - intros E. destruct (N E) as (c & _ & m & _). split; assumption.
Qed.

(** C6.  One call of [detect_squat] changes the four lifetime accumulators
    only when the completion arm runs and records a perfect repetition, and
    then adds to each the transient counter of the same criterion; any other
    call leaves all four as they were.  Over a whole repetition: a perfect
    one adds, per criterion, the number of frames processed after the
    starting frame that met the criterion, and their number to the total;
    an imperfect one adds nothing. *)
Theorem C6_accumulation_isolation :
  (forall (f : Frame) (self : SquatDetector),
      exists a self',
        detect_squat f self = Ok (a, self') /\
        (fired [f] self = [Some SquatCompleted] /\ last_squat_was_perfect self' = true ->
         knee_correct_frames self'
         = knee_correct_frames self + current_squat_knee_frames self' /\
         hip_correct_frames self'
         = hip_correct_frames self + current_squat_hip_frames self' /\
         back_correct_frames self'
         = back_correct_frames self + current_squat_back_frames self' /\
         total_frames_in_correct_squats self'
         = total_frames_in_correct_squats self + current_squat_total_frames self') /\
        (~ (fired [f] self = [Some SquatCompleted] /\
            last_squat_was_perfect self' = true) ->
         same_accumulators self self')) /\
  (forall (self : SquatDetector) (start : Frame) (middle : list Frame) (finish : Frame),
      repetition self start middle finish ->
      exists out self',
        feed (start :: middle ++ [finish]) self = Ok (out, self') /\
        (last_squat_was_perfect self' = true ->
         knee_correct_frames self'
         = knee_correct_frames self + count_frames knees_good (middle ++ [finish]) /\
         hip_correct_frames self'
         = hip_correct_frames self
           + count_frames (fun m => hips_good m && depth_good m) (middle ++ [finish]) /\
         back_correct_frames self'
         = back_correct_frames self + count_frames back_good (middle ++ [finish]) /\
         total_frames_in_correct_squats self'
         = total_frames_in_correct_squats self
           + count_frames (fun _ => true) (middle ++ [finish])) /\
        (last_squat_was_perfect self' = false -> same_accumulators self self')).
Proof.
  split.
  - intros f self. exists (fst (after f self)), (snd (after f self)).
    split; [apply detect_squat_pair|]. split.
    + intros [F P]. apply accumulators_after_perfect; assumption.
    + intros N. destruct (accumulators_after f self) as [C | S];
        [contradiction | exact S].
  - intros self start middle finish H.
    exists (fst (after_all (start :: middle ++ [finish]) self)),
           (snd (after_all (start :: middle ++ [finish]) self)).
    split; [rewrite feed_returns; destruct (after_all _ self); reflexivity|].
    destruct (repetition_outcome self start middle finish H)
      as (_ & _ & _ & _ & _ & _ & _ & Y & N).
    split.
    + intros E. destruct (Y E) as (_ & _ & _ & A). exact A.
    + intros E. destruct (N E) as (_ & _ & _ & A). exact A.
Qed.

(** *** Two sample repetitions *)

Lemma deep_squat_pose_not_standing : not_standing deep_squat_pose.
Proof.
  destruct deep_squat_pose_form as (m & Hm & K & _).
  intros m' Hm'. rewrite Hm in Hm'. injection Hm' as <-.
  unfold STANDING_KNEE_THRESHOLD. rewrite K. lra.
Qed.

Lemma sample_repetition (middle : list Frame) :
  Forall not_standing middle ->
  repetition __init__ deep_squat_pose middle standing_pose.
Proof.
  intros H.
  destruct deep_squat_pose_form as (m & Hm & K & _).
  destruct standing_pose_form as (m' & Hm' & K' & _).
  split; [reflexivity|]. split; [|split; [exact H|]].
  - exists m. split; [exact Hm|]. unfold SQUATTING_KNEE_THRESHOLD. rewrite K. lra.
  - exists m'. split; [exact Hm'|]. unfold STANDING_KNEE_THRESHOLD. rewrite K'. lra.
Qed.

Lemma sample_lowest_knee :
  lowest_knee [deep_squat_pose; deep_squat_pose; standing_pose] = 90%R /\
  lowest_knee [deep_squat_pose; standing_pose] = 90%R.
Proof.
  destruct deep_squat_pose_form as (m & Hm & K & _).
  destruct standing_pose_form as (m' & Hm' & K' & _).
  unfold lowest_knee, knee_angles, minimum. cbn [flat_map app].
  rewrite Hm, Hm'. cbn [app fold_left]. rewrite K, K'.
  rewrite (Rmin_left 90 90) by lra. rewrite (Rmin_left 90 180) by lra.
  split; reflexivity.
Qed.

Lemma sample_frame_sat :
  frame_sat lower_body_perfect deep_squat_pose = true /\
  frame_sat knees_good deep_squat_pose = true /\
  frame_sat (fun m => hips_good m && depth_good m) deep_squat_pose = true /\
  frame_sat lower_body_perfect standing_pose = false /\
  frame_sat knees_good standing_pose = false /\
  frame_sat (fun m => hips_good m && depth_good m) standing_pose = false.
Proof.
  destruct deep_squat_pose_form as (m & Hm & _ & P).
  destruct standing_pose_measurement as (m' & Hm' & K').
  unfold frame_sat. rewrite Hm, Hm'.
  unfold lower_body_perfect in *.
  apply andb_true_iff in P. destruct P as [P D].
  apply andb_true_iff in P. destruct P as [Kn Hp].
  rewrite Kn, Hp, D.
  assert (Kn' : knees_good m' = false).
  { unfold knees_good, KNEE_PERFECT_MAX. rewrite K'.
    rewrite (Rleb_false 180 110) by lra. apply andb_false_r. }
  assert (D' : depth_good m' = false).
  { destruct standing_pose_measurement as (m2 & Hm2 & _).
    rewrite Hm' in Hm2. injection Hm2 as <-.
    pose proof (measurement_of_side_pose
                  (pt (1/2) (1/5)) (pt (1/2) (2/5)) (pt (1/2) (3/5)) (pt (1/2) (4/5)))
      as E.
    change (side_pose _ _ _ _) with standing_pose in E.
    rewrite Hm' in E. injection E as E.
    unfold depth_good, MIN_HIP_DEPTH_RATIO. rewrite E.
    cbn [measure hip_depth_ratio left_hip right_hip left_knee right_knee].
    unfold Geometry._calculate_hip_depth, Reqb. cbn [pt Landmark.y].
    destruct (Req_dec_T ((3/5 + 3/5) / 2) 0); [lra|].
    apply Rgeb_false.
    replace ((2/5 + 2/5) / 2 / ((3/5 + 3/5) / 2))%R with (2/3)%R by field. lra. }
  rewrite Kn', D', ?andb_false_r. cbn [andb]. repeat split.
Qed.

Lemma fed_state (frames : list Frame) (self : SquatDetector)
    (out : list SquatAnalysis) (self' : SquatDetector) :
  feed frames self = Ok (out, self') -> self' = snd (after_all frames self).
Proof.
  rewrite feed_returns. generalize (after_all frames self). intros r H.
  injection H as ->. reflexivity.
Qed.

Lemma sample_repetition_perfect (out : list SquatAnalysis) (self' : SquatDetector) :
  feed (deep_squat_pose :: [deep_squat_pose] ++ [standing_pose]) __init__
  = Ok (out, self') ->
  last_squat_was_perfect self' = true.
Proof.
  intros E. apply fed_state in E. subst self'.
  assert (H : repetition __init__ deep_squat_pose [deep_squat_pose] standing_pose)
    by (apply sample_repetition; repeat constructor; apply deep_squat_pose_not_standing).
  destruct (repetition_outcome __init__ deep_squat_pose [deep_squat_pose]
              standing_pose H) as (_ & _ & _ & _ & _ & _ & P & _).
  rewrite P. cbn [app existsb].
  rewrite (proj1 sample_frame_sat), (proj1 sample_lowest_knee).
  cbn [orb andb]. apply Rltb_true. lra.
Qed.

(** C1 on a new detector fed two deep squat frames and a standing frame. *)
Lemma C1_repetition_classification_witness :
  repetition __init__ deep_squat_pose [deep_squat_pose] standing_pose /\
  exists out self',
    feed [deep_squat_pose; deep_squat_pose; standing_pose] __init__ = Ok (out, self') /\
    total_attempts self' = 1 /\
    last_squat_was_perfect self' = true /\
    correct_squats self' = 1 /\
    missed_squats self' = 0.
Proof.
  assert (H : repetition __init__ deep_squat_pose [deep_squat_pose] standing_pose)
    by (apply sample_repetition; repeat constructor; apply deep_squat_pose_not_standing).
  split; [exact H|].
  destruct (C1_repetition_classification __init__ deep_squat_pose [deep_squat_pose]
              standing_pose H) as (out & self' & E & T & _ & P & Y & _).
  assert (Q : last_squat_was_perfect self' = true).
  { apply P. split.
    - apply existsb_perfect. cbn [app existsb].
      rewrite (proj1 sample_frame_sat). reflexivity.
    - cbn [app]. rewrite (proj1 sample_lowest_knee). lra. }
  exists out, self'. split; [exact E|]. split; [exact T|]. split; [exact Q|].
  exact (Y Q).
Defined.

(** C1 with the starting frame counted in (a) fails when the only frame
    with perfect form is the one that starts the repetition: a new detector is fed [deep_squat_pose]
    (knee 90, hip 90, depth ratio 1) and then [standing_pose]; a frame of
    the repetition met all three criteria and the lowest knee angle is 90,
    yet the repetition is recorded as imperfect and counted as missed. *)
Lemma C1_start_frame_form_not_counted :
  repetition __init__ deep_squat_pose [] standing_pose /\
  Exists (accepted_with perfect_form) (deep_squat_pose :: [] ++ [standing_pose]) /\
  (lowest_knee (deep_squat_pose :: [] ++ [standing_pose]) < 110)%R /\
  exists out self',
    feed (deep_squat_pose :: [] ++ [standing_pose]) __init__ = Ok (out, self') /\
    total_attempts self' = 1 /\
    last_squat_was_perfect self' = false /\
    correct_squats self' = 0 /\
    missed_squats self' = 1.
Proof.
  assert (H : repetition __init__ deep_squat_pose [] standing_pose)
    by (apply sample_repetition; constructor).
  split; [exact H|]. split; [|split].
  - apply Exists_cons_hd. apply frame_sat_perfect. apply sample_frame_sat.
  - cbn [app]. rewrite (proj2 sample_lowest_knee). lra.
  - exists (fst (after_all (deep_squat_pose :: [] ++ [standing_pose]) __init__)),
           (snd (after_all (deep_squat_pose :: [] ++ [standing_pose]) __init__)).
    split; [rewrite feed_returns; destruct (after_all _ __init__); reflexivity|].
    destruct (repetition_outcome __init__ deep_squat_pose [] standing_pose H)
      as (_ & T & _ & _ & _ & _ & P & _ & N).
    assert (Q : last_squat_was_perfect
                  (snd (after_all (deep_squat_pose :: [] ++ [standing_pose]) __init__))
                = false).
    { rewrite P. cbn [app existsb].
      destruct sample_frame_sat as (_ & _ & _ & S & _). rewrite S. reflexivity. }
    destruct (N Q) as (c & _ & m & _).
    split; [exact T|]. split; [exact Q|]. split; [exact c | exact m].
Qed.

(** C6 on a new detector fed two deep squat frames and a standing frame. *)
Lemma C6_accumulation_isolation_witness :
  repetition __init__ deep_squat_pose [deep_squat_pose] standing_pose /\
  exists out self',
    feed [deep_squat_pose; deep_squat_pose; standing_pose] __init__ = Ok (out, self') /\
    knee_correct_frames self' = 1 /\
    hip_correct_frames self' = 1 /\
    total_frames_in_correct_squats self' = 2.
Proof.
  assert (H : repetition __init__ deep_squat_pose [deep_squat_pose] standing_pose)
    by (apply sample_repetition; repeat constructor; apply deep_squat_pose_not_standing).
  split; [exact H|].
  destruct (proj2 C6_accumulation_isolation __init__ deep_squat_pose [deep_squat_pose]
              standing_pose H) as (out & self' & E & Y & _).
  exists out, self'. split; [exact E|].
  pose proof (sample_repetition_perfect out self' E) as Q.
  destruct (Y Q) as (Kc & Hc & _ & Tc).
  destruct sample_frame_sat as (_ & S2 & S3 & _ & S5 & S6).
  rewrite Kc, Hc, Tc. unfold count_frames. cbn [app filter].
  rewrite S2, S3, S5, S6.
  destruct deep_squat_pose_form as (m & Hm & _).
  destruct standing_pose_form as (m' & Hm' & _).
  unfold frame_sat. rewrite Hm, Hm'. repeat split.
Defined.

(** ** C2: the real-time feedback while down *)

(** C2, amended.  On an accepted frame after which the detector is down and
    whose lower-body form is not perfect, the feedback is "Fix: " followed
    by the first two labels, joined by ", ", of the list built by: hip angle
    out of range adds "Hips", then knee angle out of range adds "Knees",
    then depth ratio too small adds "Depth".  The hip label looks at the hip
    angle alone: with the hip angle in range and the depth too small the
    list has "Depth" and not "Hips". *)
Theorem C2_fix_feedback_labels :
  forall (f : Frame) (m : Measurement) (self : SquatDetector),
    measurement_of f = Some m ->
    exists a self',
      detect_squat f self = Ok (a, self') /\
      (is_currently_squatting self' = true ->
       lower_body_perfect m = false ->
       form_feedback a
       = ("Fix: " ++ String.concat ", " (firstn 2 (issues_as_built m)))%string /\
       form_feedback a
       = match hips_good m, knees_good m, depth_good m with
         | false, false, _ => "Fix: Hips, Knees"
         | false, true, false => "Fix: Hips, Depth"
         | false, true, true => "Fix: Hips"
         | true, false, false => "Fix: Knees, Depth"
         | true, false, true => "Fix: Knees"
         | true, true, _ => "Fix: Depth"
         end%string /\
       (hips_good m = true -> depth_good m = false ->
        ~ In "Hips"%string (issues_as_built m) /\
        In "Depth"%string (issues_as_built m))).
Proof.
  intros f m self Hm.
  exists (fst (after f self)), (snd (after f self)).
  split; [apply detect_squat_pair|].
  intros Hs Hp.
  rewrite (feedback_after f m self Hm), Hs, (generate_feedback_fix m _ Hp).
  split; [reflexivity|].
  unfold lower_body_perfect in Hp. unfold issues_as_built, append_if.
  destruct (hips_good m), (knees_good m), (depth_good m);
    try discriminate Hp; cbn;
    (split; [reflexivity | intros A B; try discriminate A; try discriminate B]);
    (split; [intros C; intuition discriminate | intuition]).
Qed.

Lemma high_hips_after_squat :
  is_currently_squatting (snd (after high_hips_pose squatting_detector)) = true.
Proof.
  destruct squatting_detector_down as (W & Q).
  destruct high_hips_pose_form as (m & Hm & K & _).
  assert (N : Forall not_standing [high_hips_pose]).
  { repeat constructor. intros m' Hm'. rewrite Hm in Hm'. injection Hm' as <-.
    unfold STANDING_KNEE_THRESHOLD. rewrite K. lra. }
  destruct (down_stream [high_hips_pose] squatting_detector W Q N) as (_ & Q' & _).
  rewrite after_all_cons in Q'. exact Q'.
Qed.

Lemma detect_squat_state (f : Frame) (self : SquatDetector)
    (a : SquatAnalysis) (self' : SquatDetector) :
  detect_squat f self = Ok (a, self') ->
  a = fst (after f self) /\ self' = snd (after f self).
Proof.
  rewrite detect_squat_returns. generalize (after f self). intros r H.
  injection H as ->. split; reflexivity.
Qed.

(** C2 on a down detector fed a frame with the hips too high. *)
Lemma C2_fix_feedback_labels_witness :
  exists m a self',
    measurement_of high_hips_pose = Some m /\
    detect_squat high_hips_pose squatting_detector = Ok (a, self') /\
    is_currently_squatting self' = true /\
    lower_body_perfect m = false /\
    form_feedback a = "Fix: Depth"%string.
Proof.
  destruct high_hips_pose_form as (m & Hm & _ & Kn & Hp & Dp).
  destruct (C2_fix_feedback_labels high_hips_pose m squatting_detector Hm)
    as (a & self' & E & F).
  assert (S : is_currently_squatting self' = true).
  { destruct (detect_squat_state _ _ _ _ E) as [_ ->]. apply high_hips_after_squat. }
  assert (P : lower_body_perfect m = false).
  { unfold lower_body_perfect. rewrite Kn, Hp, Dp. reflexivity. }
  exists m, a, self'.
  split; [exact Hm|]. split; [exact E|]. split; [exact S|]. split; [exact P|].
  destruct (F S P) as (_ & T & _). rewrite T, Hp, Kn. reflexivity.
Defined.

(** C2 with the depth check folded into the hip label fails on a frame with the hip angle in range and the depth
    too small: a down detector is fed [high_hips_pose] (knee 90, hip 90,
    depth ratio 1/2).  The list with the depth check folded into the hip
    label is "Hips", "Depth" and would give "Fix: Hips, Depth"; the method
    returns "Fix: Depth". *)
Lemma C2_hips_label_ignores_depth :
  exists m a self',
    measurement_of high_hips_pose = Some m /\
    detect_squat high_hips_pose squatting_detector = Ok (a, self') /\
    is_currently_squatting self' = true /\
    lower_body_perfect m = false /\
    hips_good m = true /\ depth_good m = false /\
    issues_as_specified m = ["Hips"; "Depth"]%string /\
    form_feedback a = "Fix: Depth"%string /\
    form_feedback a
    <> ("Fix: " ++ String.concat ", " (firstn 2 (issues_as_specified m)))%string.
Proof.
  destruct high_hips_pose_form as (m & Hm & _ & Kn & Hp & Dp).
  assert (P : lower_body_perfect m = false).
  { unfold lower_body_perfect. rewrite Kn, Hp, Dp. reflexivity. }
  assert (I : issues_as_specified m = ["Hips"; "Depth"]%string).
  { unfold issues_as_specified. rewrite Kn, Hp, Dp. reflexivity. }
  assert (F : form_feedback (fst (after high_hips_pose squatting_detector))
              = "Fix: Depth"%string).
  { rewrite (feedback_after _ m _ Hm), high_hips_after_squat.
    rewrite (generate_feedback_fix m _ P).
    unfold issues_as_built. rewrite Kn, Hp, Dp. reflexivity. }
  exists m, (fst (after high_hips_pose squatting_detector)),
         (snd (after high_hips_pose squatting_detector)).
  split; [exact Hm|]. split; [apply detect_squat_pair|].
  split; [apply high_hips_after_squat|]. split; [exact P|].
  split; [exact Hp|]. split; [exact Dp|]. split; [exact I|]. split; [exact F|].
  rewrite F, I. cbn. discriminate.
Qed.

(** * Further properties *)

(** ** Geometry *)

Section MoreGeometry.
Import Geometry.
Local Open Scope R_scope.

Lemma calculate_angle_fold (a b c : Landmark.t) :
  _calculate_angle a b c
  = fold_angle
      (degrees
         (atan2 (Landmark.y c - Landmark.y b) (Landmark.x c - Landmark.x b)
          - atan2 (Landmark.y a - Landmark.y b) (Landmark.x a - Landmark.x b))).
Proof. reflexivity. Qed.

Lemma fold_angle_opp (d : R) : -360 <= d <= 360 -> fold_angle (- d) = fold_angle d.
Proof.
  intros H. unfold fold_angle, Rltb, Rgtb.
  destruct (Rlt_dec (- d) 0), (Rlt_dec d 0);
    repeat match goal with
           | |- context [Rgt_dec ?x ?y] => destruct (Rgt_dec x y)
           end; lra.
Qed.

Lemma radians_bounds (y1 x1 y2 x2 : R) :
  -360 <= degrees (atan2 y1 x1 - atan2 y2 x2) <= 360.
Proof.
  apply degrees_bounds.
  pose proof (atan2_bounds y1 x1). pose proof (atan2_bounds y2 x2). lra.
Qed.

(** X1.  The angle at a joint does not depend on which of the two outer
    points is given first. *)
Theorem X1_calculate_angle_symmetric :
  forall a b c : Landmark.t, _calculate_angle c b a = _calculate_angle a b c.
Proof.
  intros a b c. rewrite !calculate_angle_fold.
  rewrite <- fold_angle_opp by apply radians_bounds.
  rewrite <- degrees_opp. f_equal. f_equal. ring.
Qed.




End MoreGeometry.

Section BackLean.
Import Geometry.
Local Open Scope R_scope.

Lemma Rabs_le_inv (a b : R) : Rabs a <= b -> - b <= a <= b.
Proof. unfold Rabs. destruct (Rcase_abs a); lra. Qed.

Lemma degrees_increasing (a b : R) : a < b -> degrees a < degrees b.
Proof.
  intros H. unfold degrees. pose proof PI_RGT_0.
  apply Rmult_lt_compat_r; [|exact H].
  apply Rdiv_lt_0_compat; lra.
Qed.

Lemma degrees_quarter_PI : degrees (PI / 4) = 45.
Proof. pose proof PI_RGT_0. unfold degrees. field. lra. Qed.

Lemma abs_degrees_le_45 (r : R) : Rabs (degrees r) <= 45 <-> - (PI / 4) <= r <= PI / 4.
Proof.
  pose proof degrees_quarter_PI as Q.
  pose proof (degrees_opp (PI / 4)) as Q'. rewrite Q in Q'.
  split.
  - intros H. apply Rabs_le_inv in H. destruct H as [H1 H2]. split.
    + destruct (Rle_dec (- (PI / 4)) r) as [L|L]; [exact L|].
      apply Rnot_le_lt, degrees_increasing in L. lra.
    + destruct (Rle_dec r (PI / 4)) as [L|L]; [exact L|].
      apply Rnot_le_lt, degrees_increasing in L. lra.
  - intros [H1 H2]. apply Rabs_le. split.
    + destruct H1 as [H1|H1]; [apply degrees_increasing in H1; lra | rewrite <- H1; lra].
    + destruct H2 as [H2|H2]; [apply degrees_increasing in H2; lra | rewrite H2; lra].
Qed.

Lemma atan_quarter (t : R) : - (PI / 4) <= atan t <= PI / 4 <-> -1 <= t <= 1.
Proof.
  pose proof atan_1 as A1.
  assert (A2 : atan (-1) = - (PI / 4)).
  { replace (-1) with (- (1)) by lra. rewrite atan_opp, atan_1. reflexivity. }
  split.
  - intros [H1 H2]. split.
    + destruct (Rle_dec (-1) t) as [L|L]; [exact L|].
      apply Rnot_le_lt, atan_increasing in L. lra.
    + destruct (Rle_dec t 1) as [L|L]; [exact L|].
      apply Rnot_le_lt, atan_increasing in L. lra.
  - intros [H1 H2]. split.
    + destruct H1 as [H1|H1]; [apply atan_increasing in H1; lra | rewrite <- H1; lra].
    + destruct H2 as [H2|H2]; [apply atan_increasing in H2; lra | rewrite H2; lra].
Qed.

Lemma atan2_quarter (y x : R) :
  - (PI / 4) <= atan2 y x <= PI / 4 <-> (0 < x /\ Rabs y <= x) \/ (y = 0 /\ x = 0).
Proof.
  pose proof PI_RGT_0 as Hpi.
  unfold atan2.
  destruct (Rlt_dec 0 x) as [Hx|Hx].
  - rewrite atan_quarter. split.
    + intros [H1 H2]. left. split; [exact Hx|]. apply Rabs_le.
      assert (E : y = y / x * x) by (field; lra). split; nra.
    + intros [[_ H]|[_ H]]; [|lra]. apply Rabs_le_inv in H.
      assert (Hi : 0 < / x) by (apply Rinv_0_lt_compat; exact Hx).
      unfold Rdiv. split.
      * apply Rmult_le_reg_r with x; [exact Hx|].
        rewrite Rmult_assoc, Rinv_l by lra. lra.
      * apply Rmult_le_reg_r with x; [exact Hx|].
        rewrite Rmult_assoc, Rinv_l by lra. lra.
  - destruct (Rlt_dec x 0) as [Hx'|Hx'].
    + pose proof (atan_bound (y / x)) as B.
      assert (Hi : / x < 0) by (apply Rinv_lt_0_compat; exact Hx').
      destruct (Rle_dec 0 y) as [Hy|Hy].
      * assert (y / x <= 0) by (unfold Rdiv; nra).
        assert (atan (y / x) <= 0).
        { destruct (Req_dec (y / x) 0) as [E|E];
            [rewrite E, atan_0; lra | rewrite <- atan_0; left; apply atan_increasing; lra]. }
        split; [intros; lra | intros [[A _]|[_ A]]; lra].
      * assert (0 < y / x) by (unfold Rdiv; nra).
        assert (0 < atan (y / x)) by (rewrite <- atan_0; apply atan_increasing; lra).
        split; [intros; lra | intros [[A _]|[_ A]]; lra].
    + assert (x = 0) by lra. subst x.
      destruct (Rlt_dec 0 y); [split; [intros; lra | intros [[A _]|[A _]]; lra]|].
      destruct (Rlt_dec y 0); [split; [intros; lra | intros [[A _]|[A _]]; lra]|].
      split; [intros _; right; split; lra | intros; lra].
Qed.

Lemma back_lean_measure (j : Joints) :
  back_lean (measure j) = Rabs (degrees (atan2 (trunk_dx j) (trunk_dy j))).
Proof. reflexivity. Qed.

Lemma back_lean_range (j : Joints) : 0 <= back_lean (measure j) <= 180.
Proof.
  rewrite back_lean_measure.
  split; [apply Rabs_pos|]. apply Rabs_le.
  pose proof PI_RGT_0.
  pose proof (atan2_bounds (trunk_dx j) (trunk_dy j)) as B.
  assert (B1 : - (2 * PI) <= atan2 (trunk_dx j) (trunk_dy j) + PI <= 2 * PI) by lra.
  assert (B2 : - (2 * PI) <= atan2 (trunk_dx j) (trunk_dy j) - PI <= 2 * PI) by lra.
  pose proof (degrees_bounds _ B1) as D1.
  pose proof (degrees_bounds _ B2) as D2.
  unfold degrees in *.
  replace ((atan2 (trunk_dx j) (trunk_dy j) + PI) * (180 / PI))
    with (atan2 (trunk_dx j) (trunk_dy j) * (180 / PI) + 180) in D1 by (field; lra).
  replace ((atan2 (trunk_dx j) (trunk_dy j) - PI) * (180 / PI))
    with (atan2 (trunk_dx j) (trunk_dy j) * (180 / PI) - 180) in D2 by (field; lra).
  lra.
Qed.

Lemma back_good_iff (j : Joints) :
  back_good (measure j) = true <->
  (0 < trunk_dy j /\ Rabs (trunk_dx j) <= trunk_dy j) \/
  (trunk_dx j = 0 /\ trunk_dy j = 0).
Proof.
  rewrite <- atan2_quarter, <- abs_degrees_le_45.
  unfold back_good, BACK_LEAN_MIN, BACK_LEAN_MAX.
  rewrite (Rleb_true 0 _ (proj1 (back_lean_range j))). cbn [andb].
  rewrite back_lean_measure.
  unfold Rleb. destruct (Rle_dec _ 45); split; intros; try discriminate;
    try reflexivity; try assumption; contradiction.
Qed.

(** X3.  The back lean lies in [0, 180].  It is within the accepted 45
    degrees exactly when the shoulder midpoint has a larger [y] than the hip
    midpoint and is off to the side by no more than that difference, or when
    the two midpoints coincide.  With the shoulders at a smaller [y] than
    the hips the back check fails. *)
Theorem X3_back_lean_accepted :
  forall j : Joints,
    0 <= back_lean (measure j) <= 180 /\
    (back_good (measure j) = true <->
     (0 < trunk_dy j /\ Rabs (trunk_dx j) <= trunk_dy j) \/
     (trunk_dx j = 0 /\ trunk_dy j = 0)) /\
    (trunk_dy j < 0 -> back_good (measure j) = false).
Proof.
  intros j. split; [apply back_lean_range|]. split; [apply back_good_iff|].
  intros H. apply not_true_is_false. intros E.
  apply back_good_iff in E. destruct E as [[A _]|[_ A]]; lra.
Qed.

End BackLean.

Section Scaling.
Import Geometry.
Local Open Scope R_scope.

Lemma X3_back_lean_accepted_witness : back_good (measure upright_joints) = false.
Proof.
  apply (proj2 (proj2 (X3_back_lean_accepted upright_joints))).
  unfold trunk_dy, upright_joints.
  cbn [left_shoulder right_shoulder left_hip right_hip pt Landmark.y]. lra.
Defined.




End Scaling.






(** ** The analysis of an accepted frame *)

Lemma measurement_of_measure (f : Frame) (m : Measurement) :
  measurement_of f = Some m -> exists j, m = measure j.
Proof.
  unfold measurement_of. destruct f as [lms|]; [|discriminate].
  destruct (py_not (Some lms) || (len lms <? 33)); [discriminate|].
  destruct (joints lms) as [j|e]; [|discriminate].
  intros H. injection H as <-. exists j. reflexivity.
Qed.

Lemma measure_angle_ranges (j : Joints) :
  (0 <= avg_knee_angle (measure j) <= 180)%R /\
  (0 <= avg_hip_angle (measure j) <= 180)%R.
Proof.
  cbn [measure avg_knee_angle avg_hip_angle].
  pose proof (calculate_angle_range (left_hip j) (left_knee j) (left_ankle j)).
  pose proof (calculate_angle_range (right_hip j) (right_knee j) (right_ankle j)).
  pose proof (calculate_angle_range (left_shoulder j) (left_hip j) (left_knee j)).
  pose proof (calculate_angle_range (right_shoulder j) (right_hip j) (right_knee j)).
  split; lra.
Qed.

Lemma analysis_after (f : Frame) (m : Measurement) (self : SquatDetector) :
  measurement_of f = Some m ->
  fst (after f self)
  = {| is_squat_position := lower_body_perfect m;
       knee_angle := avg_knee_angle m;
       hip_angle := avg_hip_angle m;
       back_angle := back_lean m;
       hip_depth := hip_depth_ratio m;
       form_feedback := form_feedback (fst (after f self));
       checkpoint_results :=
         _generate_checkpoints (back_good m) (hips_good m && depth_good m)
           (knees_good m) (depth_good m) |}.
Proof. intros Hm. rewrite (after_accepted f m self Hm). reflexivity. Qed.

Lemma stored_analysis_after (f : Frame) (m : Measurement) (self : SquatDetector) :
  measurement_of f = Some m ->
  last_squat_analysis (snd (after f self)) = Some (fst (after f self)).
Proof.
  intros Hm. rewrite (after_accepted f m self Hm), analyse_state.
  autorewrite with stages. reflexivity.
Qed.

(** X5.  On an accepted frame [detect_squat] returns the averaged knee and
    hip angles, the back lean and the depth ratio it measured, keeps the
    returned analysis as [last_squat_analysis], and reports
    [is_squat_position] exactly when knee, hip and depth are all in range.
    The three angles it returns lie in [0, 180]; so a frame with
    [is_squat_position] has its knee angle in [50, 110]. *)
Theorem X5_analysis_of_accepted_frame :
  forall (f : Frame) (m : Measurement) (self : SquatDetector),
    measurement_of f = Some m ->
    exists a self',
      detect_squat f self = Ok (a, self') /\
      last_squat_analysis self' = Some a /\
      knee_angle a = avg_knee_angle m /\
      hip_angle a = avg_hip_angle m /\
      back_angle a = back_lean m /\
      hip_depth a = hip_depth_ratio m /\
      (0 <= knee_angle a <= 180)%R /\
      (0 <= hip_angle a <= 180)%R /\
      (0 <= back_angle a <= 180)%R /\
      (is_squat_position a = true <-> perfect_form m).
Proof.
  intros f m self Hm.
  exists (fst (after f self)), (snd (after f self)).
  split; [apply detect_squat_pair|].
  split; [apply (stored_analysis_after f m self Hm)|].
  rewrite (analysis_after f m self Hm).
  cbn [knee_angle hip_angle back_angle hip_depth is_squat_position].
  destruct (measurement_of_measure f m Hm) as [j ->].
  destruct (measure_angle_ranges j) as [K H].
  pose proof (back_lean_range j) as B.
  split; [reflexivity|]. split; [reflexivity|]. split; [reflexivity|].
  split; [reflexivity|]. split; [exact K|]. split; [exact H|]. split; [exact B|].
  apply perfect_form_iff.
Qed.

Lemma X5_analysis_of_accepted_frame_witness :
  exists m a self',
    measurement_of deep_squat_pose = Some m /\
    detect_squat deep_squat_pose __init__ = Ok (a, self') /\
    last_squat_analysis self' = Some a /\
    knee_angle a = 90%R /\
    is_squat_position a = true.
Proof.
  destruct deep_squat_pose_form as (m & Hm & K & P).
  destruct (X5_analysis_of_accepted_frame deep_squat_pose m __init__ Hm)
    as (a & self' & E & L & Ka & _ & _ & _ & _ & _ & _ & Q).
  exists m, a, self'. split; [exact Hm|]. split; [exact E|]. split; [exact L|].
  split; [rewrite Ka; exact K|]. apply Q. apply perfect_form_iff. exact P.
Defined.

(** X6.  The checkpoint map of an accepted frame has exactly the eight
    joints as keys, left and right of a pair carry the same flag, the
    shoulders are flagged exactly when the back check fails, and
    [is_squat_position] holds exactly when none of the hips, knees and
    ankles is flagged. *)
Theorem X6_checkpoints_of_accepted_frame :
  forall (f : Frame) (m : Measurement) (self : SquatDetector),
    measurement_of f = Some m ->
    exists a self',
      detect_squat f self = Ok (a, self') /\
      map fst (checkpoint_results a) = [11; 12; 23; 24; 25; 26; 27; 28] /\
      dict_get LEFT_SHOULDER (checkpoint_results a) = Some (negb (back_good m)) /\
      dict_get RIGHT_SHOULDER (checkpoint_results a) = Some (negb (back_good m)) /\
      dict_get LEFT_HIP (checkpoint_results a)
      = dict_get RIGHT_HIP (checkpoint_results a) /\
      dict_get LEFT_KNEE (checkpoint_results a)
      = dict_get RIGHT_KNEE (checkpoint_results a) /\
      dict_get LEFT_ANKLE (checkpoint_results a)
      = dict_get RIGHT_ANKLE (checkpoint_results a) /\
      (is_squat_position a = true <->
       forall k, In k [LEFT_HIP; RIGHT_HIP; LEFT_KNEE; RIGHT_KNEE; LEFT_ANKLE; RIGHT_ANKLE] ->
                 dict_get k (checkpoint_results a) = Some false).
Proof.
  intros f m self Hm.
  exists (fst (after f self)), (snd (after f self)).
  split; [apply detect_squat_pair|].
  rewrite (analysis_after f m self Hm).
  cbn [checkpoint_results is_squat_position].
  unfold lower_body_perfect.
  destruct (back_good m), (knees_good m), (hips_good m), (depth_good m);
    cbn; repeat split; try reflexivity; try discriminate;
    try (intros _ k Hk; cbn in Hk;
         repeat (destruct Hk as [<-|Hk]; [reflexivity|]); contradiction);
    try (intros H;
         first [ specialize (H LEFT_HIP (or_introl eq_refl)); discriminate H
               | specialize (H LEFT_KNEE (or_intror (or_intror (or_introl eq_refl))));
                 discriminate H
               | specialize (H LEFT_ANKLE
                               (or_intror (or_intror (or_intror
                                  (or_intror (or_introl eq_refl))))));
                 discriminate H ]).
Qed.

Lemma X6_checkpoints_of_accepted_frame_witness :
  exists a self',
    detect_squat deep_squat_pose __init__ = Ok (a, self') /\
    is_squat_position a = true /\
    dict_get LEFT_KNEE (checkpoint_results a) = Some false.
Proof.
  destruct deep_squat_pose_form as (m & Hm & K & P).
  destruct (X6_checkpoints_of_accepted_frame deep_squat_pose m __init__ Hm)
    as (a & self' & E & _ & _ & _ & _ & _ & _ & Q).
  destruct (detect_squat_state _ _ _ _ E) as [Ea _].
  assert (S : is_squat_position a = true).
  { rewrite Ea, (analysis_after deep_squat_pose m __init__ Hm). exact P. }
  exists a, self'. split; [exact E|]. split; [exact S|].
  apply (proj1 Q S). right. right. left. reflexivity.
Defined.

(** ** The real-time feedback, all cases *)

Lemma generate_feedback_cases (m : Measurement) (shoulders_good is_down : bool) :
  _generate_feedback (lower_body_perfect m) shoulders_good (hips_good m)
    (knees_good m) (depth_good m) is_down
  = if is_down
    then if lower_body_perfect m
         then "Perfect form!"%string
         else ("Fix: " ++ String.concat ", " (firstn 2 (issues_as_built m)))%string
    else "Ready to squat"%string.
Proof.
  destruct is_down.
  - pose proof (generate_feedback_fix m shoulders_good) as F.
    destruct (lower_body_perfect m); [reflexivity | apply F; reflexivity].
  - unfold _generate_feedback. rewrite andb_false_r. reflexivity.
Qed.

Lemma prefix_append (s t : string) : String.prefix s (s ++ t) = true.
Proof.
  induction s as [|c s IH]; cbn; [destruct t; reflexivity|].
  destruct (Ascii.ascii_dec c c) as [_|N]; [exact IH | exfalso; apply N; reflexivity].
Qed.

(** X7.  The feedback of an accepted frame is "Ready to squat" when the
    detector is not down after the frame, "Perfect form!" when it is down
    and knee, hip and depth are all in range, and otherwise starts with
    "Fix: "; it is never "Keep going". *)
Theorem X7_feedback_cases :
  forall (f : Frame) (m : Measurement) (self : SquatDetector),
    measurement_of f = Some m ->
    exists a self',
      detect_squat f self = Ok (a, self') /\
      (is_currently_squatting self' = false ->
       form_feedback a = "Ready to squat"%string) /\
      (is_currently_squatting self' = true -> lower_body_perfect m = true ->
       form_feedback a = "Perfect form!"%string) /\
      (is_currently_squatting self' = true -> lower_body_perfect m = false ->
       String.prefix "Fix: " (form_feedback a) = true) /\
      form_feedback a <> "Keep going"%string.
Proof.
  intros f m self Hm.
  exists (fst (after f self)), (snd (after f self)).
  split; [apply detect_squat_pair|].
  rewrite (feedback_after f m self Hm), generate_feedback_cases.
  destruct (is_currently_squatting (snd (after f self))).
  - destruct (lower_body_perfect m).
    + repeat split; intros; try discriminate; reflexivity.
    + repeat split; intros; try discriminate.
      apply prefix_append.
  - repeat split; intros; try discriminate; reflexivity.
Qed.

Lemma X7_feedback_cases_witness :
  exists a self',
    detect_squat standing_pose __init__ = Ok (a, self') /\
    form_feedback a = "Ready to squat"%string.
Proof.
  destruct standing_pose_form as (m & Hm & K & _).
  destruct (X7_feedback_cases standing_pose m __init__ Hm)
    as (a & self' & E & R & _).
  exists a, self'. split; [exact E|]. apply R.
  destruct (detect_squat_state _ _ _ _ E) as [_ ->].
  rewrite (after_accepted standing_pose m __init__ Hm), analyse_state.
  unfold state_machine.
  rewrite transition_tracked, transition_bump.
  assert (T : transition m __init__ = StandingAgain).
  { unfold transition, is_squatting, is_standing.
    unfold SQUATTING_KNEE_THRESHOLD, STANDING_KNEE_THRESHOLD. rewrite K.
    rewrite (Rltb_false 180 120) by lra. rewrite (Rgeb_true 180 130) by lra.
    reflexivity. }
  rewrite T. autorewrite with stages. reflexivity.
Defined.

(** ** Invariants of the reachable states, continued *)

Lemma reachable_induction (P : SquatDetector -> Prop) :
  P __init__ ->
  (forall f self, P self -> P (snd (after f self))) ->
  (forall self, P self -> P (set_squat_just_completed false self)) ->
  forall self, reachable self -> P self.
Proof.
  intros Hinit Hstep Hpoll.
  induction 1 as [ | f self a self' _ IH H | self b self' _ IH H | self b self' _ IH H
                 | draw wp self s self' _ IH H | self d self' _ IH H
                 | self n self' _ IH H | self u self' _ IH H ].
  - exact Hinit.
  - destruct (detect_squat_state _ _ _ _ H) as [_ ->]. apply Hstep. exact IH.
  - unfold has_squat_just_completed in H. injection H as _ <-. apply Hpoll. exact IH.
  - unfold was_last_squat_perfect in H. injection H as _ <-. exact IH.
  - destruct (get_squat_completion_feedback_reads draw wp self) as [s' E].
    rewrite E in H. injection H as _ <-. exact IH.
  - destruct (get_feedback_data_reads self) as [d' [E _]].
    rewrite E in H. injection H as _ <-. exact IH.
  - unfold get_squat_count in H. injection H as _ <-. exact IH.
  - rewrite reset_squat_count_init in H. injection H as _ <-. exact Hinit.
Qed.

Lemma track_idle (m : Measurement) (self : SquatDetector) :
  is_currently_squatting self = false -> track m self = self.
Proof. intros H. unfold track. rewrite H. reflexivity. Qed.

Lemma squat_completed_bookkeeping (self : SquatDetector) :
  frame_count (squat_completed self) = frame_count self /\
  last_log_frame (squat_completed self) = last_log_frame self /\
  best_form_this_squat (squat_completed self) = best_form_this_squat self /\
  last_squat_analysis (squat_completed self) = last_squat_analysis self.
Proof.
  unfold squat_completed. cbn.
  destruct (best_form_this_squat self && Rltb (lowest_knee_angle_this_squat self) 110);
    cbn; repeat split.
Qed.

(** The state [detect_squat] leaves after an accepted frame, by the arm the
    state machine takes. *)
Lemma after_by_arm (f : Frame) (m : Measurement) (self : SquatDetector) :
  measurement_of f = Some m ->
  let tracked := track m (log_frame (set_frame_count (frame_count self + 1) self)) in
  snd (after f self)
  = set_last_squat_analysis (Some (fst (after f self)))
      match transition m self with
      | SquatStarted => squat_started m tracked
      | SquatCompleted => squat_completed tracked
      | StandingAgain => standing_again tracked
      | NoTransition => tracked
      end.
Proof.
  intros Hm tracked. rewrite (after_accepted f m self Hm), analyse_state.
  unfold state_machine. fold tracked. unfold tracked at 1.
  rewrite transition_tracked, transition_bump. reflexivity.
Qed.

Lemma transition_cases (m : Measurement) (self : SquatDetector) :
  (transition m self = SquatStarted ->
   was_standing self = true /\ (avg_knee_angle m < 120)%R) /\
  (transition m self = SquatCompleted ->
   was_standing self = false /\ is_currently_squatting self = true /\
   (130 <= avg_knee_angle m)%R) /\
  (transition m self = StandingAgain ->
   (130 <= avg_knee_angle m)%R /\
   (was_standing self = true \/ is_currently_squatting self = false)).
Proof.
  unfold transition, is_squatting, is_standing, Rltb, Rgeb,
    SQUATTING_KNEE_THRESHOLD, STANDING_KNEE_THRESHOLD.
  destruct (was_standing self), (is_currently_squatting self),
    (Rlt_dec (avg_knee_angle m) 120), (Rge_dec (avg_knee_angle m) 130);
    cbn; repeat split; intros; try discriminate; try reflexivity; try lra; auto.
Qed.

(** *** Exactly one posture flag *)

Lemma posture_exact_after (f : Frame) (self : SquatDetector) :
  was_standing self = negb (is_currently_squatting self) ->
  was_standing (snd (after f self))
  = negb (is_currently_squatting (snd (after f self))).
Proof.
  intros H. destruct (measurement_of f) as [m|] eqn:Hm.
  - rewrite (after_by_arm f m self Hm).
    destruct (transition m self); autorewrite with stages; try reflexivity; try exact H.
    destruct (squat_completed_flags
                (track m (log_frame (set_frame_count (frame_count self + 1) self))))
      as (W & Q & _).
    rewrite W, Q. reflexivity.
  - rewrite (after_rejected f self Hm). cbn [snd]. autorewrite with stages. exact H.
Qed.

Lemma reachable_posture_exact (self : SquatDetector) :
  reachable self -> was_standing self = negb (is_currently_squatting self).
Proof.
  revert self.
  apply (reachable_induction
           (fun s => was_standing s = negb (is_currently_squatting s))).
  - reflexivity.
  - intros f s. apply posture_exact_after.
  - intros s H. exact H.
Qed.

(** *** Bounds on the tallies *)

Lemma tallies_tracked (m : Measurement) (self : SquatDetector) (n : Z) :
  tallies_bounded self ->
  tallies_bounded (track m (log_frame (set_frame_count n self))).
Proof.
  unfold tallies_bounded. intros H.
  destruct (is_currently_squatting self) eqn:Q.
  - assert (Q' : is_currently_squatting (log_frame (set_frame_count n self)) = true)
      by (autorewrite with stages; exact Q).
    destruct (track_down m _ Q') as (_ & _ & T & K & Hp & B).
    rewrite T, K, Hp, B. autorewrite with stages.
    destruct (knees_good m), (hips_good m && depth_good m), (back_good m); lia.
  - rewrite track_idle by (autorewrite with stages; exact Q).
    autorewrite with stages. exact H.
Qed.

Lemma tallies_after (f : Frame) (self : SquatDetector) :
  tallies_bounded self -> tallies_bounded (snd (after f self)).
Proof.
  intros H. destruct (measurement_of f) as [m|] eqn:Hm.
  - rewrite (after_by_arm f m self Hm).
    pose proof (tallies_tracked m self (frame_count self + 1) H) as T.
    set (tracked := track m (log_frame (set_frame_count (frame_count self + 1) self)))
      in *.
    unfold tallies_bounded in *.
    destruct (transition m self); autorewrite with stages; try lia.
    destruct (squat_completed_flags tracked) as (_ & _ & _ & A & _).
    destruct (squat_completed_transient tracked) as (K & Hp & B & N & _).
    rewrite A, K, Hp, B, N.
    destruct (last_squat_was_perfect (squat_completed tracked)) eqn:P.
    + destruct (squat_completed_perfect tracked P)
        as (p1 & _ & p3 & p4 & p5 & p6 & p7).
      rewrite p1, p3, p4, p5, p6, p7. lia.
    + destruct (squat_completed_imperfect tracked P)
        as (p1 & _ & p3 & p4 & p5 & p6 & p7).
      rewrite p1, p3, p4, p5, p6, p7. lia.
  - rewrite (after_rejected f self Hm). cbn [snd].
    unfold tallies_bounded in *. autorewrite with stages. exact H.
Qed.

Lemma reachable_tallies (self : SquatDetector) :
  reachable self -> tallies_bounded self.
Proof.
  revert self. apply (reachable_induction tallies_bounded).
  - unfold tallies_bounded. cbn. lia.
  - intros f s. apply tallies_after.
  - intros s H. exact H.
Qed.

Lemma percentage_bounds (good all : Z) :
  0 <= good <= all -> 0 < all -> 0 <= good * 100 / all <= 100.
Proof.
  intros H A. split.
  - apply Z.div_pos; lia.
  - apply Z.div_le_upper_bound; lia.
Qed.

(** X8.  In every reachable state no counter is negative and the knee, hip
    and back frame totals do not exceed the total of frames in perfect
    repetitions (nor the running counts the running total); so the three
    percentages of [get_feedback_data] lie between 0 and 100. *)
Theorem X8_percentages_within_0_100 :
  forall self : SquatDetector,
    reachable self ->
    tallies_bounded self /\
    exists d,
      get_feedback_data self = Ok (d, self) /\
      0 <= kneePercentage d <= 100 /\
      0 <= hipPercentage d <= 100 /\
      0 <= backPercentage d <= 100.
Proof.
  intros self R. pose proof (reachable_tallies self R) as T.
  split; [exact T|].
  destruct T as (_ & _ & _ & K & H & B & _).
  unfold get_feedback_data.
  destruct (total_frames_in_correct_squats self >? 0) eqn:G.
  - apply Z.gtb_lt in G. eexists. split; [reflexivity|].
    cbn [kneePercentage hipPercentage backPercentage].
    repeat split; apply percentage_bounds; assumption.
  - eexists. split; [reflexivity|].
    cbn [kneePercentage hipPercentage backPercentage]. lia.
Qed.

Lemma reachable_after (f : Frame) (self : SquatDetector) :
  reachable self -> reachable (snd (after f self)).
Proof.
  intros R. eapply reach_detect_squat; [exact R | apply detect_squat_pair].
Qed.

Lemma reachable_after_all (frames : list Frame) (self : SquatDetector) :
  reachable self -> reachable (snd (after_all frames self)).
Proof.
  revert self. induction frames as [|f rest IH]; intros self R; [exact R|].
  rewrite after_all_cons. apply IH. apply reachable_after. exact R.
Qed.

Lemma detector_after_one_squat_reachable : reachable detector_after_one_squat.
Proof. apply reachable_after_all. apply reach_init. Qed.

Lemma X8_percentages_within_0_100_witness :
  exists d,
    get_feedback_data detector_after_one_squat = Ok (d, detector_after_one_squat) /\
    0 <= kneePercentage d <= 100.
Proof.
  destruct (X8_percentages_within_0_100 detector_after_one_squat
              detector_after_one_squat_reachable) as (_ & d & E & K & _).
  exists d. split; assumption.
Defined.

(** *** The frame counter and the logging mark *)

Lemma frame_count_after (f : Frame) (self : SquatDetector) :
  frame_count (snd (after f self)) = frame_count self + 1.
Proof.
  destruct (measurement_of f) as [m|] eqn:Hm.
  - rewrite (after_by_arm f m self Hm).
    destruct (transition m self); autorewrite with stages; try reflexivity.
    destruct (squat_completed_bookkeeping
                (track m (log_frame (set_frame_count (frame_count self + 1) self))))
      as (F & _).
    rewrite F. autorewrite with stages. reflexivity.
  - rewrite (after_rejected f self Hm). reflexivity.
Qed.

Lemma last_log_frame_logged (self : SquatDetector) :
  last_log_frame (log_frame self)
  = if frame_count self - last_log_frame self >=? 30
    then frame_count self else last_log_frame self.
Proof.
  unfold log_frame. destruct (frame_count self - last_log_frame self >=? 30); reflexivity.
Qed.

Lemma last_log_frame_after (f : Frame) (self : SquatDetector) :
  last_log_frame (snd (after f self))
  = match measurement_of f with
    | Some _ =>
        if frame_count self + 1 - last_log_frame self >=? 30
        then frame_count self + 1 else last_log_frame self
    | None => last_log_frame self
    end.
Proof.
  destruct (measurement_of f) as [m|] eqn:Hm.
  - rewrite (after_by_arm f m self Hm).
    assert (E : last_log_frame
                  (track m (log_frame (set_frame_count (frame_count self + 1) self)))
                = if frame_count self + 1 - last_log_frame self >=? 30
                  then frame_count self + 1 else last_log_frame self).
    { autorewrite with stages. rewrite last_log_frame_logged.
      autorewrite with stages. reflexivity. }
    destruct (transition m self); autorewrite with stages; try exact E.
    + rewrite last_log_frame_logged. autorewrite with stages. reflexivity.
    + destruct (squat_completed_bookkeeping
                  (track m (log_frame (set_frame_count (frame_count self + 1) self))))
        as (_ & L & _).
      rewrite L. exact E.
    + rewrite last_log_frame_logged. autorewrite with stages. reflexivity.
    + rewrite last_log_frame_logged. autorewrite with stages. reflexivity.
  - rewrite (after_rejected f self Hm). reflexivity.
Qed.

Lemma frame_count_after_all (frames : list Frame) (self : SquatDetector) :
  frame_count (snd (after_all frames self)) = frame_count self + len frames /\
  len (fst (after_all frames self)) = len frames.
Proof.
  revert self. induction frames as [|f rest IH]; intros self.
  - cbn. split; [lia | reflexivity].
  - cbn [after_all]. destruct (IH (snd (after f self))) as [F L].
    destruct (after_all rest (snd (after f self))) as [out s'].
    cbn [fst snd] in *. rewrite F, frame_count_after.
    unfold len in *. cbn [List.length]. lia.
Qed.

Lemma reachable_log_mark (self : SquatDetector) :
  reachable self -> 0 <= last_log_frame self <= frame_count self.
Proof.
  revert self.
  apply (reachable_induction (fun s => 0 <= last_log_frame s <= frame_count s)).
  - cbn. lia.
  - intros f s H. rewrite frame_count_after, last_log_frame_after.
    destruct (measurement_of f); [|lia].
    destruct (frame_count s + 1 - last_log_frame s >=? 30); lia.
  - intros s H. exact H.
Qed.

(** X9.  Every call of [detect_squat] advances [frame_count] by one, on
    accepted and rejected frames alike, so a stream of [n] frames advances
    it by [n] and yields [n] analyses.  Right after an accepted frame fewer
    than 30 frames have passed since the frame marked in [last_log_frame];
    and in every reachable state that mark is between 0 and
    [frame_count]. *)
Theorem X9_frame_count_and_log_mark :
  (forall (frames : list Frame) (self : SquatDetector),
      exists out self',
        feed frames self = Ok (out, self') /\
        frame_count self' = frame_count self + len frames /\
        len out = len frames) /\
  (forall (f : Frame) (m : Measurement) (self : SquatDetector),
      measurement_of f = Some m ->
      exists a self',
        detect_squat f self = Ok (a, self') /\
        frame_count self' - last_log_frame self' < 30) /\
  (forall self, reachable self -> 0 <= last_log_frame self <= frame_count self).
Proof.
  split; [|split].
  - intros frames self.
    exists (fst (after_all frames self)), (snd (after_all frames self)).
    split; [rewrite feed_returns; destruct (after_all frames self); reflexivity|].
    apply frame_count_after_all.
  - intros f m self Hm.
    exists (fst (after f self)), (snd (after f self)).
    split; [apply detect_squat_pair|].
    rewrite frame_count_after, last_log_frame_after, Hm.
    destruct (frame_count self + 1 - last_log_frame self >=? 30) eqn:G; [lia|].
    rewrite Z.geb_leb in G. apply Z.leb_gt in G. lia.
  - apply reachable_log_mark.
Qed.

Lemma X9_frame_count_and_log_mark_witness :
  0 <= last_log_frame detector_after_one_squat <= frame_count detector_after_one_squat /\
  exists out self',
    feed [None; deep_squat_pose; Some []] __init__ = Ok (out, self') /\
    frame_count self' = 3.
Proof.
  split.
  - apply (proj2 (proj2 X9_frame_count_and_log_mark)).
    apply detector_after_one_squat_reachable.
  - destruct (proj1 X9_frame_count_and_log_mark [None; deep_squat_pose; Some []] __init__)
      as (out & self' & E & F & _).
    exists out, self'. split; [exact E | exact F].
Defined.

(** *** Starts and completions come in pairs *)

Lemma fired_accepted (f : Frame) (m : Measurement) (self : SquatDetector) :
  measurement_of f = Some m -> fired [f] self = [Some (transition m self)].
Proof.
  intros Hm. cbn [fired]. rewrite Hm, transition_tracked, transition_bump. reflexivity.
Qed.

Lemma fired_rejected (f : Frame) (self : SquatDetector) :
  measurement_of f = None -> fired [f] self = [None].
Proof. intros Hm. cbn [fired]. rewrite Hm. reflexivity. Qed.

Lemma count_fired_app (t : Transition) (l l' : list (option Transition)) :
  count_fired t (l ++ l') = count_fired t l + count_fired t l'.
Proof. unfold count_fired. rewrite filter_app, length_app. lia. Qed.

Lemma is_currently_squatting_after (f : Frame) (m : Measurement) (self : SquatDetector) :
  measurement_of f = Some m ->
  is_currently_squatting (snd (after f self))
  = match transition m self with
    | SquatStarted => true
    | SquatCompleted => false
    | StandingAgain => false
    | NoTransition => is_currently_squatting self
    end.
Proof.
  intros Hm. rewrite (after_by_arm f m self Hm).
  destruct (transition m self); autorewrite with stages; try reflexivity.
  apply (squat_completed_flags
           (track m (log_frame (set_frame_count (frame_count self + 1) self)))).
Qed.

Lemma total_attempts_after (f : Frame) (m : Measurement) (self : SquatDetector) :
  measurement_of f = Some m ->
  total_attempts (snd (after f self))
  = match transition m self with
    | SquatCompleted => total_attempts self + 1
    | _ => total_attempts self
    end.
Proof.
  intros Hm. rewrite (after_by_arm f m self Hm).
  destruct (transition m self); autorewrite with stages; try reflexivity.
  destruct (squat_completed_flags
              (track m (log_frame (set_frame_count (frame_count self + 1) self))))
    as (_ & _ & _ & A & _).
  rewrite A. autorewrite with stages. reflexivity.
Qed.

Lemma pairing_after (f : Frame) (self : SquatDetector) :
  was_standing self = negb (is_currently_squatting self) ->
  count_fired SquatStarted (fired [f] self) + down self
  = count_fired SquatCompleted (fired [f] self) + down (snd (after f self)) /\
  total_attempts (snd (after f self))
  = total_attempts self + count_fired SquatCompleted (fired [f] self).
Proof.
  intros H. unfold down. destruct (measurement_of f) as [m|] eqn:Hm.
  - rewrite (fired_accepted f m self Hm), (is_currently_squatting_after f m self Hm),
      (total_attempts_after f m self Hm).
    destruct (transition_cases m self) as (S & C & A).
    destruct (transition m self) eqn:T; unfold count_fired; cbn.
    + destruct (S eq_refl) as [W _]. rewrite W in H.
      destruct (is_currently_squatting self); [discriminate | lia].
    + destruct (C eq_refl) as (_ & Q & _). rewrite Q. lia.
    + destruct (A eq_refl) as (_ & [W | Q]).
      * rewrite W in H. destruct (is_currently_squatting self); [discriminate | lia].
      * rewrite Q. lia.
    + lia.
  - rewrite (fired_rejected f self Hm), (after_rejected f self Hm). cbn [snd].
    autorewrite with stages. unfold count_fired. cbn. lia.
Qed.

Lemma pairing_stream (frames : list Frame) (self : SquatDetector) :
  was_standing self = negb (is_currently_squatting self) ->
  count_fired SquatStarted (fired frames self) + down self
  = count_fired SquatCompleted (fired frames self) + down (snd (after_all frames self)) /\
  total_attempts (snd (after_all frames self))
  = total_attempts self + count_fired SquatCompleted (fired frames self).
Proof.
  revert self. induction frames as [|f rest IH]; intros self H.
  - cbn. unfold count_fired. cbn. lia.
  - rewrite after_all_cons, fired_cons, !count_fired_app.
    destruct (pairing_after f self H) as [P1 T1].
    destruct (IH (snd (after f self)) (posture_exact_after f self H)) as [P2 T2].
    lia.
Qed.

(** X10.  Over any stream fed to a detector with exactly one posture flag
    set: the frames that started a repetition, plus one if the detector was
    down, are as many as the frames that completed one, plus one if it is
    down afterwards.  So no repetition completes without having started,
    none completes twice, and [total_attempts] grows by the number of
    completing frames. *)
Theorem X10_starts_and_completions_pair :
  forall (frames : list Frame) (self : SquatDetector),
    was_standing self = negb (is_currently_squatting self) ->
    exists out self',
      feed frames self = Ok (out, self') /\
      count_fired SquatStarted (fired frames self) + down self
      = count_fired SquatCompleted (fired frames self) + down self' /\
      count_fired SquatCompleted (fired frames self)
      <= count_fired SquatStarted (fired frames self) + down self /\
      total_attempts self'
      = total_attempts self + count_fired SquatCompleted (fired frames self).
Proof.
  intros frames self H.
  exists (fst (after_all frames self)), (snd (after_all frames self)).
  split; [rewrite feed_returns; destruct (after_all frames self); reflexivity|].
  destruct (pairing_stream frames self H) as [P T].
  split; [exact P|]. split; [|exact T].
  assert (D : 0 <= down (snd (after_all frames self)))
    by (unfold down;
        destruct (is_currently_squatting (snd (after_all frames self))); lia).
  lia.
Qed.

Lemma X10_starts_and_completions_pair_witness :
  exists out self',
    feed [deep_squat_pose; standing_pose; standing_pose] __init__ = Ok (out, self') /\
    count_fired SquatCompleted
      (fired [deep_squat_pose; standing_pose; standing_pose] __init__)
    <= count_fired SquatStarted
         (fired [deep_squat_pose; standing_pose; standing_pose] __init__)
       + down __init__.
Proof.
  destruct (X10_starts_and_completions_pair
              [deep_squat_pose; standing_pose; standing_pose] __init__ eq_refl)
    as (out & self' & E & _ & L & _).
  exists out, self'. split; [exact E | exact L].
Defined.

(** X11.  In every reachable state exactly one of [was_standing] and
    [is_currently_squatting] is set.  So the third arm of the state machine,
    which forces the standing posture, runs only on a detector that is
    already standing and changes neither the posture nor any counter. *)
Theorem X11_one_posture_flag :
  forall self : SquatDetector,
    reachable self ->
    was_standing self = negb (is_currently_squatting self) /\
    forall f : Frame,
      fired [f] self = [Some StandingAgain] ->
      exists a self',
        detect_squat f self = Ok (a, self') /\
        was_standing self = true /\
        same_posture self self' /\
        same_counters self self' /\
        same_accumulators self self' /\
        squat_just_completed self' = squat_just_completed self.
Proof.
  intros self R. pose proof (reachable_posture_exact self R) as H.
  split; [exact H|].
  intros f F.
  exists (fst (after f self)), (snd (after f self)).
  split; [apply detect_squat_pair|].
  destruct (measurement_of f) as [m|] eqn:Hm;
    [|rewrite (fired_rejected f self Hm) in F; discriminate].
  rewrite (fired_accepted f m self Hm) in F. injection F as T.
  destruct (transition_cases m self) as (_ & _ & A).
  assert (W : was_standing self = true).
  { destruct (A T) as (_ & [W | Q]); [exact W | rewrite H, Q; reflexivity]. }
  assert (Q : is_currently_squatting self = false).
  { rewrite W in H. destruct (is_currently_squatting self); [discriminate | reflexivity]. }
  split; [exact W|].
  rewrite (after_by_arm f m self Hm), T.
  unfold same_posture, same_counters, same_accumulators.
  autorewrite with stages. rewrite W, Q. repeat split.
Qed.

Lemma standing_pose_from_init : fired [standing_pose] __init__ = [Some StandingAgain].
Proof.
  destruct standing_pose_form as (m & Hm & K & _).
  rewrite (fired_accepted standing_pose m __init__ Hm).
  unfold transition, is_squatting, is_standing,
    SQUATTING_KNEE_THRESHOLD, STANDING_KNEE_THRESHOLD.
  rewrite K, (Rltb_false 180 120), (Rgeb_true 180 130) by lra. reflexivity.
Qed.

Lemma X11_one_posture_flag_witness :
  exists a self',
    detect_squat standing_pose __init__ = Ok (a, self') /\
    same_posture __init__ self' /\
    same_counters __init__ self'.
Proof.
  destruct (proj2 (X11_one_posture_flag __init__ reach_init) standing_pose
              standing_pose_from_init) as (a & self' & E & _ & P & C & _).
  exists a, self'. split; [exact E|]. split; [exact P | exact C].
Defined.

(** *** The lowest knee angle while down *)

Lemma perfect_knee_bound (m : Measurement) :
  lower_body_perfect m = true -> (avg_knee_angle m <= 110)%R.
Proof. intros H. apply perfect_form_iff in H. unfold perfect_form in H. lra. Qed.

Lemma lowest_tracked (m : Measurement) (self : SquatDetector) (n : Z) :
  (is_currently_squatting self = true ->
   (lowest_knee_angle_this_squat self < 120)%R /\
   (best_form_this_squat self = true ->
    (lowest_knee_angle_this_squat self <= 110)%R)) ->
  let tracked := track m (log_frame (set_frame_count n self)) in
  is_currently_squatting tracked = true ->
  (lowest_knee_angle_this_squat tracked < 120)%R /\
  (best_form_this_squat tracked = true ->
   (lowest_knee_angle_this_squat tracked <= 110)%R).
Proof.
  intros H tracked Q. unfold tracked in *. autorewrite with stages in Q.
  destruct (H Q) as [L B].
  assert (Q' : is_currently_squatting (log_frame (set_frame_count n self)) = true)
    by (autorewrite with stages; exact Q).
  destruct (track_down m _ Q') as (Lt & Bt & _).
  rewrite Lt, Bt. autorewrite with stages.
  pose proof (Rmin_l (lowest_knee_angle_this_squat self) (avg_knee_angle m)) as M1.
  pose proof (Rmin_r (lowest_knee_angle_this_squat self) (avg_knee_angle m)) as M2.
  split; [lra|].
  intros E. apply orb_true_iff in E. destruct E as [E|E].
  - specialize (B E). lra.
  - apply perfect_knee_bound in E. lra.
Qed.

Lemma lowest_after (f : Frame) (self : SquatDetector) :
  (is_currently_squatting self = true ->
   (lowest_knee_angle_this_squat self < 120)%R /\
   (best_form_this_squat self = true ->
    (lowest_knee_angle_this_squat self <= 110)%R)) ->
  is_currently_squatting (snd (after f self)) = true ->
  (lowest_knee_angle_this_squat (snd (after f self)) < 120)%R /\
  (best_form_this_squat (snd (after f self)) = true ->
   (lowest_knee_angle_this_squat (snd (after f self)) <= 110)%R).
Proof.
  intros H. destruct (measurement_of f) as [m|] eqn:Hm.
  - pose proof (lowest_tracked m self (frame_count self + 1) H) as T. cbv zeta in T.
    rewrite (after_by_arm f m self Hm).
    destruct (transition_cases m self) as (S & _).
    destruct (transition m self) eqn:E; autorewrite with stages.
    + intros _. destruct (S eq_refl) as [_ K]. split; [exact K | discriminate].
    + destruct (squat_completed_flags
                  (track m (log_frame (set_frame_count (frame_count self + 1) self))))
        as (_ & Q & _).
      rewrite Q. discriminate.
    + discriminate.
    + intros Q. apply T. autorewrite with stages. exact Q.
  - rewrite (after_rejected f self Hm). cbn [snd]. autorewrite with stages. exact H.
Qed.

Lemma reachable_lowest (self : SquatDetector) :
  reachable self ->
  is_currently_squatting self = true ->
  (lowest_knee_angle_this_squat self < 120)%R /\
  (best_form_this_squat self = true ->
   (lowest_knee_angle_this_squat self <= 110)%R).
Proof.
  revert self.
  apply (reachable_induction
           (fun s => is_currently_squatting s = true ->
                     (lowest_knee_angle_this_squat s < 120)%R /\
                     (best_form_this_squat s = true ->
                      (lowest_knee_angle_this_squat s <= 110)%R))).
  - discriminate.
  - intros f s. apply lowest_after.
  - intros s H. exact H.
Qed.

(** What a completing frame leaves in the attributes the completion
    feedback reads. *)
Lemma completion_record (f : Frame) (self : SquatDetector) :
  fired [f] self = [Some SquatCompleted] ->
  exists m,
    measurement_of f = Some m /\
    (130 <= avg_knee_angle m)%R /\
    is_currently_squatting self = true /\
    let tracked := track m (log_frame (set_frame_count (frame_count self + 1) self)) in
    lowest_knee_angle_this_squat (snd (after f self))
    = lowest_knee_angle_this_squat tracked /\
    best_form_this_squat (snd (after f self)) = best_form_this_squat tracked /\
    last_squat_was_perfect (snd (after f self))
    = best_form_this_squat tracked && Rltb (lowest_knee_angle_this_squat tracked) 110 /\
    squat_count (snd (after f self))
    = squat_count self + (if last_squat_was_perfect (snd (after f self)) then 1 else 0) /\
    last_squat_analysis (snd (after f self)) = Some (fst (after f self)) /\
    knee_angle (fst (after f self)) = avg_knee_angle m.
Proof.
  intros F. destruct (measurement_of f) as [m|] eqn:Hm;
    [|rewrite (fired_rejected f self Hm) in F; discriminate].
  rewrite (fired_accepted f m self Hm) in F. injection F as T.
  destruct (transition_cases m self) as (_ & C & _).
  destruct (C T) as (_ & Q & K).
  exists m. split; [reflexivity|]. split; [exact K|]. split; [exact Q|].
  intros tracked.
  rewrite (stored_analysis_after f m self Hm), (analysis_after f m self Hm).
  rewrite (after_by_arm f m self Hm), T. fold tracked.
  autorewrite with stages.
  destruct (squat_completed_flags tracked) as (_ & _ & _ & _ & P).
  destruct (squat_completed_transient tracked) as (_ & _ & _ & _ & L).
  destruct (squat_completed_bookkeeping tracked) as (_ & _ & B & _).
  rewrite L, B, P.
  split; [reflexivity|]. split; [reflexivity|]. split; [reflexivity|].
  split; [|split; reflexivity].
  rewrite <- P.
  destruct (last_squat_was_perfect (squat_completed tracked)) eqn:E.
  - destruct (squat_completed_perfect tracked E) as (_ & S & _).
    rewrite S. unfold tracked. autorewrite with stages. reflexivity.
  - destruct (squat_completed_imperfect tracked E) as (_ & S & _).
    rewrite S. unfold tracked. autorewrite with stages. lia.
Qed.

(** X12.  While a reachable detector is down, the lowest knee angle it has
    recorded is below 120, and at most 110 once a frame with perfect form
    was seen.  So when a repetition that had a frame with perfect form is
    recorded as imperfect, its lowest knee angle is exactly 110. *)
Theorem X12_lowest_knee_while_down :
  forall self : SquatDetector,
    reachable self ->
    (is_currently_squatting self = true ->
     (lowest_knee_angle_this_squat self < 120)%R /\
     (best_form_this_squat self = true ->
      (lowest_knee_angle_this_squat self <= 110)%R)) /\
    forall f : Frame,
      fired [f] self = [Some SquatCompleted] ->
      exists a self',
        detect_squat f self = Ok (a, self') /\
        (lowest_knee_angle_this_squat self' < 120)%R /\
        (last_squat_was_perfect self' = false ->
         best_form_this_squat self' = true ->
         lowest_knee_angle_this_squat self' = 110%R).
Proof.
  intros self R. pose proof (reachable_lowest self R) as H.
  split; [exact H|].
  intros f F.
  exists (fst (after f self)), (snd (after f self)).
  split; [apply detect_squat_pair|].
  destruct (completion_record f self F) as (m & Hm & K & Q & L & B & P & _).
  cbv zeta in L, B, P.
  assert (Qt : is_currently_squatting
                 (track m (log_frame (set_frame_count (frame_count self + 1) self)))
               = true) by (autorewrite with stages; exact Q).
  destruct (lowest_tracked m self (frame_count self + 1) H Qt) as [Lt Bt].
  rewrite L, B, P. split; [exact Lt|].
  intros E Bf. rewrite Bf in E. cbn [andb] in E.
  specialize (Bt Bf).
  unfold Rltb in E. destruct (Rlt_dec _ 110); [discriminate | lra].
Qed.

Lemma X12_lowest_knee_while_down_witness :
  (lowest_knee_angle_this_squat squatting_detector < 120)%R.
Proof.
  apply (proj1 (X12_lowest_knee_while_down squatting_detector
                  (reachable_after deep_squat_pose __init__ reach_init))).
  apply squatting_detector_down.
Defined.

(** ** The spoken feedback after a completion *)

(** X13.  Asked for the feedback on an imperfect repetition right after the
    frame that completed it, the detector answers one of two sentences: "Go
    deeper. Bend your knees more" when the lowest knee angle of the
    repetition is 110 or more, and otherwise "Please adjust your form.
    Check your knee position", because the analysis it consults is that of
    the completing frame, whose knee angle is at least 130.  The sentences
    about the hips and the depth cannot be the answer then. *)
Theorem X13_imperfect_feedback_after_completion :
  forall (f : Frame) (self : SquatDetector) (draw : nat),
    fired [f] self = [Some SquatCompleted] ->
    exists a self',
      detect_squat f self = Ok (a, self') /\
      get_squat_completion_feedback draw false self'
      = Ok (if Rgeb (lowest_knee_angle_this_squat self') 110
            then "Go deeper. Bend your knees more"%string
            else "Please adjust your form. Check your knee position"%string,
            self').
Proof.
  intros f self draw F.
  exists (fst (after f self)), (snd (after f self)).
  split; [apply detect_squat_pair|].
  destruct (completion_record f self F) as (m & Hm & K & _ & _ & _ & _ & _ & A & Ka).
  unfold get_squat_completion_feedback, _determine_bad_squat_feedback.
  rewrite A, Ka.
  destruct (Rgeb (lowest_knee_angle_this_squat (snd (after f self))) 110);
    [reflexivity|].
  unfold KNEE_PERFECT_MAX. rewrite (Rleb_false (avg_knee_angle m) 110) by lra.
  rewrite andb_false_r. reflexivity.
Qed.

Lemma X13_imperfect_feedback_after_completion_witness :
  exists a self' s,
    detect_squat standing_pose squatting_detector = Ok (a, self') /\
    get_squat_completion_feedback 0 false self' = Ok (s, self') /\
    (s = "Go deeper. Bend your knees more"%string \/
     s = "Please adjust your form. Check your knee position"%string).
Proof.
  destruct (X13_imperfect_feedback_after_completion standing_pose squatting_detector
              0%nat standing_pose_completes) as (a & self' & E & G).
  exists a, self'. eexists. split; [exact E|]. split; [exact G|].
  destruct (Rgeb (lowest_knee_angle_this_squat self') 110); [left | right]; reflexivity.
Defined.

Lemma congratulation_drawn (draw : nat) (n : Z) :
  In (nth (draw mod 5) (congratulations n) EmptyString) (congratulations n).
Proof.
  apply nth_In. cbn [congratulations List.length].
  apply Nat.mod_upper_bound. discriminate.
Qed.

(** X14.  Asked for the feedback on a perfect repetition, the detector
    answers one of its five congratulation phrases, whatever is drawn, with
    the current [squat_count] written in it, and changes nothing.  Right
    after a frame that completed a perfect repetition that count is one
    more than before the frame. *)
Theorem X14_perfect_feedback :
  (forall (draw : nat) (self : SquatDetector),
      exists s,
        get_squat_completion_feedback draw true self = Ok (s, self) /\
        In s (congratulations (squat_count self))) /\
  (forall (f : Frame) (self : SquatDetector) (draw : nat),
      fired [f] self = [Some SquatCompleted] ->
      exists a self' s,
        detect_squat f self = Ok (a, self') /\
        get_squat_completion_feedback draw (last_squat_was_perfect self') self'
        = Ok (s, self') /\
        (last_squat_was_perfect self' = true ->
         In s (congratulations (squat_count self + 1)))).
Proof.
  split.
  - intros draw self. eexists. split; [reflexivity|].
    apply (congratulation_drawn draw (squat_count self)).
  - intros f self draw F.
    destruct (get_squat_completion_feedback_reads draw
                (last_squat_was_perfect (snd (after f self))) (snd (after f self)))
      as [s E].
    exists (fst (after f self)), (snd (after f self)), s.
    split; [apply detect_squat_pair|]. split; [exact E|].
    intros P. rewrite P in E.
    destruct (completion_record f self F) as (m & _ & _ & _ & _ & _ & _ & S & _).
    rewrite P in S. rewrite <- S.
    unfold get_squat_completion_feedback in E. injection E as <-.
    apply (congratulation_drawn draw (squat_count (snd (after f self)))).
Qed.

Lemma perfect_sample_completion :
  fired [standing_pose] detector_down_with_form = [Some SquatCompleted] /\
  last_squat_was_perfect (snd (after standing_pose detector_down_with_form)) = true /\
  squat_count detector_down_with_form = 0.
Proof.
  assert (H : repetition __init__ deep_squat_pose [deep_squat_pose] standing_pose)
    by (apply sample_repetition; repeat constructor; apply deep_squat_pose_not_standing).
  destruct (repetition_outcome __init__ deep_squat_pose [deep_squat_pose]
              standing_pose H) as (F & _ & _ & _ & _ & _ & P & _).
  split; [exact F|]. split.
  - assert (E : snd (after standing_pose detector_down_with_form)
                = snd (after_all (deep_squat_pose :: [deep_squat_pose] ++ [standing_pose])
                         __init__)).
    { unfold detector_down_with_form.
      change (deep_squat_pose :: [deep_squat_pose] ++ [standing_pose])
        with ([deep_squat_pose; deep_squat_pose] ++ [standing_pose]).
      rewrite after_all_app, (after_all_cons standing_pose []). reflexivity. }
    rewrite E. apply (sample_repetition_perfect
                        (fst (after_all (deep_squat_pose :: [deep_squat_pose]
                                           ++ [standing_pose]) __init__))).
    rewrite feed_returns.
    destruct (after_all (deep_squat_pose :: [deep_squat_pose] ++ [standing_pose]) __init__).
    reflexivity.
  - destruct deep_squat_pose_form as (m & Hm & K & _).
    assert (Hk : (avg_knee_angle m < SQUATTING_KNEE_THRESHOLD)%R)
      by (unfold SQUATTING_KNEE_THRESHOLD; rewrite K; lra).
    destruct (start_frame deep_squat_pose m __init__ Hm eq_refl Hk)
      as (W & Q & C & _).
    assert (N : Forall not_standing [deep_squat_pose])
      by (repeat constructor; apply deep_squat_pose_not_standing).
    destruct (down_stream [deep_squat_pose] _ W Q N) as (_ & _ & C' & _).
    unfold detector_down_with_form. rewrite after_all_cons.
    unfold same_counters in *.
    destruct C as (_ & _ & _ & C). destruct C' as (_ & _ & _ & C').
    rewrite C', C. reflexivity.
Qed.

Lemma X14_perfect_feedback_witness :
  exists a self' s,
    detect_squat standing_pose detector_down_with_form = Ok (a, self') /\
    get_squat_completion_feedback 3 true self' = Ok (s, self') /\
    In s (congratulations 1).
Proof.
  destruct perfect_sample_completion as (F & P & C).
  destruct (proj2 X14_perfect_feedback standing_pose detector_down_with_form 3%nat F)
    as (a & self' & s & E & G & I).
  destruct (detect_squat_state _ _ _ _ E) as [_ Es].
  assert (P' : last_squat_was_perfect self' = true) by (rewrite Es; exact P).
  rewrite P' in G. specialize (I P'). rewrite C in I.
  exists a, self', s. split; [exact E|]. split; [exact G | exact I].
Defined.

(** ** Reset *)

Lemma standing_on_new_detector (m : Measurement) :
  (130 <= avg_knee_angle m)%R -> transition m __init__ = StandingAgain.
Proof.
  intros K. unfold transition, is_squatting, is_standing,
    SQUATTING_KNEE_THRESHOLD, STANDING_KNEE_THRESHOLD.
  rewrite (Rltb_false _ 120), (Rgeb_true _ 130) by lra. reflexivity.
Qed.

(** X15.  [reset_squat_count] puts the detector, whatever its state, into
    the state of a newly constructed one.  Afterwards the summary is all
    zeros, the count is 0, no completion is pending, and a frame with the
    knees at 130 or more counts no attempt and raises no completion. *)
Theorem X15_reset_restores_construction :
  forall self : SquatDetector,
    exists self',
      reset_squat_count self = Ok (tt, self') /\
      self' = __init__ /\
      get_feedback_data self' = Ok (empty_summary, self') /\
      get_squat_count self' = Ok (0, self') /\
      has_squat_just_completed self' = Ok (false, self') /\
      forall (f : Frame) (m : Measurement),
        measurement_of f = Some m ->
        (130 <= avg_knee_angle m)%R ->
        exists a self'',
          detect_squat f self' = Ok (a, self'') /\
          total_attempts self'' = 0 /\
          squat_just_completed self'' = false /\
          was_standing self'' = true /\
          is_currently_squatting self'' = false.
Proof.
  intros self. exists __init__.
  split; [apply reset_squat_count_init|]. split; [reflexivity|].
  split; [reflexivity|]. split; [reflexivity|]. split; [reflexivity|].
  intros f m Hm K.
  exists (fst (after f __init__)), (snd (after f __init__)).
  split; [apply detect_squat_pair|].
  rewrite (after_by_arm f m __init__ Hm), (standing_on_new_detector m K).
  autorewrite with stages. repeat split.
Qed.

Lemma X15_reset_restores_construction_witness :
  exists self' a self'',
    reset_squat_count detector_after_one_squat = Ok (tt, self') /\
    detect_squat standing_pose self' = Ok (a, self'') /\
    total_attempts self'' = 0.
Proof.
  destruct (X15_reset_restores_construction detector_after_one_squat)
    as (self' & E & _ & _ & _ & _ & H).
  destruct standing_pose_form as (m & Hm & K & _).
  destruct (H standing_pose m Hm) as (a & self'' & E' & T & _).
  - rewrite K. lra.
  - exists self', a, self''. split; [exact E|]. split; [exact E' | exact T].
Defined.

(** ** Rejected frames leave no trace but in the frame counter *)

Lemma forget_set_frame_count (n : Z) (self : SquatDetector) :
  forget_frames (set_frame_count n self) = forget_frames self.
Proof. reflexivity. Qed.

Lemma forget_log_frame (self : SquatDetector) :
  forget_frames (log_frame self) = forget_frames self.
Proof.
  unfold log_frame. destruct (frame_count self - last_log_frame self >=? 30); reflexivity.
Qed.

Lemma forget_set_last_squat_analysis (a : option SquatAnalysis) (self : SquatDetector) :
  forget_frames (set_last_squat_analysis a self)
  = set_last_squat_analysis a (forget_frames self).
Proof. reflexivity. Qed.

Lemma forget_track (m : Measurement) (self : SquatDetector) :
  forget_frames (track m self) = track m (forget_frames self).
Proof.
  unfold track.
  change (is_currently_squatting (forget_frames self))
    with (is_currently_squatting self).
  destruct (is_currently_squatting self); [|reflexivity].
  destruct (knees_good m), (hips_good m && depth_good m), (back_good m),
    (lower_body_perfect m);
    cbn [lowest_knee_angle_this_squat forget_frames set_last_log_frame set_frame_count
         set_current_squat_total_frames set_current_squat_knee_frames
         set_current_squat_hip_frames set_current_squat_back_frames];
    destruct (Rltb (avg_knee_angle m) (lowest_knee_angle_this_squat self));
    reflexivity.
Qed.

Lemma forget_state_machine (m : Measurement) (self : SquatDetector) :
  forget_frames (state_machine m self) = state_machine m (forget_frames self).
Proof.
  unfold state_machine.
  change (transition m (forget_frames self)) with (transition m self).
  destruct (transition m self); try reflexivity.
  unfold squat_completed.
  cbn [best_form_this_squat lowest_knee_angle_this_squat forget_frames
       set_last_log_frame set_frame_count set_is_currently_squatting set_was_standing
       set_total_attempts set_squat_just_completed].
  destruct (best_form_this_squat self && Rltb (lowest_knee_angle_this_squat self) 110);
    reflexivity.
Qed.

Lemma is_currently_squatting_forget (self : SquatDetector) :
  is_currently_squatting (forget_frames self) = is_currently_squatting self.
Proof. reflexivity. Qed.

Lemma analysis_by_posture (f : Frame) (m : Measurement) (s1 s2 : SquatDetector) :
  measurement_of f = Some m ->
  is_currently_squatting (snd (after f s1)) = is_currently_squatting (snd (after f s2)) ->
  fst (after f s1) = fst (after f s2).
Proof.
  intros Hm E.
  rewrite (analysis_after f m s1 Hm), (analysis_after f m s2 Hm).
  rewrite (feedback_after f m s1 Hm), (feedback_after f m s2 Hm), E. reflexivity.
Qed.

Lemma forget_after_state (f : Frame) (m : Measurement) (self : SquatDetector) :
  measurement_of f = Some m ->
  forget_frames (snd (after f self))
  = set_last_squat_analysis (Some (fst (after f self)))
      (state_machine m (track m (forget_frames self))).
Proof.
  intros Hm. rewrite (after_accepted f m self Hm) at 1. rewrite analyse_state.
  rewrite forget_set_last_squat_analysis, forget_state_machine, forget_track,
    forget_log_frame, forget_set_frame_count.
  rewrite <- (after_accepted f m self Hm). reflexivity.
Qed.

Lemma forget_after (f : Frame) (s1 s2 : SquatDetector) :
  forget_frames s1 = forget_frames s2 ->
  forget_frames (snd (after f s1)) = forget_frames (snd (after f s2)) /\
  (accepted f = true -> fst (after f s1) = fst (after f s2)).
Proof.
  intros E. unfold accepted. destruct (measurement_of f) as [m|] eqn:Hm.
  - assert (Q : is_currently_squatting (snd (after f s1))
                = is_currently_squatting (snd (after f s2))).
    { rewrite <- (is_currently_squatting_forget (snd (after f s1))),
        <- (is_currently_squatting_forget (snd (after f s2))).
      rewrite (forget_after_state f m s1 Hm), (forget_after_state f m s2 Hm), E.
      autorewrite with stages. reflexivity. }
    pose proof (analysis_by_posture f m s1 s2 Hm Q) as A.
    split; [|intros _; exact A].
    rewrite (forget_after_state f m s1 Hm), (forget_after_state f m s2 Hm), E, A.
    reflexivity.
  - split; [|discriminate].
    rewrite !(after_rejected f _ Hm). cbn [snd].
    rewrite !forget_set_frame_count. exact E.
Qed.

Lemma forget_rejected (f : Frame) (self : SquatDetector) :
  accepted f = false -> forget_frames (snd (after f self)) = forget_frames self.
Proof.
  unfold accepted. destruct (measurement_of f) eqn:Hm; [discriminate|]. intros _.
  rewrite (after_rejected f self Hm). reflexivity.
Qed.

Lemma rejected_frames_dropped (frames : list Frame) (s1 s2 : SquatDetector) :
  forget_frames s1 = forget_frames s2 ->
  forget_frames (snd (after_all frames s1))
  = forget_frames (snd (after_all (filter accepted frames) s2)) /\
  map snd (filter (fun p => accepted (fst p))
             (combine frames (fst (after_all frames s1))))
  = fst (after_all (filter accepted frames) s2).
Proof.
  revert s1 s2. induction frames as [|f rest IH]; intros s1 s2 E.
  - split; [exact E | reflexivity].
  - cbn [filter]. destruct (accepted f) eqn:A.
    + destruct (forget_after f s1 s2 E) as [E' O]. specialize (O A).
      destruct (IH _ _ E') as [S L].
      rewrite !after_all_cons. split; [exact S|].
      cbn [after_all].
      destruct (after_all rest (snd (after f s1))) as [o1 t1].
      destruct (after_all (filter accepted rest) (snd (after f s2))) as [o2 t2].
      cbn [fst snd combine filter map] in *. rewrite A.
      cbn [map snd]. rewrite L, O. reflexivity.
    + pose proof (forget_rejected f s1 A) as E'. rewrite E in E'.
      destruct (IH _ _ E') as [S L].
      rewrite after_all_cons. split; [exact S|].
      cbn [after_all].
      destruct (after_all rest (snd (after f s1))) as [o1 t1].
      cbn [fst snd combine filter map] in *. rewrite A. exact L.
Qed.

(** X16.  Rejected frames in a stream leave no trace but in the frame
    bookkeeping: feeding the stream and feeding only its accepted frames
    end in states that agree on every attribute but [frame_count] and
    [last_log_frame], and the accepted frames get the same analyses. *)
Theorem X16_rejected_frames_leave_no_trace :
  forall (frames : list Frame) (self : SquatDetector),
    exists out self' out_accepted self_accepted,
      feed frames self = Ok (out, self') /\
      feed (filter accepted frames) self = Ok (out_accepted, self_accepted) /\
      forget_frames self' = forget_frames self_accepted /\
      map snd (filter (fun p => accepted (fst p)) (combine frames out)) = out_accepted.
Proof.
  intros frames self.
  exists (fst (after_all frames self)), (snd (after_all frames self)),
         (fst (after_all (filter accepted frames) self)),
         (snd (after_all (filter accepted frames) self)).
  split; [rewrite feed_returns; destruct (after_all frames self); reflexivity|].
  split; [rewrite feed_returns; destruct (after_all _ self); reflexivity|].
  apply rejected_frames_dropped. reflexivity.
Qed.

(** ** The calls of the websocket loop *)

Lemma completes_iff (f : Frame) (self : SquatDetector) :
  completes f self = true <-> fired [f] self = [Some SquatCompleted].
Proof.
  unfold completes. destruct (measurement_of f) as [m|] eqn:Hm.
  - rewrite (fired_accepted f m self Hm).
    destruct (transition m self); cbn; split; intros H;
      try discriminate; reflexivity.
  - rewrite (fired_rejected f self Hm). split; discriminate.
Qed.

Lemma squat_just_completed_after (f : Frame) (self : SquatDetector) :
  squat_just_completed (snd (after f self))
  = completes f self || squat_just_completed self.
Proof.
  unfold completes. destruct (measurement_of f) as [m|] eqn:Hm.
  - rewrite (after_by_arm f m self Hm).
    destruct (transition m self); autorewrite with stages; try reflexivity.
    apply (squat_completed_flags
             (track m (log_frame (set_frame_count (frame_count self + 1) self)))).
  - rewrite (after_rejected f self Hm). reflexivity.
Qed.

(** X17.  For a frame with a pose, on a detector with no completion
    pending, the websocket loop gets a voice feedback exactly when the frame
    completed a repetition; it leaves no completion pending, so the same
    holds for the next frame; the count it reports is the detector's count
    after the frame; and apart from clearing the flag it leaves the
    detector as [detect_squat] left it. *)
Theorem X17_voice_feedback_on_completion :
  forall (draw : nat) (landmarks : list Landmark.t) (self : SquatDetector),
    squat_just_completed self = false ->
    exists a voice n self1 self',
      pose_frame_calls draw landmarks self = Ok ((a, voice, n), self') /\
      detect_squat (Some landmarks) self = Ok (a, self1) /\
      self' = set_squat_just_completed false self1 /\
      squat_just_completed self' = false /\
      (voice <> None <-> fired [Some landmarks] self = [Some SquatCompleted]) /\
      n = squat_count self'.
Proof.
  intros draw landmarks self H.
  pose proof (squat_just_completed_after (Some landmarks) self) as J.
  rewrite H, orb_false_r in J.
  unfold pose_frame_calls. rewrite detect_squat_pair.
  unfold has_squat_just_completed, was_last_squat_perfect, get_squat_count.
  cbv beta iota zeta.
  set (a := fst (after (Some landmarks) self)) in *.
  set (s1 := snd (after (Some landmarks) self)) in *.
  rewrite J.
  pose proof (completes_iff (Some landmarks) self) as C.
  destruct (completes (Some landmarks) self).
  - destruct (get_squat_completion_feedback_reads draw
                (last_squat_was_perfect (set_squat_just_completed false s1))
                (set_squat_just_completed false s1)) as [s E].
    rewrite E.
    exists a, (Some s), (squat_count (set_squat_just_completed false s1)), s1,
           (set_squat_just_completed false s1).
    repeat split; try reflexivity; try discriminate.
    intros _. apply C. reflexivity.
  - exists a, None, (squat_count (set_squat_just_completed false s1)), s1,
           (set_squat_just_completed false s1).
    repeat split; try reflexivity.
    + intros N. contradiction.
    + intros F. apply C in F. discriminate.
Qed.

Lemma X17_voice_feedback_on_completion_witness :
  exists a voice n self',
    pose_frame_calls 0 (pose (pt 0 0) (pt 0 0) (pt 0 0) (pt 0 0)
                             (pt 0 0) (pt 0 0) (pt 0 0) (pt 0 0)) __init__
    = Ok ((a, voice, n), self') /\
    squat_just_completed self' = false /\
    n = squat_count self'.
Proof.
  destruct (X17_voice_feedback_on_completion 0%nat
              (pose (pt 0 0) (pt 0 0) (pt 0 0) (pt 0 0)
                    (pt 0 0) (pt 0 0) (pt 0 0) (pt 0 0)) __init__ eq_refl)
    as (a & voice & n & self1 & self' & E & _ & _ & J & _ & N).
  exists a, voice, n, self'. split; [exact E|]. split; [exact J | exact N].
Defined.

(** ** More on what a frame is measured by *)

Section Depth.
Import Geometry.
Local Open Scope R_scope.

Lemma hip_depth_measure (j : Joints) :
  hip_depth_ratio (measure j)
  = if Reqb (knee_mid_y j) 0 then 0 else hip_mid_y j / knee_mid_y j.
Proof. reflexivity. Qed.

(** X18.  The depth check passes exactly when the knee midpoint has a
    positive [y] and the hip midpoint's [y] is at least 0.85 times it, or
    the knee midpoint has a negative [y] and the hip midpoint's [y] is at
    most 0.85 times it; it fails when the knee midpoint's [y] is 0, where
    the ratio is taken as 0 instead of dividing. *)
Theorem X18_depth_check :
  forall j : Joints,
    (depth_good (measure j) = true <->
     (0 < knee_mid_y j /\ 0.85 * knee_mid_y j <= hip_mid_y j) \/
     (knee_mid_y j < 0 /\ hip_mid_y j <= 0.85 * knee_mid_y j)) /\
    (knee_mid_y j = 0 ->
     hip_depth_ratio (measure j) = 0 /\ depth_good (measure j) = false).
Proof.
  intros j. unfold depth_good, MIN_HIP_DEPTH_RATIO. rewrite hip_depth_measure.
  unfold Reqb, Rgeb.
  destruct (Req_dec_T (knee_mid_y j) 0) as [E|E].
  - destruct (Rge_dec 0 0.85) as [G|G]; [lra|].
    split; [split; [discriminate | intros [[A _]|[A _]]; lra]|].
    intros _. split; reflexivity.
  - split; [|intros; contradiction].
    assert (D : hip_mid_y j = hip_mid_y j / knee_mid_y j * knee_mid_y j)
      by (field; exact E).
    destruct (Rge_dec (hip_mid_y j / knee_mid_y j) 0.85) as [G|G].
    + split; [intros _ | reflexivity].
      destruct (Rlt_dec 0 (knee_mid_y j)); [left | right]; split; nra.
    + split; [discriminate|].
      intros [[A B]|[A B]]; exfalso; apply G; apply Rle_ge.
      * apply Rmult_le_reg_r with (knee_mid_y j); [exact A|]. lra.
      * apply Ropp_le_cancel.
        apply Rmult_le_reg_r with (- knee_mid_y j); [lra|].
        nra.
Qed.

End Depth.

Lemma X18_depth_check_witness : depth_good (measure blank_joints) = false.
Proof.
  apply (proj2 (X18_depth_check blank_joints)).
  unfold knee_mid_y, blank_joints. cbn [left_knee right_knee pt Landmark.y]. lra.
Defined.

Lemma measurement_of_valid (lms : list Landmark.t) (j : Joints) :
  33 <= len lms -> joints lms = Ok j -> measurement_of (Some lms) = Some (measure j).
Proof.
  intros L J. unfold measurement_of.
  assert (E : py_not (Some lms) || (len lms <? 33) = false).
  { apply orb_false_iff. split.
    - destruct lms; [unfold len in L; cbn in L; lia | reflexivity].
    - apply Z.ltb_ge. exact L. }
  rewrite E, J. reflexivity.
Qed.

Lemma index_In {A : Type} (l : list A) (i : Z) (a : A) : index l i = Ok a -> In a l.
Proof.
  unfold index. destruct (nth_error l (Z.to_nat i)) eqn:E; [|discriminate].
  intros H. injection H as <-. apply (nth_error_In _ _ E).
Qed.

Lemma joints_In (lms : list Landmark.t) (j : Joints) :
  joints lms = Ok j ->
  In (left_shoulder j) lms /\ In (right_shoulder j) lms /\
  In (left_hip j) lms /\ In (right_hip j) lms /\
  In (left_knee j) lms /\ In (right_knee j) lms /\
  In (left_ankle j) lms /\ In (right_ankle j) lms.
Proof.
  unfold joints.
  destruct (index lms LEFT_HIP) as [lh|] eqn:E1; [|discriminate].
  destruct (index lms LEFT_KNEE) as [lk|] eqn:E2; [|discriminate].
  destruct (index lms LEFT_ANKLE) as [la|] eqn:E3; [|discriminate].
  destruct (index lms RIGHT_HIP) as [rh|] eqn:E4; [|discriminate].
  destruct (index lms RIGHT_KNEE) as [rk|] eqn:E5; [|discriminate].
  destruct (index lms RIGHT_ANKLE) as [ra|] eqn:E6; [|discriminate].
  destruct (index lms LEFT_SHOULDER) as [ls|] eqn:E7; [|discriminate].
  destruct (index lms RIGHT_SHOULDER) as [rs|] eqn:E8; [|discriminate].
  cbn [rbind]. intros H. injection H as <-.
  cbn [left_shoulder right_shoulder left_hip right_hip left_knee right_knee
       left_ankle right_ankle].
  repeat split; eapply index_In; eassumption.
Qed.

Section Degenerate.
Import Geometry.
Local Open Scope R_scope.

Lemma calculate_angle_same_place (p a b c : Landmark.t) :
  same_place p a -> same_place p b -> same_place p c -> _calculate_angle a b c = 0.
Proof.
  intros [A1 A2] [B1 B2] [C1 C2]. apply calculate_angle_coincident; congruence.
Qed.

Lemma measure_coincident (p : Landmark.t) (j : Joints) :
  same_place p (left_shoulder j) -> same_place p (right_shoulder j) ->
  same_place p (left_hip j) -> same_place p (right_hip j) ->
  same_place p (left_knee j) -> same_place p (right_knee j) ->
  same_place p (left_ankle j) -> same_place p (right_ankle j) ->
  avg_knee_angle (measure j) = 0 /\
  avg_hip_angle (measure j) = 0 /\
  back_lean (measure j) = 0.
Proof.
  intros Ls Rs Lh Rh Lk Rk La Ra.
  cbn [measure avg_knee_angle avg_hip_angle].
  rewrite (calculate_angle_same_place p _ _ _ Lh Lk La),
    (calculate_angle_same_place p _ _ _ Rh Rk Ra),
    (calculate_angle_same_place p _ _ _ Ls Lh Lk),
    (calculate_angle_same_place p _ _ _ Rs Rh Rk).
  split; [lra|]. split; [lra|].
  rewrite back_lean_measure. unfold trunk_dx, trunk_dy.
  destruct Ls as [<- <-], Rs as [<- <-], Lh as [<- <-], Rh as [<- <-].
  replace ((Landmark.x p + Landmark.x p) / 2 - (Landmark.x p + Landmark.x p) / 2)
    with 0 by lra.
  replace ((Landmark.y p + Landmark.y p) / 2 - (Landmark.y p + Landmark.y p) / 2)
    with 0 by lra.
  rewrite atan2_0_0, degrees_0. apply Rabs_R0.
Qed.

End Degenerate.

(** X19.  A frame whose landmarks all lie at one place of the image is
    accepted and measured with knee angle, hip angle and back lean all 0;
    it is never in squat position, and a detector that was standing takes
    it as the start of a repetition. *)
Theorem X19_coincident_landmarks :
  forall (lms : list Landmark.t) (p : Landmark.t) (self : SquatDetector),
    33 <= len lms ->
    Forall (same_place p) lms ->
    was_standing self = true ->
    exists a self',
      detect_squat (Some lms) self = Ok (a, self') /\
      knee_angle a = 0%R /\ hip_angle a = 0%R /\ back_angle a = 0%R /\
      is_squat_position a = false /\
      fired [Some lms] self = [Some SquatStarted] /\
      is_currently_squatting self' = true.
Proof.
  intros lms p self L F W.
  destruct (joints_ok lms L) as [j J].
  pose proof (measurement_of_valid lms j L J) as Hm.
  destruct (joints_In lms j J) as (I1 & I2 & I3 & I4 & I5 & I6 & I7 & I8).
  rewrite Forall_forall in F.
  destruct (measure_coincident p j (F _ I1) (F _ I2) (F _ I3) (F _ I4)
              (F _ I5) (F _ I6) (F _ I7) (F _ I8)) as (K & H & B).
  assert (Kl : (avg_knee_angle (measure j) < SQUATTING_KNEE_THRESHOLD)%R)
    by (unfold SQUATTING_KNEE_THRESHOLD; rewrite K; lra).
  pose proof (start_transition (measure j) self W Kl) as T.
  exists (fst (after (Some lms) self)), (snd (after (Some lms) self)).
  split; [apply detect_squat_pair|].
  rewrite (is_currently_squatting_after _ _ self Hm), T.
  rewrite (analysis_after _ _ self Hm).
  cbn [knee_angle hip_angle back_angle is_squat_position].
  split; [exact K|]. split; [exact H|]. split; [exact B|].
  split; [|split; [|reflexivity]].
  - unfold lower_body_perfect, knees_good, KNEE_PERFECT_MIN. rewrite K.
    rewrite (Rleb_false 50 0) by lra. reflexivity.
  - rewrite <- T. exact (fired_accepted (Some lms) (measure j) self Hm).
Qed.

Lemma X19_coincident_landmarks_witness :
  exists a self',
    detect_squat (Some blank_pose) __init__ = Ok (a, self') /\
    knee_angle a = 0%R /\
    is_currently_squatting self' = true.
Proof.
  destruct (X19_coincident_landmarks blank_pose (pt 0 0) __init__)
    as (a & self' & E & K & _ & _ & _ & _ & Q).
  - unfold len, blank_pose. rewrite repeat_length. lia.
  - unfold blank_pose. apply Forall_forall. intros q I.
    apply repeat_spec in I. subst q. split; reflexivity.
  - reflexivity.
  - exists a, self'. split; [exact E|]. split; [exact K | exact Q].
Defined.

Section Places.
Import Geometry.
Local Open Scope R_scope.

Lemma measure_same_places (j j' : Joints) :
  same_places j j' -> measure j = measure j'.
Proof.
  unfold same_places, same_place.
  intros ([A1 A2] & [B1 B2] & [C1 C2] & [D1 D2] & [E1 E2] & [F1 F2] & [G1 G2] & [H1 H2]).
  unfold measure, _calculate_angle, _calculate_back_lean, _calculate_hip_depth.
  rewrite A1, A2, B1, B2, C1, C2, D1, D2, E1, E2, F1, F2, G1, G2, H1, H2.
  reflexivity.
Qed.

End Places.

(** X20.  [detect_squat] reads a frame through the planar coordinates of
    eight landmarks only: two frames of at least 33 landmarks whose
    shoulders, hips, knees and ankles lie at the same places of the image
    get the same analysis and leave the same state, whatever their other
    landmarks, depths and visibilities. *)
Theorem X20_only_eight_joints_matter :
  forall (lms lms' : list Landmark.t) (j j' : Joints) (self : SquatDetector),
    33 <= len lms -> 33 <= len lms' ->
    joints lms = Ok j -> joints lms' = Ok j' ->
    same_places j j' ->
    detect_squat (Some lms) self = detect_squat (Some lms') self.
Proof.
  intros lms lms' j j' self L L' J J' S.
  rewrite !detect_squat_returns. unfold after.
  rewrite (measurement_of_valid lms j L J), (measurement_of_valid lms' j' L' J').
  rewrite (measure_same_places j j' S). reflexivity.
Qed.

Lemma X20_only_eight_joints_matter_witness :
  detect_squat (Some deep_squat_landmarks) __init__
  = detect_squat (Some deep_squat_landmarks_relabelled) __init__.
Proof.
  eapply X20_only_eight_joints_matter.
  - unfold len. cbn [deep_squat_landmarks pose repeat app List.length]. lia.
  - unfold len, deep_squat_landmarks_relabelled.
    rewrite length_app, length_map.
    cbn [deep_squat_landmarks pose repeat app List.length]. lia.
  - reflexivity.
  - reflexivity.
  - repeat split.
Defined.
